(** * Custom Transfer Protocol: a shallow embedding of the backend

    The Python sources embedded here are [backend/packet.py],
    [backend/congestion.py], [backend/server.py], [backend/client.py],
    [backend/reliability/stop_wait.py] and
    [backend/reliability/selective_repeat.py].

    Conventions of the embedding.
    - Python [int] is [Z]; [bytes] is [list byte]; a [dict] keyed by
      sequence numbers is a [gmap Z _]; a [set] of sequence numbers is a
      [gset Z]; a Python [float] of the congestion controller is a
      binary64 value ([Float.t]), every operation rounding to nearest,
      ties to even; a clock reading is the rational [Q] it denotes.
    - A Python exception is an explicit outcome: pure methods return a
      [result], methods that mutate [self] run in the state-and-exception
      monad [M], in which the mutations made before a [raise] persist.
    - The socket is a pair of explicit traces: what [sendto] was given is
      appended to an outbox; what [recvfrom] yields is an argument.
    - [random.random() < rate] and [time.time()] are arguments as well: the
      loss injector's verdict is a [bool], the clock reading a [Q].
    - UI callbacks, the event log and the statistics history only observe;
      they are left out. *)

From Stdlib Require Import ZArith List Lia Strings.Byte QArith Qabs Qround
  Qpower Lqa.
From stdpp Require Import base decidable option list gmap sorting.

Local Open Scope Z_scope.

(** ** Python outcomes *)

Inductive exn : Type :=
| ValueError | StructError | ZeroDivisionError | IndexError | OverflowError.

Inductive result (A : Type) : Type :=
| Returns (a : A)
| Raises (e : exn).
Arguments Returns {A} a.
Arguments Raises {A} e.

Definition result_bind {A B} (r : result A) (k : A -> result B) : result B :=
  match r with
  | Returns a => k a
  | Raises e => Raises e
  end.

(** The state-and-exception monad: [self] is threaded through, and an
    exception leaves [self] as it stood at the [raise]. *)
Definition M (S A : Type) : Type := S -> result A * S.

Definition ret {S A} (a : A) : M S A := fun s => (Returns a, s).
Definition raise {S A} (e : exn) : M S A := fun s => (Raises e, s).
Definition bind {S A B} (m : M S A) (k : A -> M S B) : M S B :=
  fun s => match m s with
           | (Returns a, s') => k a s'
           | (Raises e, s') => (Raises e, s')
           end.
Definition get {S} : M S S := fun s => (Returns s, s).
Definition gets {S A} (f : S -> A) : M S A := fun s => (Returns (f s), s).
Definition modify {S} (f : S -> S) : M S unit := fun s => (Returns tt, f s).
(** [try: m except Exception: h] *)
Definition try_except {S A} (m : M S A) (h : exn -> M S A) : M S A :=
  fun s => match m s with
           | (Returns a, s') => (Returns a, s')
           | (Raises e, s') => h e s'
           end.
Definition lift_result {S A} (r : result A) : M S A := fun s => (r, s).
Definition when {S} (b : bool) (m : M S unit) : M S unit :=
  if b then m else ret tt.

Notation "'do' x <- m ; k" := (bind m (fun x => k))
  (at level 10, x name, m at level 100, k at level 200,
   format "'[v' 'do'  x  <-  m ; '/' k ']'").
Notation "'run' m ; k" := (bind m (fun _ => k))
  (at level 10, m at level 100, k at level 200,
   format "'[v' 'run'  m ; '/' k ']'").

(** ** packet.py *)

Module Packet.

Definition FLAG_SYN : Z := 0x01.
Definition FLAG_ACK : Z := 0x02.
Definition FLAG_FIN : Z := 0x04.
Definition FLAG_DATA : Z := 0x08.

Definition HEADER_SIZE : nat := 13.
Definition MAX_DATA_SIZE : nat := 1024.
Definition MAX_PACKET_SIZE : nat := HEADER_SIZE + MAX_DATA_SIZE.

(** *** Bytes and [struct] *)

Definition Z_of_byte (b : byte) : Z := Z.of_N (Byte.to_N b).

Definition byte_of_Z (z : Z) : byte :=
  match Byte.of_N (Z.to_N (z mod 256)) with
  | Some b => b
  | None => x00
  end.

(** Big-endian image of [z] on [n] bytes (network byte order). *)
Fixpoint be_bytes (n : nat) (z : Z) : list byte :=
  match n with
  | O => []
  | S n' => byte_of_Z (z / 256 ^ Z.of_nat n') :: be_bytes n' z
  end.

Definition be_value (bs : list byte) : Z :=
  fold_left (fun acc b => acc * 256 + Z_of_byte b) bs 0.

(** One field of [struct.pack('!...')]: [struct.error] unless
    [0 <= z < 256^n]. *)
Definition pack_field (n : nat) (z : Z) : result (list byte) :=
  if decide (0 <= z < 256 ^ Z.of_nat n) then Returns (be_bytes n z)
  else Raises StructError.

(** [struct.pack('!IIBH', seq_no, ack_no, flags, window)] *)
Definition pack_IIBH (seq_no ack_no flags window : Z) : result (list byte) :=
  result_bind (pack_field 4 seq_no) (fun b1 =>
  result_bind (pack_field 4 ack_no) (fun b2 =>
  result_bind (pack_field 1 flags) (fun b3 =>
  result_bind (pack_field 2 window) (fun b4 =>
  Returns (b1 ++ b2 ++ b3 ++ b4))))).

(** [struct.pack('!IIBHH', seq_no, ack_no, flags, window, checksum)] *)
Definition pack_IIBHH (seq_no ack_no flags window checksum : Z)
  : result (list byte) :=
  result_bind (pack_IIBH seq_no ack_no flags window) (fun h =>
  result_bind (pack_field 2 checksum) (fun b5 =>
  Returns (h ++ b5))).

(** [struct.unpack('!IIBHH', hdr)]: [struct.error] unless [hdr] has
    exactly 13 bytes. *)
Definition unpack_IIBHH (hdr : list byte) : result (Z * Z * Z * Z * Z) :=
  if decide (length hdr = HEADER_SIZE) then
    Returns (be_value (take 4 hdr),
             be_value (take 4 (drop 4 hdr)),
             be_value (take 1 (drop 8 hdr)),
             be_value (take 2 (drop 9 hdr)),
             be_value (take 2 (drop 11 hdr)))
  else Raises StructError.

(** *** [zlib.crc32]: the CRC-32 of IEEE 802.3, bit by bit
    (reflected polynomial 0xEDB88320, initial value and final xor
    0xFFFFFFFF). *)

Definition crc32_bit (c : Z) : Z :=
  if Z.testbit c 0 then Z.lxor (Z.shiftr c 1) 0xEDB88320 else Z.shiftr c 1.

Definition crc32_byte (c : Z) (b : byte) : Z :=
  Nat.iter 8 crc32_bit (Z.lxor c (Z_of_byte b)).

Definition crc32 (bs : list byte) : Z :=
  Z.lxor (fold_left crc32_byte bs 0xFFFFFFFF) 0xFFFFFFFF.

(** *** The [Packet] dataclass *)

Record t : Type := mk {
  seq_no : Z;
  ack_no : Z;
  flags : Z;
  window : Z;
  data : list byte;
  checksum : Z;
}.

Definition set_checksum (c : Z) (p : t) : t :=
  mk (seq_no p) (ack_no p) (flags p) (window p) (data p) c.

(** The constructor: the generated [__init__] followed by
    [__post_init__]. *)
Definition new (seq_no ack_no flags window : Z) (data : list byte)
    (checksum : Z) : result t :=
  if decide (MAX_DATA_SIZE < length data)%nat then Raises ValueError
  else Returns (mk seq_no ack_no flags window data checksum).

(** [bool(self.flags & FLAG_X)] *)
Definition is_syn (p : t) : bool := negb (Z.land (flags p) FLAG_SYN =? 0).
Definition is_ack (p : t) : bool := negb (Z.land (flags p) FLAG_ACK =? 0).
Definition is_fin (p : t) : bool := negb (Z.land (flags p) FLAG_FIN =? 0).
Definition is_data (p : t) : bool := negb (Z.land (flags p) FLAG_DATA =? 0).

Definition calculate_checksum (p : t) : result Z :=
  result_bind (pack_IIBH (seq_no p) (ack_no p) (flags p) (window p))
    (fun header_without_checksum =>
       Returns (Z.land (crc32 (header_without_checksum ++ data p)) 0xFFFF)).

(** [to_bytes] assigns [self.checksum] before it packs: it returns the
    datagram together with the packet as the call leaves it. *)
Definition to_bytes (p : t) : result (list byte * t) :=
  result_bind (calculate_checksum p) (fun c =>
  let p' := set_checksum c p in
  result_bind (pack_IIBHH (seq_no p') (ack_no p') (flags p') (window p')
                 (checksum p')) (fun header =>
  Returns (header ++ data p', p'))).

(** [from_bytes]: the [try] catches [struct.error] only, so the
    [ValueError] of the constructor escapes. *)
Definition from_bytes (d : list byte) : result (option t) :=
  if decide (length d < HEADER_SIZE)%nat then Returns None
  else
    match unpack_IIBHH (take HEADER_SIZE d) with
    | Returns (seq_no, ack_no, flags, window, checksum) =>
        let payload := drop HEADER_SIZE d in
        match new seq_no ack_no flags window payload checksum with
        | Returns packet => Returns (Some packet)
        | Raises StructError => Returns None
        | Raises e => Raises e
        end
    | Raises StructError => Returns None
    | Raises e => Raises e
    end.

Definition verify_checksum (p : t) : result bool :=
  result_bind (calculate_checksum p) (fun c =>
  Returns (bool_decide (checksum p = c))).

Definition create_syn_packet (seq_no window : Z) : result t :=
  new seq_no 0 FLAG_SYN window [] 0.
Definition create_syn_ack_packet (seq_no ack_no window : Z) : result t :=
  new seq_no ack_no (Z.lor FLAG_SYN FLAG_ACK) window [] 0.
Definition create_ack_packet (seq_no ack_no window : Z) : result t :=
  new seq_no ack_no FLAG_ACK window [] 0.
Definition create_data_packet (seq_no : Z) (data : list byte) (window : Z)
  : result t :=
  new seq_no 0 FLAG_DATA window data 0.
Definition create_fin_packet (seq_no : Z) : result t :=
  new seq_no 0 FLAG_FIN 0 [] 0.
Definition create_fin_ack_packet (seq_no ack_no : Z) : result t :=
  new seq_no ack_no (Z.lor FLAG_FIN FLAG_ACK) 0 [] 0.

(** The header fields that [struct.pack] accepts: the widths of the
    wire format. *)
Definition wire_ranges (p : t) : Prop :=
  0 <= seq_no p < 2 ^ 32 /\ 0 <= ack_no p < 2 ^ 32 /\
  0 <= flags p < 2 ^ 8 /\ 0 <= window p < 2 ^ 16.

(** A data packet as the sender builds it, carrying three bytes. *)
Definition sample_packet : t :=
  mk 7 0 FLAG_DATA 10 ["a"; "b"; "c"]%byte 0.

(** A datagram one byte longer than the largest packet. *)
Definition oversized_datagram : list byte :=
  replicate (S MAX_PACKET_SIZE) x00.

End Packet.

(** ** Python's [float]: IEEE 754 binary64 *)

Module Float.
Local Open Scope Q_scope.

(** A float is a finite value, an infinity or a NaN.  A finite value is
    kept as the rational it denotes; the sign of a zero is not kept: of the
    operations below only a division by zero could tell [-0.0] from
    [0.0], and Python raises there. *)
Inductive t : Type :=
| Fin (q : Q)
| PInf
| NInf
| NaN.

(** 53 bits of precision; the least positive value is [2^-1074]; values
    of magnitude [2^1024] and above overflow. *)
Definition prec : Z := 53.
Definition emin : Z := -1074.
Definition emax : Z := 1024.

(** [floor (log2 |q|)], for [q] not zero. *)
Definition ilog2 (q : Q) : Z :=
  let e := (Z.log2 (Z.abs (Qnum q)) - Z.log2 (Zpos (Qden q)))%Z in
  if Qle_bool (2 ^ e) (Qabs q) then e else (e - 1)%Z.

(** The integer nearest to [s], the even one on a tie. *)
Definition round_half_even (s : Q) : Z :=
  let f := Qfloor s in
  match Qcompare (s - inject_Z f) (1 # 2) with
  | Lt => f
  | Gt => (f + 1)%Z
  | Eq => if Z.even f then f else (f + 1)%Z
  end.

(** The unit in the last place of the floats around [q]. *)
Definition ulp (q : Q) : Q := 2 ^ Z.max (ilog2 q - (prec - 1)) emin.

(** Rounding to nearest, ties to even: the multiple of [ulp q] nearest to
    [q]. *)
Definition nearest (q : Q) : Q :=
  Qred (inject_Z (round_half_even (q / ulp q)) * ulp q).

(** The float an operation yields when its exact result is [q]. *)
Definition round (q : Q) : t :=
  if Qeq_bool q 0 then Fin 0
  else
    let v := nearest q in
    if Qle_bool (2 ^ emax) (Qabs v)
    then if Qle_bool 0 q then PInf else NInf
    else Fin v.

Definition neg (a : t) : t :=
  match a with
  | Fin q => Fin (Qred (- q))
  | PInf => NInf
  | NInf => PInf
  | NaN => NaN
  end.

Definition abs (a : t) : t :=
  match a with
  | Fin q => Fin (Qred (Qabs q))
  | PInf | NInf => PInf
  | NaN => NaN
  end.

Definition add (a b : t) : t :=
  match a, b with
  | NaN, _ | _, NaN => NaN
  | PInf, NInf | NInf, PInf => NaN
  | PInf, _ | _, PInf => PInf
  | NInf, _ | _, NInf => NInf
  | Fin x, Fin y => round (x + y)
  end.

Definition sub (a b : t) : t := add a (neg b).

(** The infinity of the sign of [q], for [q] not zero. *)
Definition inf_of_sign (q : Q) : t := if Qle_bool 0 q then PInf else NInf.

Definition mul (a b : t) : t :=
  match a, b with
  | NaN, _ | _, NaN => NaN
  | Fin x, Fin y => round (x * y)
  | Fin x, PInf | PInf, Fin x =>
      if Qeq_bool x 0 then NaN else inf_of_sign x
  | Fin x, NInf | NInf, Fin x =>
      if Qeq_bool x 0 then NaN else inf_of_sign (- x)
  | PInf, PInf | NInf, NInf => PInf
  | PInf, NInf | NInf, PInf => NaN
  end.

Definition is_zero (a : t) : bool :=
  match a with
  | Fin q => Qeq_bool q 0
  | _ => false
  end.

(** The quotient of two floats.  By a zero it is IEEE's quotient by
    [+0.0]; Python's [/] never gets there, see [truediv]. *)
Definition div (a b : t) : t :=
  match a, b with
  | NaN, _ | _, NaN => NaN
  | Fin x, Fin y =>
      if Qeq_bool y 0
      then if Qeq_bool x 0 then NaN else inf_of_sign x
      else round (x / y)
  | Fin _, (PInf | NInf) => Fin 0
  | PInf, Fin y => inf_of_sign y
  | NInf, Fin y => neg (inf_of_sign y)
  | (PInf | NInf), (PInf | NInf) => NaN
  end.

(** Python's [a / b]: [ZeroDivisionError] when [b] is a zero. *)
Definition truediv (a b : t) : result t :=
  if is_zero b then Raises ZeroDivisionError else Returns (div a b).

(** [a < b]: false as soon as one of the two is a NaN. *)
Definition ltb (a b : t) : bool :=
  match a, b with
  | NaN, _ | _, NaN => false
  | _, NInf => false
  | NInf, _ => true
  | PInf, _ => false
  | _, PInf => true
  | Fin x, Fin y => negb (Qle_bool y x)
  end.

(** [a == b] *)
Definition eqb (a b : t) : bool :=
  match a, b with
  | Fin x, Fin y => Qeq_bool x y
  | PInf, PInf | NInf, NInf => true
  | _, _ => false
  end.

(** Python's [min] and [max] of two arguments: the second one only when it
    is strictly below (above) the first. *)
Definition py_min (a b : t) : t := if ltb b a then b else a.
Definition py_max (a b : t) : t := if ltb a b then b else a.

(** [int(a)] truncates towards zero; it raises [OverflowError] on an
    infinity and [ValueError] on a NaN. *)
Definition to_int (a : t) : result Z :=
  match a with
  | Fin q => Returns (Z.quot (Qnum q) (Zpos (Qden q)))
  | PInf | NInf => Raises OverflowError
  | NaN => Raises ValueError
  end.

(** The float a decimal literal or a clock reading [q] stands for. *)
Definition of_Q (q : Q) : t := round q.

End Float.

(** ** congestion.py *)

Module CongestionController.

Inductive CongestionState : Type := SLOW_START | CONGESTION_AVOIDANCE.

Record t : Type := mk {
  cwnd : Float.t;
  ssthresh : Float.t;
  min_cwnd : Float.t;
  max_cwnd : Float.t;
  enabled : bool;
  srtt : Float.t;
  rttvar : Float.t;
  rto : Float.t;
  packets_in_flight : Z;
  acks_received_in_window : Z;
}.

(** [CongestionController(enabled=...)]: the dataclass defaults. *)
Definition new (enabled : bool) : t :=
  mk (Float.Fin 1) (Float.Fin 64) (Float.Fin 1) (Float.Fin 1024) enabled
     (Float.Fin 0) (Float.Fin 0) (Float.Fin 1) 0 0.

Definition set_cwnd (x : Float.t) (c : t) : t :=
  mk x (ssthresh c) (min_cwnd c) (max_cwnd c) (enabled c) (srtt c)
     (rttvar c) (rto c) (packets_in_flight c) (acks_received_in_window c).
Definition set_ssthresh (x : Float.t) (c : t) : t :=
  mk (cwnd c) x (min_cwnd c) (max_cwnd c) (enabled c) (srtt c)
     (rttvar c) (rto c) (packets_in_flight c) (acks_received_in_window c).
Definition set_enabled (b : bool) (c : t) : t :=
  mk (cwnd c) (ssthresh c) (min_cwnd c) (max_cwnd c) b (srtt c)
     (rttvar c) (rto c) (packets_in_flight c) (acks_received_in_window c).
Definition set_rtt (srtt' rttvar' rto' : Float.t) (c : t) : t :=
  mk (cwnd c) (ssthresh c) (min_cwnd c) (max_cwnd c) (enabled c) srtt'
     rttvar' rto' (packets_in_flight c) (acks_received_in_window c).
Definition set_packets_in_flight (n : Z) (c : t) : t :=
  mk (cwnd c) (ssthresh c) (min_cwnd c) (max_cwnd c) (enabled c) (srtt c)
     (rttvar c) (rto c) n (acks_received_in_window c).
Definition set_acks_received_in_window (n : Z) (c : t) : t :=
  mk (cwnd c) (ssthresh c) (min_cwnd c) (max_cwnd c) (enabled c) (srtt c)
     (rttvar c) (rto c) (packets_in_flight c) n.

(** [int(x)] of a clock reading truncates towards zero. *)
Definition py_int (x : Q) : Z := Z.quot (Qnum x) (Zpos (Qden x)).

Definition state (c : t) : CongestionState :=
  if Float.ltb (cwnd c) (ssthresh c) then SLOW_START
  else CONGESTION_AVOIDANCE.

(** [int(self.max_cwnd)] when disabled, else [max(1, int(self.cwnd))]. *)
Definition effective_window (c : t) : result Z :=
  if negb (enabled c) then Float.to_int (max_cwnd c)
  else result_bind (Float.to_int (cwnd c)) (fun i => Returns (Z.max 1 i)).

(** The literals [0.125], [0.25], [60.0] and the integers are floats as
    they stand; [0.2] is the float nearest to 1/5.  The divisor of
    [rtt_sample / 2] is not zero. *)
Definition _update_rtt (rtt_sample : Float.t) (c : t) : t :=
  let c1 :=
    if Float.eqb (srtt c) (Float.Fin 0) then
      set_rtt rtt_sample (Float.div rtt_sample (Float.Fin 2)) (rto c) c
    else
      let alpha := Float.Fin 0.125 in
      let beta := Float.Fin 0.25 in
      let rttvar' :=
        Float.add
          (Float.mul (Float.sub (Float.Fin 1) beta) (rttvar c))
          (Float.mul beta (Float.abs (Float.sub (srtt c) rtt_sample))) in
      let srtt' :=
        Float.add
          (Float.mul (Float.sub (Float.Fin 1) alpha) (srtt c))
          (Float.mul alpha rtt_sample) in
      set_rtt srtt' rttvar' (rto c) c in
  set_rtt (srtt c1) (rttvar c1)
    (Float.py_max (Float.of_Q 0.2)
       (Float.py_min
          (Float.add (srtt c1) (Float.mul (Float.Fin 4) (rttvar c1)))
          (Float.Fin 60)))
    c1.

Definition on_ack_received (rtt_sample : option Float.t) : M t unit :=
  do c <- get;
  if negb (enabled c) then ret tt
  else
    run match rtt_sample with
        | Some sample => modify (_update_rtt sample)
        | None => ret tt
        end;
    do c <- get;
    run match state c with
        | SLOW_START =>
            modify (set_cwnd
                      (Float.py_min (Float.add (cwnd c) (Float.Fin 1))
                         (max_cwnd c)))
        | CONGESTION_AVOIDANCE =>
            do inc <- lift_result (Float.truediv (Float.Fin 1) (cwnd c));
            modify (set_cwnd
                      (Float.py_min (Float.add (cwnd c) inc) (max_cwnd c)))
        end;
    run modify (fun c =>
          set_packets_in_flight (Z.max 0 (packets_in_flight c - 1)) c);
    modify (fun c =>
      set_acks_received_in_window (acks_received_in_window c + 1) c).

(** [max(self.cwnd / 2, 2)]: where Python keeps the int [2], the float of
    that value stands for it; the window stays far below [2^53], where
    the arithmetic of the two agrees. *)
Definition on_timeout (c : t) : t :=
  if negb (enabled c) then c
  else
    let c1 :=
      set_ssthresh
        (Float.py_max (Float.div (cwnd c) (Float.Fin 2)) (Float.Fin 2)) c in
    let c2 := set_cwnd (min_cwnd c1) c1 in
    set_acks_received_in_window 0 c2.

Definition on_triple_duplicate_ack (c : t) : t :=
  if negb (enabled c) then c
  else
    let c1 :=
      set_ssthresh
        (Float.py_max (Float.div (cwnd c) (Float.Fin 2)) (Float.Fin 2)) c in
    set_cwnd (Float.add (ssthresh c1) (Float.Fin 3)) c1.

Definition on_packet_sent (c : t) : t :=
  set_packets_in_flight (packets_in_flight c + 1) c.

Definition can_send (c : t) : result bool :=
  if negb (enabled c) then Returns true
  else
    result_bind (effective_window c) (fun w =>
      Returns (bool_decide (packets_in_flight c < w))).

Definition reset (c : t) : t :=
  mk (min_cwnd c) (Float.Fin 64) (min_cwnd c) (max_cwnd c) (enabled c)
     (Float.Fin 0) (Float.Fin 0) (Float.Fin 1) 0 0.

(** The states a controller built by [CongestionController(enabled=b)]
    can be in: any sequence of method calls, and of [configure]'s
    assignment to [enabled]. *)
Inductive reachable : t -> Prop :=
| reach_new b : reachable (new b)
| reach_ack c rtt_sample c' :
    reachable c -> on_ack_received rtt_sample c = (Returns tt, c') ->
    reachable c'
| reach_timeout c : reachable c -> reachable (on_timeout c)
| reach_dup c : reachable c -> reachable (on_triple_duplicate_ack c)
| reach_sent c : reachable c -> reachable (on_packet_sent c)
| reach_reset c : reachable c -> reachable (reset c)
| reach_configure c b : reachable c -> reachable (set_enabled b c).

End CongestionController.

(** ** Shared vocabulary of the two endpoints *)

Inductive protocol_mode : Type := stop_wait | go_back_n | selective_repeat.

(** A socket address, [(host, port)]. *)
Definition address : Type := (Z * Z)%type.

(** What a [recvfrom] with a timeout yields. *)
Inductive recv_result : Type :=
| RecvTimeout
| RecvDatagram (d : list byte).

(** [while x in s: x += 1], for a finite [s]: [fuel] bounds the number of
    iterations. *)
Fixpoint skip_present (present : Z -> bool) (fuel : nat) (x : Z) : Z :=
  match fuel with
  | O => x
  | S fuel' => if present x then skip_present present fuel' (x + 1) else x
  end.

(** ** server.py *)

Module ReceiverBuffer.

Record t : Type := mk {
  expected_seq : Z;
  received_data : gmap Z (list byte);
  max_buffer_size : Z;
}.

Definition new : t := mk 0 ∅ 1024.

Definition has (b : t) (k : Z) : bool :=
  bool_decide (is_Some (received_data b !! k)).

(** [add_packet] returns [(is_in_order, expected_seq_for_ack)]. *)
Definition add_packet (seq_no : Z) (data : list byte) (b : t)
  : (bool * Z) * t :=
  if decide (seq_no < expected_seq b) then
    ((false, expected_seq b), b)
  else if decide (seq_no = expected_seq b) then
    let b1 := mk (expected_seq b) (<[seq_no := data]> (received_data b))
                 (max_buffer_size b) in
    let e := skip_present (has b1) (size (received_data b1))
               (expected_seq b1) in
    ((true, e), mk e (received_data b1) (max_buffer_size b1))
  else
    let b1 :=
      if decide (Z.of_nat (size (received_data b)) < max_buffer_size b)
      then mk (expected_seq b) (<[seq_no := data]> (received_data b))
              (max_buffer_size b)
      else b in
    ((false, expected_seq b1), b1).

(** [sorted(self.received_data.keys())] *)
Definition sorted_keys (b : t) : list Z :=
  merge_sort Z.le (elements (dom (received_data b))).

Definition get_ordered_data (b : t) : list byte :=
  fold_left (fun result i => result ++ default [] (received_data b !! i))
    (sorted_keys b) [].

Definition clear (b : t) : t := mk 0 ∅ (max_buffer_size b).

End ReceiverBuffer.

Module TransferStats.

Record t : Type := mk {
  packets_received : Z;
  acks_sent : Z;
  checksum_errors : Z;
  out_of_order : Z;
  duplicate_packets : Z;
  packets_dropped : Z;
  bytes_received : Z;
  start_time : Q;
  end_time : Q;
}.

Definition new : t := mk 0 0 0 0 0 0 0 0%Q 0%Q.

Definition incr_packets_received (s : t) : t :=
  mk (packets_received s + 1) (acks_sent s) (checksum_errors s)
     (out_of_order s) (duplicate_packets s) (packets_dropped s)
     (bytes_received s) (start_time s) (end_time s).
Definition incr_acks_sent (s : t) : t :=
  mk (packets_received s) (acks_sent s + 1) (checksum_errors s)
     (out_of_order s) (duplicate_packets s) (packets_dropped s)
     (bytes_received s) (start_time s) (end_time s).
Definition incr_checksum_errors (s : t) : t :=
  mk (packets_received s) (acks_sent s) (checksum_errors s + 1)
     (out_of_order s) (duplicate_packets s) (packets_dropped s)
     (bytes_received s) (start_time s) (end_time s).
Definition incr_out_of_order (s : t) : t :=
  mk (packets_received s) (acks_sent s) (checksum_errors s)
     (out_of_order s + 1) (duplicate_packets s) (packets_dropped s)
     (bytes_received s) (start_time s) (end_time s).
Definition incr_duplicate_packets (s : t) : t :=
  mk (packets_received s) (acks_sent s) (checksum_errors s)
     (out_of_order s) (duplicate_packets s + 1) (packets_dropped s)
     (bytes_received s) (start_time s) (end_time s).
Definition incr_packets_dropped (s : t) : t :=
  mk (packets_received s) (acks_sent s) (checksum_errors s)
     (out_of_order s) (duplicate_packets s) (packets_dropped s + 1)
     (bytes_received s) (start_time s) (end_time s).
Definition add_bytes_received (n : Z) (s : t) : t :=
  mk (packets_received s) (acks_sent s) (checksum_errors s)
     (out_of_order s) (duplicate_packets s) (packets_dropped s)
     (bytes_received s + n) (start_time s) (end_time s).
Definition set_start_time (x : Q) (s : t) : t :=
  mk (packets_received s) (acks_sent s) (checksum_errors s)
     (out_of_order s) (duplicate_packets s) (packets_dropped s)
     (bytes_received s) x (end_time s).
Definition set_end_time (x : Q) (s : t) : t :=
  mk (packets_received s) (acks_sent s) (checksum_errors s)
     (out_of_order s) (duplicate_packets s) (packets_dropped s)
     (bytes_received s) (start_time s) x.

End TransferStats.

Module UDPServer.

(** [outbox]: the datagrams given to [socket.sendto], oldest first.
    [files]: the output directory, keyed by the integer in the file name
    [received_<int(time.time())>.bin]. *)
Record t : Type := mk {
  socket_open : bool;
  buffer : ReceiverBuffer.t;
  stats : TransferStats.t;
  current_client : option address;
  transfer_complete : bool;
  mode : protocol_mode;
  window_size : Z;
  outbox : list (list byte * address);
  files : gmap Z (list byte);
}.

(** [UDPServer()] once [start] has bound its socket. *)
Definition new : t :=
  mk true ReceiverBuffer.new TransferStats.new None false
     selective_repeat 10 [] ∅.

Definition set_buffer (b : ReceiverBuffer.t) (s : t) : t :=
  mk (socket_open s) b (stats s) (current_client s) (transfer_complete s)
     (mode s) (window_size s) (outbox s) (files s).
Definition set_stats (x : TransferStats.t) (s : t) : t :=
  mk (socket_open s) (buffer s) x (current_client s) (transfer_complete s)
     (mode s) (window_size s) (outbox s) (files s).
Definition set_current_client (a : option address) (s : t) : t :=
  mk (socket_open s) (buffer s) (stats s) a (transfer_complete s)
     (mode s) (window_size s) (outbox s) (files s).
Definition set_transfer_complete (b : bool) (s : t) : t :=
  mk (socket_open s) (buffer s) (stats s) (current_client s) b
     (mode s) (window_size s) (outbox s) (files s).
Definition set_outbox (o : list (list byte * address)) (s : t) : t :=
  mk (socket_open s) (buffer s) (stats s) (current_client s)
     (transfer_complete s) (mode s) (window_size s) o (files s).
Definition set_files (f : gmap Z (list byte)) (s : t) : t :=
  mk (socket_open s) (buffer s) (stats s) (current_client s)
     (transfer_complete s) (mode s) (window_size s) (outbox s) f.
Definition upd_stats (f : TransferStats.t -> TransferStats.t) (s : t) : t :=
  set_stats (f (stats s)) s.

Definition set_protocol_mode (m : protocol_mode) (w : Z) (s : t) : t :=
  mk (socket_open s) (buffer s) (stats s) (current_client s)
     (transfer_complete s) m w (outbox s) (files s).

(** [if self.socket and addr: self.socket.sendto(packet.to_bytes(), addr)] *)
Definition _send_packet (packet : Packet.t) (addr : option address)
  : M t unit :=
  do s <- get;
  match socket_open s, addr with
  | true, Some a =>
      do r <- lift_result (Packet.to_bytes packet);
      modify (fun s => set_outbox (outbox s ++ [(r.1, a)]) s)
  | _, _ => ret tt
  end.

Definition _handle_syn (now : Q) (packet : Packet.t) (addr : address)
  : M t unit :=
  run modify (fun s => set_buffer (ReceiverBuffer.clear (buffer s)) s);
  run modify (set_stats (TransferStats.set_start_time now TransferStats.new));
  run modify (set_current_client (Some addr));
  run modify (set_transfer_complete false);
  do s <- get;
  do syn_ack <- lift_result
    (Packet.create_syn_ack_packet 0 (Packet.seq_no packet + 1)
       (window_size s));
  _send_packet syn_ack (Some addr).

Definition _handle_stop_wait (packet : Packet.t) : M t (bool * Z) :=
  do s <- get;
  let b := buffer s in
  if decide (Packet.seq_no packet = ReceiverBuffer.expected_seq b) then
    let b' := ReceiverBuffer.mk (ReceiverBuffer.expected_seq b + 1)
                (<[Packet.seq_no packet := Packet.data packet]>
                   (ReceiverBuffer.received_data b))
                (ReceiverBuffer.max_buffer_size b) in
    run modify (set_buffer b');
    do ack <- lift_result
      (Packet.create_ack_packet 0 (ReceiverBuffer.expected_seq b') 1);
    run _send_packet ack (current_client s);
    run modify (upd_stats TransferStats.incr_acks_sent);
    ret (true, ReceiverBuffer.expected_seq b')
  else
    do ack <- lift_result
      (Packet.create_ack_packet 0 (ReceiverBuffer.expected_seq b) 1);
    run _send_packet ack (current_client s);
    run modify (upd_stats TransferStats.incr_acks_sent);
    ret (false, ReceiverBuffer.expected_seq b).

Definition _handle_go_back_n (packet : Packet.t) : M t (bool * Z) :=
  do s <- get;
  let b := buffer s in
  if decide (Packet.seq_no packet = ReceiverBuffer.expected_seq b) then
    let b' := ReceiverBuffer.mk (ReceiverBuffer.expected_seq b + 1)
                (<[Packet.seq_no packet := Packet.data packet]>
                   (ReceiverBuffer.received_data b))
                (ReceiverBuffer.max_buffer_size b) in
    run modify (set_buffer b');
    do ack <- lift_result
      (Packet.create_ack_packet 0 (ReceiverBuffer.expected_seq b')
         (window_size s));
    run _send_packet ack (current_client s);
    run modify (upd_stats TransferStats.incr_acks_sent);
    ret (true, ReceiverBuffer.expected_seq b')
  else
    do ack <- lift_result
      (Packet.create_ack_packet 0 (ReceiverBuffer.expected_seq b)
         (window_size s));
    run _send_packet ack (current_client s);
    run modify (upd_stats TransferStats.incr_acks_sent);
    ret (false, ReceiverBuffer.expected_seq b).

Definition _handle_selective_repeat (packet : Packet.t) : M t (bool * Z) :=
  do s <- get;
  let '(r, b') :=
    ReceiverBuffer.add_packet (Packet.seq_no packet) (Packet.data packet)
      (buffer s) in
  run modify (set_buffer b');
  do ack <- lift_result
    (Packet.create_ack_packet 0 (Packet.seq_no packet + 1) (window_size s));
  run _send_packet ack (current_client s);
  run modify (upd_stats TransferStats.incr_acks_sent);
  ret r.

Definition _handle_data (packet : Packet.t) : M t unit :=
  do s <- get;
  do r <- match mode s with
          | stop_wait => _handle_stop_wait packet
          | go_back_n => _handle_go_back_n packet
          | selective_repeat => _handle_selective_repeat packet
          end;
  let '(is_in_order, next_expected) := r in
  if is_in_order then
    modify (upd_stats (TransferStats.add_bytes_received
                         (Z.of_nat (length (Packet.data packet)))))
  else
    do s <- get;
    if decide (Packet.seq_no packet < ReceiverBuffer.expected_seq (buffer s))
    then modify (upd_stats TransferStats.incr_duplicate_packets)
    else modify (upd_stats TransferStats.incr_out_of_order).

Definition _handle_fin (now : Q) (packet : Packet.t) (addr : address)
  : M t unit :=
  run modify (upd_stats (TransferStats.set_end_time now));
  run modify (set_transfer_complete true);
  do fin_ack <- lift_result
    (Packet.create_fin_ack_packet 0 (Packet.seq_no packet + 1));
  run _send_packet fin_ack (Some addr);
  modify (fun s =>
    set_files (<[CongestionController.py_int now :=
                   ReceiverBuffer.get_ordered_data (buffer s)]> (files s)) s).

(** [lost] is the loss injector's verdict
    [random.random() < self.packet_loss_rate]. *)
Definition _handle_packet (lost : bool) (now : Q) (data : list byte)
    (addr : address) : M t unit :=
  if lost then modify (upd_stats TransferStats.incr_packets_dropped)
  else
    do parsed <- lift_result (Packet.from_bytes data);
    match parsed with
    | None => ret tt
    | Some packet =>
        do ok <- lift_result (Packet.verify_checksum packet);
        if negb ok then modify (upd_stats TransferStats.incr_checksum_errors)
        else
          run modify (upd_stats TransferStats.incr_packets_received);
          if Packet.is_syn packet && negb (Packet.is_ack packet)
          then _handle_syn now packet addr
          else if Packet.is_data packet then _handle_data packet
          else if Packet.is_fin packet then _handle_fin now packet addr
          else ret tt
    end.

(** One turn of [_receive_loop]: [recvfrom(MAX_PACKET_SIZE)] cuts the
    datagram to the buffer size, and [except Exception] absorbs whatever
    the handler raises. *)
Definition _receive_loop_turn (lost : bool) (now : Q) (d : list byte)
    (addr : address) : M t unit :=
  try_except
    (_handle_packet lost now (take Packet.MAX_PACKET_SIZE d) addr)
    (fun _ => ret tt).

End UDPServer.

(** ** reliability/stop_wait.py: the receiver *)

Module StopWaitReceiver.

Record t : Type := mk {
  expected_seq : Z;
  received_data : list (list byte);
  outbox : list (list byte * address);
}.

Definition new : t := mk 0 [] [].

Definition sendto (packet : Packet.t) (addr : address) : M t unit :=
  do r <- lift_result (Packet.to_bytes packet);
  modify (fun s => mk (expected_seq s) (received_data s)
                      (outbox s ++ [(r.1, addr)])).

(** [lost] is [random.random() < self.packet_loss_rate]. *)
Definition receive_packet (lost : bool) (packet : Packet.t)
    (sender_addr : address) : M t (option (list byte)) :=
  if lost then ret None
  else
    do s <- get;
    if decide (Packet.seq_no packet = expected_seq s) then
      run modify (fun s => mk (expected_seq s + 1)
                              (received_data s ++ [Packet.data packet])
                              (outbox s));
      do s <- get;
      do ack <- lift_result (Packet.create_ack_packet 0 (expected_seq s) 1);
      run sendto ack sender_addr;
      ret (Some (Packet.data packet))
    else
      do ack <- lift_result (Packet.create_ack_packet 0 (expected_seq s) 1);
      run sendto ack sender_addr;
      ret None.

Definition get_all_data (s : t) : list byte := concat (received_data s).

Definition reset (s : t) : t := mk 0 [] (outbox s).

End StopWaitReceiver.

(** ** client.py *)

Inductive TransferState : Type :=
| IDLE | CONNECTING | CONNECTED | TRANSFERRING | CLOSING | COMPLETED | ERROR.

Module PacketInfo.

Record t : Type := mk {
  packet : Packet.t;
  send_time : Q;
  retransmissions : Z;
  acked : bool;
}.

(** [PacketInfo(packet=..., send_time=...)] *)
Definition new (packet : Packet.t) (send_time : Q) : t :=
  mk packet send_time 0 false.

End PacketInfo.

Module ClientStats.

Record t : Type := mk {
  packets_sent : Z;
  acks_received : Z;
  retransmissions : Z;
  timeouts : Z;
  packets_dropped : Z;
  bytes_sent : Z;
  start_time : Q;
  end_time : Q;
  rtt_samples : list Float.t;
}.

Definition new : t := mk 0 0 0 0 0 0 0%Q 0%Q [].

Definition set_packets_sent (x : Z) (c : t) : t :=
  mk x (acks_received c) (retransmissions c) (timeouts c) (packets_dropped
     c) (bytes_sent c) (start_time c) (end_time c) (rtt_samples c).
Definition set_acks_received (x : Z) (c : t) : t :=
  mk (packets_sent c) x (retransmissions c) (timeouts c) (packets_dropped c)
     (bytes_sent c) (start_time c) (end_time c) (rtt_samples c).
Definition set_retransmissions (x : Z) (c : t) : t :=
  mk (packets_sent c) (acks_received c) x (timeouts c) (packets_dropped c)
     (bytes_sent c) (start_time c) (end_time c) (rtt_samples c).
Definition set_timeouts (x : Z) (c : t) : t :=
  mk (packets_sent c) (acks_received c) (retransmissions c) x
     (packets_dropped c) (bytes_sent c) (start_time c) (end_time c)
     (rtt_samples c).
Definition set_packets_dropped (x : Z) (c : t) : t :=
  mk (packets_sent c) (acks_received c) (retransmissions c) (timeouts c) x
     (bytes_sent c) (start_time c) (end_time c) (rtt_samples c).
Definition set_bytes_sent (x : Z) (c : t) : t :=
  mk (packets_sent c) (acks_received c) (retransmissions c) (timeouts c)
     (packets_dropped c) x (start_time c) (end_time c) (rtt_samples c).
Definition set_start_time (x : Q) (c : t) : t :=
  mk (packets_sent c) (acks_received c) (retransmissions c) (timeouts c)
     (packets_dropped c) (bytes_sent c) x (end_time c) (rtt_samples c).
Definition set_end_time (x : Q) (c : t) : t :=
  mk (packets_sent c) (acks_received c) (retransmissions c) (timeouts c)
     (packets_dropped c) (bytes_sent c) (start_time c) x (rtt_samples c).
Definition set_rtt_samples (x : list Float.t) (c : t) : t :=
  mk (packets_sent c) (acks_received c) (retransmissions c) (timeouts c)
     (packets_dropped c) (bytes_sent c) (start_time c) (end_time c) x.

End ClientStats.

Module UDPClient.

(** [socket]: whether [self.socket] is set.  [outbox]: the datagrams given
    to [socket.sendto], oldest first. *)
Record t : Type := mk {
  base_timeout : Q;
  socket : bool;
  state : TransferState;
  mode : protocol_mode;
  window_size : Z;
  base : Z;
  next_seq : Z;
  sent_packets : gmap Z PacketInfo.t;
  acked_packets : gset Z;
  data_chunks : list (list byte);
  total_chunks : Z;
  congestion : CongestionController.t;
  running : bool;
  stats : ClientStats.t;
  outbox : list (list byte);
}.

Definition set_base_timeout (x : Q) (c : t) : t :=
  mk x (socket c) (state c) (mode c) (window_size c) (base c) (next_seq c)
     (sent_packets c) (acked_packets c) (data_chunks c) (total_chunks c)
     (congestion c) (running c) (stats c) (outbox c).
Definition set_socket (x : bool) (c : t) : t :=
  mk (base_timeout c) x (state c) (mode c) (window_size c) (base c)
     (next_seq c) (sent_packets c) (acked_packets c) (data_chunks c)
     (total_chunks c) (congestion c) (running c) (stats c) (outbox c).
Definition set_state (x : TransferState) (c : t) : t :=
  mk (base_timeout c) (socket c) x (mode c) (window_size c) (base c)
     (next_seq c) (sent_packets c) (acked_packets c) (data_chunks c)
     (total_chunks c) (congestion c) (running c) (stats c) (outbox c).
Definition set_mode (x : protocol_mode) (c : t) : t :=
  mk (base_timeout c) (socket c) (state c) x (window_size c) (base c)
     (next_seq c) (sent_packets c) (acked_packets c) (data_chunks c)
     (total_chunks c) (congestion c) (running c) (stats c) (outbox c).
Definition set_window_size (x : Z) (c : t) : t :=
  mk (base_timeout c) (socket c) (state c) (mode c) x (base c) (next_seq c)
     (sent_packets c) (acked_packets c) (data_chunks c) (total_chunks c)
     (congestion c) (running c) (stats c) (outbox c).
Definition set_base (x : Z) (c : t) : t :=
  mk (base_timeout c) (socket c) (state c) (mode c) (window_size c) x
     (next_seq c) (sent_packets c) (acked_packets c) (data_chunks c)
     (total_chunks c) (congestion c) (running c) (stats c) (outbox c).
Definition set_next_seq (x : Z) (c : t) : t :=
  mk (base_timeout c) (socket c) (state c) (mode c) (window_size c) (base c)
     x (sent_packets c) (acked_packets c) (data_chunks c) (total_chunks c)
     (congestion c) (running c) (stats c) (outbox c).
Definition set_sent_packets (x : gmap Z PacketInfo.t) (c : t) : t :=
  mk (base_timeout c) (socket c) (state c) (mode c) (window_size c) (base c)
     (next_seq c) x (acked_packets c) (data_chunks c) (total_chunks c)
     (congestion c) (running c) (stats c) (outbox c).
Definition set_acked_packets (x : gset Z) (c : t) : t :=
  mk (base_timeout c) (socket c) (state c) (mode c) (window_size c) (base c)
     (next_seq c) (sent_packets c) x (data_chunks c) (total_chunks c)
     (congestion c) (running c) (stats c) (outbox c).
Definition set_data_chunks (x : list (list byte)) (c : t) : t :=
  mk (base_timeout c) (socket c) (state c) (mode c) (window_size c) (base c)
     (next_seq c) (sent_packets c) (acked_packets c) x (total_chunks c)
     (congestion c) (running c) (stats c) (outbox c).
Definition set_total_chunks (x : Z) (c : t) : t :=
  mk (base_timeout c) (socket c) (state c) (mode c) (window_size c) (base c)
     (next_seq c) (sent_packets c) (acked_packets c) (data_chunks c) x
     (congestion c) (running c) (stats c) (outbox c).
Definition set_congestion (x : CongestionController.t) (c : t) : t :=
  mk (base_timeout c) (socket c) (state c) (mode c) (window_size c) (base c)
     (next_seq c) (sent_packets c) (acked_packets c) (data_chunks c)
     (total_chunks c) x (running c) (stats c) (outbox c).
Definition set_running (x : bool) (c : t) : t :=
  mk (base_timeout c) (socket c) (state c) (mode c) (window_size c) (base c)
     (next_seq c) (sent_packets c) (acked_packets c) (data_chunks c)
     (total_chunks c) (congestion c) x (stats c) (outbox c).
Definition set_stats (x : ClientStats.t) (c : t) : t :=
  mk (base_timeout c) (socket c) (state c) (mode c) (window_size c) (base c)
     (next_seq c) (sent_packets c) (acked_packets c) (data_chunks c)
     (total_chunks c) (congestion c) (running c) x (outbox c).
Definition set_outbox (x : list (list byte)) (c : t) : t :=
  mk (base_timeout c) (socket c) (state c) (mode c) (window_size c) (base c)
     (next_seq c) (sent_packets c) (acked_packets c) (data_chunks c)
     (total_chunks c) (congestion c) (running c) (stats c) x.

Definition upd_stats (f : ClientStats.t -> ClientStats.t) (c : t) : t :=
  set_stats (f (stats c)) c.
Definition upd_congestion
    (f : CongestionController.t -> CongestionController.t) (c : t) : t :=
  set_congestion (f (congestion c)) c.
Definition incr (get : ClientStats.t -> Z)
    (set : Z -> ClientStats.t -> ClientStats.t) (n : Z) : M t unit :=
  modify (upd_stats (fun s => set (get s + n) s)).

(** A method of [self.congestion], run on the client. *)
Definition on_congestion {A} (m : M CongestionController.t A) : M t A :=
  fun c => let '(r, g) := m (congestion c) in (r, set_congestion g c).

(** [UDPClient(timeout=1.0)] *)
Definition new : t :=
  mk 1%Q false IDLE selective_repeat 10 0 0 ∅ ∅ [] 0
     (CongestionController.new true) false ClientStats.new [].

Definition configure (protocol_mode : protocol_mode) (window_size : Z)
    (timeout : Q) (congestion_enabled : bool) (c : t) : t :=
  upd_congestion (CongestionController.set_enabled congestion_enabled)
    (set_base_timeout timeout
       (set_window_size window_size (set_mode protocol_mode c))).

Definition _set_state (s : TransferState) : M t unit := modify (set_state s).

(** [_send_raw_packet] returns the packet as [to_bytes] leaves it: the
    caller's object is the one that was encoded. *)
Definition _send_raw_packet (packet : Packet.t) : M t Packet.t :=
  do c <- get;
  if socket c then
    do r <- lift_result (Packet.to_bytes packet);
    run modify (fun c => set_outbox (outbox c ++ [r.1]) c);
    ret r.2
  else ret packet.

(** *** [connect]: up to the [recvfrom], and from it on *)

Definition connect_send : M t unit :=
  run modify (set_socket true);
  run _set_state CONNECTING;
  do c <- get;
  do syn <- lift_result (Packet.create_syn_packet 0 (window_size c));
  do _ <- _send_raw_packet syn;
  ret tt.

Definition connect_recv (reply : recv_result) : M t bool :=
  match reply with
  | RecvTimeout => run _set_state ERROR; ret false
  | RecvDatagram d =>
      do parsed <- lift_result
        (Packet.from_bytes (take Packet.MAX_PACKET_SIZE d));
      match parsed with
      | Some packet =>
          if Packet.is_syn packet && Packet.is_ack packet then
            do c <- get;
            do ack <- lift_result
              (Packet.create_ack_packet 0 (Packet.seq_no packet + 1)
                 (window_size c));
            do _ <- _send_raw_packet ack;
            run _set_state CONNECTED;
            ret true
          else ret false
      | None => ret false
      end
  end.

Definition connect (reply : recv_result) : M t bool :=
  try_except (run connect_send; connect_recv reply)
    (fun _ => run _set_state ERROR; ret false).

(** *** [_finish_transfer]: up to the [recvfrom], and from it on *)

Definition finish_send : M t unit :=
  run _set_state CLOSING;
  do c <- get;
  do fin <- lift_result (Packet.create_fin_packet (next_seq c));
  do _ <- _send_raw_packet fin;
  ret tt.

Definition finish_recv (now : Q) (reply : recv_result) : M t unit :=
  run match reply with
      | RecvTimeout => ret tt
      | RecvDatagram d =>
          do _ <- lift_result
            (Packet.from_bytes (take Packet.MAX_PACKET_SIZE d));
          ret tt
      end;
  run modify (upd_stats (ClientStats.set_end_time now));
  _set_state COMPLETED.

Definition _finish_transfer (now : Q) (reply : recv_result) : M t unit :=
  run finish_send; finish_recv now reply.

(** *** [send_data] up to the choice of the sending loop *)

(** [[data[i:i + MAX_DATA_SIZE] for i in range(0, len(data), MAX_DATA_SIZE)]] *)
Fixpoint chunks_of (fuel : nat) (data : list byte) : list (list byte) :=
  match fuel with
  | O => []
  | S fuel' =>
      match data with
      | [] => []
      | _ => take Packet.MAX_DATA_SIZE data
             :: chunks_of fuel' (drop Packet.MAX_DATA_SIZE data)
      end
  end.

Definition send_data_reset (now : Q) (data : list byte) : M t unit :=
  let chunks := chunks_of (length data) data in
  run modify (set_data_chunks chunks);
  run modify (set_total_chunks (Z.of_nat (length chunks)));
  run modify (set_base 0);
  run modify (set_next_seq 0);
  run modify (set_sent_packets ∅);
  run modify (set_acked_packets ∅);
  run modify (set_stats (ClientStats.set_start_time now ClientStats.new));
  run modify (upd_congestion CongestionController.reset);
  run _set_state TRANSFERRING;
  modify (set_running true).

(** *** [_send_stop_wait] *)

(** What the environment decides in one turn of the inner loop: the loss
    injector's verdict on the transmission and what [recvfrom] yields. *)
Record attempt : Type := mk_attempt {
  att_lost : bool;
  att_reply : recv_result;
}.

Definition max_retries : Z := 10.

(** The inner [while retries < max_retries] for chunk [i].  It ends with
    [Some (retries, rest)]: the counter at the exit and the turns not
    consumed; or with [None] when the turns run out first. *)
Fixpoint stop_wait_chunk (i : Z) (packet : Packet.t) (chunk : list byte)
    (retries : Z) (env : list attempt) : M t (option (Z * list attempt)) :=
  if decide (retries < max_retries) then
    match env with
    | [] => ret None
    | a :: env' =>
        do packet <-
          (if negb (att_lost a) then
             do p <- _send_raw_packet packet;
             run incr ClientStats.packets_sent ClientStats.set_packets_sent 1;
             run incr ClientStats.bytes_sent ClientStats.set_bytes_sent
                   (Z.of_nat (length chunk));
             ret p
           else
             run incr ClientStats.packets_dropped
                   ClientStats.set_packets_dropped 1;
             ret packet);
        match att_reply a with
        | RecvDatagram d =>
            do parsed <- lift_result
              (Packet.from_bytes (take Packet.MAX_PACKET_SIZE d));
            match parsed with
            | Some ack_packet =>
                if Packet.is_ack ack_packet
                   && bool_decide (Packet.ack_no ack_packet > i) then
                  run incr ClientStats.acks_received
                        ClientStats.set_acks_received 1;
                  run on_congestion (CongestionController.on_ack_received None);
                  ret (Some (retries, env'))
                else stop_wait_chunk i packet chunk retries env'
            | None => stop_wait_chunk i packet chunk retries env'
            end
        | RecvTimeout =>
            run incr ClientStats.retransmissions
                  ClientStats.set_retransmissions 1;
            run incr ClientStats.timeouts ClientStats.set_timeouts 1;
            run modify (upd_congestion CongestionController.on_timeout);
            stop_wait_chunk i packet chunk (retries + 1) env'
        end
    end
  else ret (Some (retries, env)).

(** The [for i, chunk in enumerate(...)] loop.  [Some b]: the loop ended,
    [b] telling whether every chunk was acknowledged; [None]: the turns ran
    out. *)
Fixpoint stop_wait_chunks (i : Z) (chunks : list (list byte))
    (env : list attempt) : M t (option bool) :=
  match chunks with
  | [] => ret (Some true)
  | chunk :: rest =>
      do packet <- lift_result (Packet.create_data_packet i chunk 1);
      do r <- stop_wait_chunk i packet chunk 0 env;
      match r with
      | None => ret None
      | Some (retries, env') =>
          if decide (retries >= max_retries) then
            run _set_state ERROR; ret (Some false)
          else stop_wait_chunks (i + 1) rest env'
      end
  end.

Definition _send_stop_wait (env : list attempt) (now : Q)
    (fin_reply : recv_result) : M t (option bool) :=
  do c <- get;
  do r <- stop_wait_chunks 0 (data_chunks c) env;
  match r with
  | Some true => run _finish_transfer now fin_reply; ret (Some true)
  | other => ret other
  end.

(** *** [_send_sliding_window] and the two threads beside it *)

Definition _retransmit_packet (now : Q) (lost : bool) (seq_no : Z)
  : M t unit :=
  do c <- get;
  match sent_packets c !! seq_no with
  | None => ret tt
  | Some info =>
      let info1 :=
        PacketInfo.mk (PacketInfo.packet info) now
          (PacketInfo.retransmissions info + 1) (PacketInfo.acked info) in
      run modify (fun c => set_sent_packets (<[seq_no := info1]> (sent_packets c)) c);
      run incr ClientStats.retransmissions ClientStats.set_retransmissions 1;
      if negb lost then
        do p <- _send_raw_packet (PacketInfo.packet info1);
        modify (fun c =>
          set_sent_packets
            (<[seq_no := PacketInfo.mk p (PacketInfo.send_time info1)
                           (PacketInfo.retransmissions info1)
                           (PacketInfo.acked info1)]> (sent_packets c)) c)
      else incr ClientStats.packets_dropped ClientStats.set_packets_dropped 1
  end.

(** [for seq_no in range(lo, lo + n)] of [_handle_timeout_gbn]. *)
Fixpoint retransmit_range (now : Q) (lost : Z -> bool) (n : nat) (lo : Z)
  : M t unit :=
  match n with
  | O => ret tt
  | S n' =>
      run _retransmit_packet now (lost lo) lo;
      retransmit_range now lost n' (lo + 1)
  end.

Definition _handle_timeout_gbn (now : Q) (lost : Z -> bool) : M t unit :=
  run incr ClientStats.timeouts ClientStats.set_timeouts 1;
  run modify (upd_congestion CongestionController.on_timeout);
  do c <- get;
  retransmit_range now lost (Z.to_nat (next_seq c - base c)) (base c).

(** [for seq in range(lo, lo + n)] of the cumulative branch of
    [_handle_ack]. *)
Fixpoint ack_range (now : Q) (n : nat) (lo : Z) : M t unit :=
  match n with
  | O => ret tt
  | S n' =>
      do c <- get;
      run match sent_packets c !! lo with
          | Some info =>
              let rtt :=
                Float.sub (Float.of_Q now)
                  (Float.of_Q (PacketInfo.send_time info)) in
              run modify (upd_stats (fun s =>
                    ClientStats.set_rtt_samples
                      (ClientStats.rtt_samples s ++ [rtt]) s));
              run on_congestion
                    (CongestionController.on_ack_received (Some rtt));
              modify (fun c => set_sent_packets (delete lo (sent_packets c)) c)
          | None => ret tt
          end;
      ack_range now n' (lo + 1)
  end.

Definition _handle_ack (now : Q) (packet : Packet.t) : M t unit :=
  let ack_no := Packet.ack_no packet in
  run incr ClientStats.acks_received ClientStats.set_acks_received 1;
  do c <- get;
  match mode c with
  | go_back_n =>
      if decide (ack_no > base c) then
        run ack_range now (Z.to_nat (ack_no - base c)) (base c);
        modify (set_base ack_no)
      else ret tt
  | _ =>
      let seq_acked := ack_no - 1 in
      if decide (seq_acked ∈ acked_packets c) then ret tt
      else
        run modify (set_acked_packets ({[seq_acked]} ∪ acked_packets c));
        run match sent_packets c !! seq_acked with
            | Some info =>
                let rtt :=
                  Float.sub (Float.of_Q now)
                    (Float.of_Q (PacketInfo.send_time info)) in
                run modify (upd_stats (fun s =>
                      ClientStats.set_rtt_samples
                        (ClientStats.rtt_samples s ++ [rtt]) s));
                run on_congestion
                      (CongestionController.on_ack_received (Some rtt));
                modify (fun c =>
                  set_sent_packets (delete seq_acked (sent_packets c)) c)
            | None => ret tt
            end;
        modify (fun c =>
          set_base
            (skip_present (fun k => bool_decide (k ∈ acked_packets c))
               (size (acked_packets c)) (base c)) c)
  end.

(** One turn of the receiver thread's [_receive_loop] in which [recvfrom]
    yields [d]. *)
Definition _receive_loop_turn (now : Q) (d : list byte) : M t unit :=
  try_except
    (do parsed <- lift_result
       (Packet.from_bytes (take Packet.MAX_PACKET_SIZE d));
     match parsed with
     | Some packet =>
         if Packet.is_ack packet then _handle_ack now packet else ret tt
     | None => ret tt
     end)
    (fun _ => ret tt).

(** One turn of the timer thread's [_timer_loop].  Which deadlines have
    passed is the clock's affair: in Go-Back-N the turn is told whether the
    oldest packet's has ([expired base]), otherwise which sequence numbers'
    have. *)
Definition go_back_n_timer_turn (now : Q) (expired : bool)
    (lost : Z -> bool) : M t unit :=
  do c <- get;
  if bool_decide (is_Some (sent_packets c !! base c)) && expired
  then _handle_timeout_gbn now lost
  else ret tt.

Definition selective_timer_turn (now : Q) (expired : list Z)
    (lost : Z -> bool) : M t unit :=
  fold_right
    (fun seq_no k =>
       do c <- get;
       run match sent_packets c !! seq_no with
           | Some info =>
               if negb (PacketInfo.acked info)
               then _retransmit_packet now (lost seq_no) seq_no
               else ret tt
           | None => ret tt
           end;
       k)
    (ret tt) expired.

Definition _timer_loop_turn (now : Q) (expired : list Z) (lost : Z -> bool)
  : M t unit :=
  do c <- get;
  match mode c with
  | go_back_n =>
      go_back_n_timer_turn now (bool_decide (base c ∈ expired)) lost
  | _ => selective_timer_turn now expired lost
  end.

(** The inner [while] of [_send_sliding_window], under [send_lock]:
    every turn adds one to [next_seq], so [fuel] counts the turns left. *)
Fixpoint window_fill (now : Q) (lost : Z -> bool) (effective_window : Z)
    (fuel : nat) : M t unit :=
  match fuel with
  | O => ret tt
  | S fuel' =>
      do c <- get;
      if bool_decide (next_seq c < total_chunks c)
         && bool_decide (next_seq c < base c + effective_window) then
        if match mode c with selective_repeat => true | _ => false end
           && bool_decide (next_seq c ∈ acked_packets c) then
          run modify (fun c => set_next_seq (next_seq c + 1) c);
          window_fill now lost effective_window fuel'
        else
          do chunk <-
            match data_chunks c !! Z.to_nat (next_seq c) with
            | Some chunk => ret chunk
            | None => raise IndexError
            end;
          do packet <- lift_result
            (Packet.create_data_packet (next_seq c) chunk (window_size c));
          do packet <-
            (if negb (lost (next_seq c)) then
               do p <- _send_raw_packet packet;
               run modify (upd_congestion CongestionController.on_packet_sent);
               ret p
             else
               run incr ClientStats.packets_dropped
                     ClientStats.set_packets_dropped 1;
               ret packet);
          run modify (fun c =>
                set_sent_packets
                  (<[next_seq c := PacketInfo.new packet now]> (sent_packets c))
                  c);
          run incr ClientStats.packets_sent ClientStats.set_packets_sent 1;
          run incr ClientStats.bytes_sent ClientStats.set_bytes_sent
                (Z.of_nat (length chunk));
          run modify (fun c => set_next_seq (next_seq c + 1) c);
          window_fill now lost effective_window fuel'
      else ret tt
  end.

(** The body of the outer [while self.base < self.total_chunks]. *)
Definition window_turn (now : Q) (lost : Z -> bool) : M t unit :=
  do c <- get;
  do congestion_window <-
    (if CongestionController.enabled (congestion c)
     then lift_result (CongestionController.effective_window (congestion c))
     else ret (window_size c));
  let effective_window := Z.min (window_size c) congestion_window in
  window_fill now lost effective_window
    (Z.to_nat (total_chunks c - next_seq c)).

(** What the other two threads do between two turns of the outer loop. *)
Inductive background : Type :=
| AckArrives (now : Q) (d : list byte)
| TimerFires (now : Q) (expired : list Z) (lost : Z -> bool).

Definition background_turn (e : background) : M t unit :=
  match e with
  | AckArrives now d => _receive_loop_turn now d
  | TimerFires now expired lost => _timer_loop_turn now expired lost
  end.

Record turn : Type := mk_turn {
  turn_now : Q;
  turn_lost : Z -> bool;
  turn_background : list background;
}.

(** The outer loop.  [Some rest]: the loop ended with the turns [rest]
    not consumed; [None]: the turns ran out with [base < total_chunks]. *)
Fixpoint window_loop (sched : list turn) : M t (option (list turn)) :=
  do c <- get;
  if decide (base c < total_chunks c) then
    match sched with
    | [] => ret None
    | t :: sched' =>
        run window_turn (turn_now t) (turn_lost t);
        run fold_right (fun e k => run background_turn e; k) (ret tt)
              (turn_background t);
        window_loop sched'
    end
  else ret (Some sched).

(** [_send_sliding_window].  The second loop ([while self.base <
    self.total_chunks and timeout_count < 50]) starts with its guard false,
    the first one having just ended on [base >= total_chunks]. *)
Definition _send_sliding_window (sched : list turn) (now : Q)
    (fin_reply : recv_result) : M t (option bool) :=
  do r <- window_loop sched;
  match r with
  | None => ret None
  | Some _ =>
      run modify (set_running false);
      do c <- get;
      if decide (base c >= total_chunks c) then
        run _finish_transfer now fin_reply; ret (Some true)
      else
        run _set_state ERROR; ret (Some false)
  end.

End UDPClient.

(** ** reliability/selective_repeat.py: the send window *)

Module SRWindow.

Record t : Type := mk {
  base : Z;
  next_seq : Z;
  window_size : Z;
  acked : gset Z;
}.

(** [SRWindow(window_size=...)] *)
Definition new (window_size : Z) : t := mk 0 0 window_size ∅.

Definition slots_available (w : t) : Z :=
  window_size w - (next_seq w - base w).

Definition can_send (w : t) : bool :=
  bool_decide (next_seq w < base w + window_size w).

Definition is_acked (seq_no : Z) (w : t) : bool :=
  bool_decide (seq_no ∈ acked w).

Definition in_window (seq_no : Z) (w : t) : bool :=
  bool_decide (base w <= seq_no) && bool_decide (seq_no < base w + window_size w).

Definition mark_acked (seq_no : Z) (w : t) : t :=
  let acked' := {[seq_no]} ∪ acked w in
  mk (skip_present (fun k => bool_decide (k ∈ acked')) (size acked') (base w))
     (next_seq w) (window_size w) acked'.

(** [self.window.next_seq += 1], the step of [SRSender.send_data]'s inner
    loop, which runs while [can_send()]. *)
Definition advance_next_seq (w : t) : t :=
  mk (base w) (next_seq w + 1) (window_size w) (acked w).

End SRWindow.

(** The acknowledged set of the claim: every acknowledged sequence number
    within [[base, next_seq)], and [base] not acknowledged. *)
Definition acked_within_window (w : SRWindow.t) : Prop :=
  (forall s, s ∈ SRWindow.acked w ->
             SRWindow.base w <= s < SRWindow.next_seq w) /\
  SRWindow.base w ∉ SRWindow.acked w.

(** What the window does maintain: [base] is not acknowledged, everything
    below [base] is (nothing is ever removed from the set), and only
    sequence numbers already sent are acknowledged. *)
Definition acked_is_history (w : SRWindow.t) : Prop :=
  (SRWindow.base w ∉ SRWindow.acked w) /\
  (forall s, 0 <= s < SRWindow.base w -> s ∈ SRWindow.acked w) /\
  (forall s, s ∈ SRWindow.acked w -> 0 <= s < SRWindow.next_seq w) /\
  0 <= SRWindow.base w <= SRWindow.next_seq w.

(** The sender's window variables, seen as an [SRWindow]. *)
Definition window_of (c : UDPClient.t) : SRWindow.t :=
  SRWindow.mk (UDPClient.base c) (UDPClient.next_seq c)
    (UDPClient.window_size c) (UDPClient.acked_packets c).

(** The order in which the sending loop moves the window variables
    [(base, acked_packets, next_seq)]: only [next_seq] moves, upwards. *)
Definition window_grows : relation (Z * gset Z * Z) :=
  fun v v' => v'.1.1 = v.1.1 /\ v'.1.2 = v.1.2 /\ v.2 <= v'.2.

Definition window_view (c : UDPClient.t) : Z * gset Z * Z :=
  (UDPClient.base c, UDPClient.acked_packets c, UDPClient.next_seq c).

(** A window in which sequence 0 has been sent and nothing acknowledged. *)
Definition one_sent : SRWindow.t := SRWindow.mk 0 1 10 ∅.

(** ** The two endpoints and the datagrams between them *)

Module System.

(** The network is what each side has sent so far (the outboxes): a side
    may receive any datagram the other has sent.  One that is never
    received is lost; one received twice is duplicated; they may be
    received in any order. *)
Record t : Type := mk {
  client : UDPClient.t;
  server : UDPServer.t;
}.

Definition client_addr : address := (2130706433, 40000).

#[export] Instance byte_eq_decision : EqDecision byte := Byte.byte_eq_dec.

(** What each side can receive: a datagram the other side has sent. *)
Definition sent_by_client (s : t) (d : list byte) : bool :=
  bool_decide (d ∈ UDPClient.outbox (client s)).

Definition sent_by_server (s : t) (d : list byte) : bool :=
  bool_decide ((d, client_addr) ∈ UDPServer.outbox (server s)).

Definition receivable (s : t) (reply : recv_result) : bool :=
  match reply with
  | RecvTimeout => true
  | RecvDatagram d => sent_by_server s d
  end.

Inductive event : Type :=
(** the sender's main thread *)
| ConnectSend
| ConnectRecv (reply : recv_result)
| SendDataReset (now : Q) (data : list byte)
| WindowTurn (now : Q) (lost : Z -> bool)
| FinishSend
| FinishRecv (now : Q) (reply : recv_result)
(** the sender's receiver and timer threads *)
| AckTurn (now : Q) (d : list byte)
| TimerTurn (now : Q) (expired : list Z) (lost : Z -> bool)
(** the receiver's only thread *)
| ServerTurn (now : Q) (lost : bool) (d : list byte).

Definition on_client {A} (m : M UDPClient.t A) (s : t) : option t :=
  match m (client s) with
  | (Returns _, c) => Some (mk c (server s))
  | (Raises _, _) => None
  end.

Definition on_server (m : M UDPServer.t unit) (s : t) : option t :=
  match m (server s) with
  | (Returns _, v) => Some (mk (client s) v)
  | (Raises _, _) => None
  end.

(** One event; [None] when it cannot happen in [s] (the thread is not at
    that point, the datagram was never sent) or when the thread dies of an
    exception. *)
Definition step (e : event) (s : t) : option t :=
  let c := client s in
  match e with
  | ConnectSend =>
      match UDPClient.state c with
      | IDLE => on_client UDPClient.connect_send s
      | _ => None
      end
  | ConnectRecv reply =>
      match UDPClient.state c with
      | CONNECTING =>
          if receivable s reply
          then on_client (UDPClient.connect_recv reply) s
          else None
      | _ => None
      end
  | SendDataReset now data =>
      match UDPClient.state c with
      | CONNECTED => on_client (UDPClient.send_data_reset now data) s
      | _ => None
      end
  | WindowTurn now lost =>
      match UDPClient.state c with
      | TRANSFERRING =>
          if UDPClient.running c
             && bool_decide (UDPClient.base c < UDPClient.total_chunks c)
          then on_client (UDPClient.window_turn now lost) s
          else None
      | _ => None
      end
  | FinishSend =>
      match UDPClient.state c with
      | TRANSFERRING =>
          if UDPClient.running c
             && bool_decide (UDPClient.base c >= UDPClient.total_chunks c)
          then on_client (bind (modify (UDPClient.set_running false))
                            (fun _ => UDPClient.finish_send)) s
          else None
      | _ => None
      end
  | FinishRecv now reply =>
      match UDPClient.state c with
      | CLOSING =>
          if receivable s reply
          then on_client (UDPClient.finish_recv now reply) s
          else None
      | _ => None
      end
  | AckTurn now d =>
      if UDPClient.running c && sent_by_server s d
      then on_client (UDPClient._receive_loop_turn now d) s
      else None
  | TimerTurn now expired lost =>
      if UDPClient.running c
      then on_client (UDPClient._timer_loop_turn now expired lost) s
      else None
  | ServerTurn now lost d =>
      if sent_by_client s d
      then on_server (UDPServer._receive_loop_turn lost now d client_addr) s
      else None
  end.

Fixpoint steps (es : list event) (s : t) : option t :=
  match es with
  | [] => Some s
  | e :: es' =>
      match step e s with
      | Some s' => steps es' s'
      | None => None
      end
  end.

(** What the receiver has delivered: the files in its output directory. *)
Definition delivered (s : t) : list (list byte) :=
  (map_to_list (UDPServer.files (server s))).*2.

End System.

(** ** Concrete inputs used by the examples *)

Module Scenario.

Definition client_addr : address := System.client_addr.

(** The datagram of a packet, as [to_bytes] yields it. *)
Definition wire (p : result Packet.t) : list byte :=
  match result_bind p Packet.to_bytes with
  | Returns (d, _) => d
  | Raises _ => []
  end.

(** A Selective Repeat server that has stored chunks 0 and 2 and still
    waits for chunk 1. *)
Definition gapped_server : UDPServer.t :=
  UDPServer.set_current_client (Some client_addr)
    (UDPServer.set_buffer
       (ReceiverBuffer.mk 1 (<[2 := ["c"]%byte]> (<[0 := ["a"]%byte]> ∅)) 1024)
       UDPServer.new).

(** A stop-and-wait server after the handshake, waiting for chunk 0. *)
Definition stop_wait_server : UDPServer.t :=
  UDPServer.set_current_client (Some client_addr)
    (UDPServer.set_protocol_mode stop_wait 1 UDPServer.new).

(** A data packet that is one ahead of what that server expects. *)
Definition early_packet : Packet.t :=
  Packet.mk 1 0 Packet.FLAG_DATA 1 ["b"]%byte 0.

(** *** A Selective Repeat transfer of 1026 chunks *)

Definition no_loss : Z -> bool := fun _ => false.

(** 1025 full chunks of ["a"] and a last chunk, ["z"]. *)
Definition big_chunks : list (list byte) :=
  replicate 1025 (replicate Packet.MAX_DATA_SIZE "a"%byte) ++ [["z"%byte]].

Definition big_stream : list byte := concat big_chunks.

Definition sr_client : UDPClient.t :=
  UDPClient.configure selective_repeat 10 1%Q false UDPClient.new.

Definition sr_system : System.t := System.mk sr_client UDPServer.new.

(** The datagrams of the transfer of the chunks [cs]. *)
Definition data_datagram (cs : list (list byte)) (k : nat) : list byte :=
  wire (Packet.create_data_packet (Z.of_nat k) (default [] (cs !! k)) 10).

Definition ack_datagram (k : nat) : list byte :=
  wire (Packet.create_ack_packet 0 (Z.of_nat k) 10).

Definition handshake : list System.event :=
  [System.ConnectSend;
   System.ServerTurn 0%Q false (wire (Packet.create_syn_packet 0 10));
   System.ConnectRecv
     (RecvDatagram (wire (Packet.create_syn_ack_packet 0 1 10)))].

(** Chunk [k] in order: the sender fills its window, the server receives
    chunk [k] and acknowledges it, the sender receives the
    acknowledgement. *)
Definition round (cs : list (list byte)) (k : nat) : list System.event :=
  [System.WindowTurn 0%Q no_loss;
   System.ServerTurn 0%Q false (data_datagram cs k);
   System.AckTurn 0%Q (ack_datagram (S k))].

(** Chunk [m + 1] overtakes chunk [m]. *)
Definition overtake (cs : list (list byte)) (m : nat) : list System.event :=
  [System.WindowTurn 0%Q no_loss;
   System.ServerTurn 0%Q false (data_datagram cs (S m));
   System.AckTurn 0%Q (ack_datagram (S (S m)));
   System.ServerTurn 0%Q false (data_datagram cs m);
   System.AckTurn 0%Q (ack_datagram (S m))].

(** The sender leaves its loop and closes: FIN, file, FIN-ACK. *)
Definition closing (cs : list (list byte)) : list System.event :=
  [System.FinishSend;
   System.ServerTurn 0%Q false
     (wire (Packet.create_fin_packet (Z.of_nat (length cs))));
   System.FinishRecv 0%Q
     (RecvDatagram
        (wire (Packet.create_fin_ack_packet 0 (Z.of_nat (length cs) + 1))))].

(** Chunks [0] to [m - 1] arrive in order; then chunk [m + 1] overtakes
    chunk [m]; then the FIN. *)
Definition overtaking (cs : list (list byte)) (m : nat) : list System.event :=
  flat_map (round cs) (seq 0 m) ++ overtake cs m ++ closing cs.

(** The whole session: handshake, [send_data(stream)], the transfer. *)
Definition session (stream : list byte) (cs : list (list byte)) (m : nat)
  : list System.event :=
  handshake ++ [System.SendDataReset 0%Q stream] ++ overtaking cs m.

(** *** A sender whose only chunk is never acknowledged *)

(** A connected sender in mode [m] that has just taken one byte to send. *)
Definition stuck_client (m : protocol_mode) : UDPClient.t :=
  (UDPClient.send_data_reset 0%Q ["a"%byte]
     (UDPClient.set_state CONNECTED
        (UDPClient.set_socket true
           (UDPClient.configure m 10 1%Q true UDPClient.new)))).2.

(** One turn of the sending loop, during which the timer finds the
    deadline of sequence 0 passed eleven times. *)
Definition eleven_timeouts : list UDPClient.turn :=
  [UDPClient.mk_turn 0%Q no_loss
     (replicate 11 (UDPClient.TimerFires 0%Q [0] no_loss))].

(** *** A controller in Congestion Avoidance at a window of 3 *)

(** [n] acknowledgements without an RTT sample. *)
Definition acks (n : nat) (c : CongestionController.t)
  : CongestionController.t :=
  Nat.iter n (fun c => (CongestionController.on_ack_received None c).2) c.

(** Five acknowledgements, a timeout, two acknowledgements: the window
    and the threshold are both 3.0. *)
Definition window_three : CongestionController.t :=
  acks 2 (CongestionController.on_timeout
            (acks 5 (CongestionController.new true))).

End Scenario.

(** A property of both sliding-window modes. *)
Definition forall_modes (P : protocol_mode -> Prop) : Prop :=
  P go_back_n /\ P selective_repeat.

(** ** Properties and invariants the theorems are stated with *)

(** *** The congestion controller *)

(** What every reachable controller satisfies: the window is a finite
    float between 1 and 1024, the threshold one between 2 and 513. *)
Definition bounded (c : CongestionController.t) : Prop :=
  CongestionController.min_cwnd c = Float.Fin 1 /\
  CongestionController.max_cwnd c = Float.Fin 1024 /\
  (exists x, CongestionController.cwnd c = Float.Fin x /\
             (1 <= x /\ x <= 1024)%Q) /\
  (exists y, CongestionController.ssthresh c = Float.Fin y /\
             (2 <= y /\ y <= 513)%Q).

(** The window after an ACK, when control is enabled and the window is
    not zero. *)
Definition cwnd_after_ack (c : CongestionController.t) : Float.t :=
  match CongestionController.state c with
  | CongestionController.SLOW_START =>
      Float.py_min
        (Float.add (CongestionController.cwnd c) (Float.Fin 1))
        (CongestionController.max_cwnd c)
  | CongestionController.CONGESTION_AVOIDANCE =>
      Float.py_min
        (Float.add (CongestionController.cwnd c)
           (Float.div (Float.Fin 1) (CongestionController.cwnd c)))
        (CongestionController.max_cwnd c)
  end.

(** *** A Selective Repeat transfer, seen from both ends *)

(** [d] is the datagram of [p0], and decodes to [p]. *)
Definition encodes (p0 : Packet.t) (d : list byte) (p : Packet.t) : Prop :=
  Packet.to_bytes p0 = Returns (d, p) /\
  Packet.from_bytes (take Packet.MAX_PACKET_SIZE d) = Returns (Some p) /\
  Packet.verify_checksum p = Returns true /\
  Packet.seq_no p = Packet.seq_no p0 /\ Packet.ack_no p = Packet.ack_no p0 /\
  Packet.flags p = Packet.flags p0 /\ Packet.window p = Packet.window p0 /\
  Packet.data p = Packet.data p0.

(** What a turn of the server leaves alone. *)
Definition server_same (s s' : UDPServer.t) : Prop :=
  UDPServer.socket_open s' = UDPServer.socket_open s /\
  UDPServer.current_client s' = UDPServer.current_client s /\
  UDPServer.mode s' = UDPServer.mode s /\
  UDPServer.window_size s' = UDPServer.window_size s /\
  UDPServer.files s' = UDPServer.files s.

(** The receive buffer holding exactly the first [k] chunks of [cs]. *)
Fixpoint prefix_map (cs : list (list byte)) (k : nat) : gmap Z (list byte) :=
  match k with
  | O => ∅
  | S k' => <[Z.of_nat k' := default [] (cs !! k')]> (prefix_map cs k')
  end.

(** The sender in the middle of a Selective Repeat transfer of the chunks
    [cs], window 10, congestion control off. *)
Definition sender_ready (cs : list (list byte)) (c : UDPClient.t) : Prop :=
  UDPClient.socket c = true /\ UDPClient.state c = TRANSFERRING /\
  UDPClient.running c = true /\ UDPClient.mode c = selective_repeat /\
  UDPClient.window_size c = 10 /\
  CongestionController.enabled (UDPClient.congestion c) = false /\
  UDPClient.data_chunks c = cs /\
  UDPClient.total_chunks c = Z.of_nat (length cs).

(** Chunks that each fit a DATA packet, few enough for the 32-bit sequence
    numbers up to the FIN-ACK's. *)
Definition sendable (cs : list (list byte)) : Prop :=
  Forall (fun chunk => (length chunk <= Packet.MAX_DATA_SIZE)%nat) cs /\
  Z.of_nat (length cs) + 1 < 2 ^ 32.

(** What an acknowledgement leaves alone in the sender. *)
Definition sender_same (c c' : UDPClient.t) : Prop :=
  UDPClient.socket c' = UDPClient.socket c /\
  UDPClient.state c' = UDPClient.state c /\
  UDPClient.running c' = UDPClient.running c /\
  UDPClient.mode c' = UDPClient.mode c /\
  UDPClient.window_size c' = UDPClient.window_size c /\
  CongestionController.enabled (UDPClient.congestion c')
  = CongestionController.enabled (UDPClient.congestion c) /\
  UDPClient.data_chunks c' = UDPClient.data_chunks c /\
  UDPClient.total_chunks c' = UDPClient.total_chunks c /\
  UDPClient.next_seq c' = UDPClient.next_seq c /\
  UDPClient.outbox c' = UDPClient.outbox c.

(** The receiver after the handshake of a Selective Repeat transfer. *)
Definition receiver_ready (v : UDPServer.t) : Prop :=
  UDPServer.socket_open v = true /\
  UDPServer.current_client v = Some System.client_addr /\
  UDPServer.mode v = selective_repeat /\
  UDPServer.window_size v = 10 /\
  UDPServer.files v = ∅.

(** Chunks [0] to [k - 1] have been received in order and acknowledged,
    and the acknowledgements received. *)
Definition in_order_upto (cs : list (list byte)) (k : nat) (s : System.t)
  : Prop :=
  let c := System.client s in
  let v := System.server s in
  sender_ready cs c /\
  UDPClient.base c = Z.of_nat k /\
  Z.of_nat k <= UDPClient.next_seq c <= Z.of_nat (length cs) /\
  (forall z, z ∈ UDPClient.acked_packets c <-> 0 <= z < Z.of_nat k) /\
  (forall j : nat, Z.of_nat j < UDPClient.next_seq c ->
                   Scenario.data_datagram cs j ∈ UDPClient.outbox c) /\
  receiver_ready v /\
  UDPServer.buffer v = ReceiverBuffer.mk (Z.of_nat k) (prefix_map cs k) 1024.

(** The two sides after the handshake. *)
Definition connected (s : System.t) : Prop :=
  let c := System.client s in
  let v := System.server s in
  UDPClient.socket c = true /\ UDPClient.state c = CONNECTED /\
  UDPClient.mode c = selective_repeat /\ UDPClient.window_size c = 10 /\
  CongestionController.enabled (UDPClient.congestion c) = false /\
  receiver_ready v /\ UDPServer.buffer v = ReceiverBuffer.new.

(** Every chunk acknowledged, the first [k] of them stored. *)
Definition all_acked (cs : list (list byte)) (k : nat) (s : System.t)
  : Prop :=
  let c := System.client s in
  let v := System.server s in
  sender_ready cs c /\
  UDPClient.base c = Z.of_nat (length cs) /\
  UDPClient.next_seq c = Z.of_nat (length cs) /\
  receiver_ready v /\
  exists e, UDPServer.buffer v = ReceiverBuffer.mk e (prefix_map cs k) 1024.

(** ** Unfolding the monad *)

Ltac unfold_m :=
  unfold bind, get, gets, modify, ret, raise, lift_result, try_except, when.

(** The state a run ends in, as the witness of [exists s', run = (r, s') /\ _]. *)
Ltac pick_final_state :=
  lazymatch goal with
  | |- exists s', (_, ?st) = _ /\ _ => exists st
  end.

Ltac pair_inv :=
  let E := fresh in intros E; apply pair_equal_spec in E as [<- <-].


(** ** Floats: the error of one rounding *)

Section FloatFacts.
Import Float.
Local Open Scope Q_scope.

Lemma round_half_even_spec s :
  Qabs (inject_Z (round_half_even s) - s) <= 1 # 2.
Proof.
  unfold round_half_even.
  pose proof (Qfloor_le s) as Hlo. pose proof (Qlt_floor s) as Hhi.
  rewrite inject_Z_plus in Hhi. change (inject_Z 1) with 1 in Hhi.
  apply Qabs_Qle_condition.
  destruct (Qcompare_spec (s - inject_Z (Qfloor s)) (1 # 2)) as [E|E|E].
  - destruct (Z.even (Qfloor s));
      [|rewrite inject_Z_plus; change (inject_Z 1) with 1]; lra.
  - lra.
  - rewrite inject_Z_plus. change (inject_Z 1) with 1. lra.
Qed.

Lemma pow2_pos e : 0 < 2 ^ e.
Proof. apply Qpower_0_lt. reflexivity. Qed.

Lemma pow2_mono a b : (a <= b)%Z -> 2 ^ a <= 2 ^ b.
Proof. intros H. apply Qpower_le_compat_l; [exact H|]. discriminate. Qed.

Lemma pow2_succ e : 2 ^ (e + 1) == 2 * 2 ^ e.
Proof.
  rewrite Qpower_plus by discriminate. change (2 ^ 1) with 2. ring.
Qed.

Lemma ulp_pos q : 0 < ulp q.
Proof. apply pow2_pos. Qed.

(** Rounding moves a value by at most half a unit in the last place. *)
Lemma nearest_error q : Qabs (nearest q - q) <= ulp q / 2.
Proof.
  unfold nearest. rewrite Qred_correct.
  pose proof (ulp_pos q) as Hp. set (p := ulp q) in *.
  pose proof (round_half_even_spec (q / p)) as H.
  set (m := inject_Z (round_half_even (q / p))) in *.
  assert (E : m * p - q == (m - q / p) * p) by (field; lra).
  rewrite E, Qabs_Qmult, (Qabs_pos p) by lra.
  setoid_replace (p / 2) with ((1 # 2) * p) using relation Qeq by field.
  apply Qmult_le_compat_r; [exact H|lra].
Qed.

End FloatFacts.

Section FloatBounds.
Import Float.
Local Open Scope Q_scope.

Lemma ilog2_le q : ~ q == 0 -> 2 ^ ilog2 q <= Qabs q.
Proof.
  intros Hq. unfold ilog2.
  destruct (Qle_bool _ _) eqn:E; [now apply Qle_bool_iff|]. clear E.
  destruct q as [n d]. cbn [Qnum Qden Qabs].
  assert (Hn : (0 < Z.abs n)%Z).
  { destruct (Z.eq_dec n 0%Z) as [->|]; [|lia]. exfalso. apply Hq. reflexivity. }
  set (a := Z.log2 (Z.abs n)). set (b := Z.log2 (Z.pos d)).
  pose proof (Z.log2_spec (Z.abs n) Hn) as [Ha _]. fold a in Ha.
  pose proof (Z.log2_spec (Z.pos d) ltac:(lia)) as [_ Hb]. fold b in Hb.
  pose proof (Z.log2_nonneg (Z.abs n)) as Ha0. fold a in Ha0.
  pose proof (Z.log2_nonneg (Z.pos d)) as Hb0. fold b in Hb0.
  replace (a - b - 1)%Z with (a - Z.succ b)%Z by lia.
  rewrite Qpower_minus by discriminate.
  rewrite Zle_Qle, Zpower_Qpower in Ha by lia.
  rewrite Zlt_Qlt, Zpower_Qpower in Hb by lia.
  change (inject_Z 2) with 2 in *.
  rewrite (Qmake_Qdiv (Z.abs n) d).
  pose proof (pow2_pos a). pose proof (pow2_pos (Z.succ b)).
  assert (0 < inject_Z (Z.pos d)) by reflexivity.
  apply Qle_shift_div_l; [assumption|].
  apply Qle_trans with (2 ^ a * (inject_Z (Z.pos d) / 2 ^ Z.succ b)).
  - apply Qle_lteq. right. field. lra.
  - apply Qle_trans with (2 ^ a * 1).
    + apply Qmult_le_l; [assumption|].
      apply Qle_shift_div_r; [assumption|]. lra.
    + lra.
Qed.

(** Around a value below [2^k] the floats are at most [2^(k - 53)]
    apart. *)
Lemma ulp_le q k :
  ~ q == 0 -> Qabs q < 2 ^ k -> (emin <= k - prec)%Z ->
  ulp q <= 2 ^ (k - prec).
Proof.
  intros Hq Hlt Hk. unfold ulp. apply pow2_mono.
  assert (ilog2 q < k)%Z; [|unfold prec in *; lia].
  destruct (Z_lt_le_dec (ilog2 q) k) as [|Hge]; [assumption|exfalso].
  pose proof (ilog2_le q Hq). pose proof (pow2_mono _ _ Hge). lra.
Qed.

(** A value of magnitude below 2048 rounds to a finite float no more
    than [2^-43] away. *)
Lemma round_error q :
  Qabs q < 2048 ->
  exists r, round q = Fin r /\ Qabs (r - q) <= 1 # 2 ^ 43.
Proof.
  intros Hb. unfold round.
  destruct (Qeq_bool q 0) eqn:E0.
  - apply Qeq_bool_eq in E0. exists 0. split; [reflexivity|].
    rewrite E0. cbn. discriminate.
  - assert (Hq : ~ q == 0).
    { intros H. apply Qeq_eq_bool in H. congruence. }
    pose proof (nearest_error q) as He.
    assert (Hu : ulp q <= 2 ^ (11 - prec)).
    { apply ulp_le; [exact Hq|exact Hb|unfold emin, prec; lia]. }
    change (2 ^ (11 - prec)) with (1 # 2 ^ 42) in Hu.
    pose proof (ulp_pos q) as Hp.
    assert (Hv : Qabs (nearest q - q) <= 1 # 2 ^ 43).
    { eapply Qle_trans; [exact He|].
      apply Qle_shift_div_r; [reflexivity|].
      eapply Qle_trans; [exact Hu|]. apply Qle_lteq. right. reflexivity. }
    cbn zeta.
    destruct (Qle_bool (2 ^ emax) (Qabs (nearest q))) eqn:E.
    + exfalso. apply Qle_bool_iff in E.
      pose proof (Qabs_triangle (nearest q - q) q) as Ht.
      setoid_replace (nearest q - q + q) with (nearest q)
        using relation Qeq in Ht by ring.
      assert (H4 : 4096 <= 2 ^ emax).
      { change 4096 with (2 ^ 12). apply pow2_mono. unfold emax. lia. }
      assert ((1 # 2 ^ 43) <= 1) by discriminate. lra.
    + eauto.
Qed.

End FloatBounds.

Section FloatOperations.
Import Float.
Local Open Scope Q_scope.

Lemma add_error x y :
  Qabs (x + y) < 2048 ->
  exists r, add (Fin x) (Fin y) = Fin r /\ Qabs (r - (x + y)) <= 1 # 2 ^ 43.
Proof. intros H. cbn [add]. now apply round_error. Qed.

Lemma div_error x y :
  ~ y == 0 -> Qabs (x / y) < 2048 ->
  exists r, div (Fin x) (Fin y) = Fin r /\ Qabs (r - x / y) <= 1 # 2 ^ 43.
Proof.
  intros Hy H. cbn [div].
  destruct (Qeq_bool y 0) eqn:E; [apply Qeq_bool_eq in E; contradiction|].
  now apply round_error.
Qed.

Lemma ltb_fin x y : ltb (Fin x) (Fin y) = true <-> x < y.
Proof.
  cbn [ltb]. destruct (Qle_bool y x) eqn:E; cbn [negb].
  - apply Qle_bool_iff in E. split; [discriminate|lra].
  - split; [intros _|reflexivity].
    destruct (Qlt_le_dec x y) as [|H]; [assumption|].
    apply Qle_bool_iff in H. congruence.
Qed.

Lemma py_min_fin a b :
  (b < a /\ py_min (Fin a) (Fin b) = Fin b) \/
  (a <= b /\ py_min (Fin a) (Fin b) = Fin a).
Proof.
  unfold py_min. destruct (ltb (Fin b) (Fin a)) eqn:E.
  - left. split; [now apply ltb_fin|reflexivity].
  - right. split; [|reflexivity].
    destruct (Qlt_le_dec b a) as [H|]; [|assumption].
    apply ltb_fin in H. congruence.
Qed.

Lemma py_max_fin a b :
  (a < b /\ py_max (Fin a) (Fin b) = Fin b) \/
  (b <= a /\ py_max (Fin a) (Fin b) = Fin a).
Proof.
  unfold py_max. destruct (ltb (Fin a) (Fin b)) eqn:E.
  - left. split; [now apply ltb_fin|reflexivity].
  - right. split; [|reflexivity].
    destruct (Qlt_le_dec a b) as [H|]; [|assumption].
    apply ltb_fin in H. congruence.
Qed.

End FloatOperations.

(** * Properties *)

(** ** The codec *)

Section PacketFacts.
Import Packet.

Example crc32_check_value :
  crc32 ["1"; "2"; "3"; "4"; "5"; "6"; "7"; "8"; "9"]%byte = 0xCBF43926.
Proof. reflexivity. Qed.

Lemma Z_of_byte_range b : 0 <= Z_of_byte b < 256.
Proof.
  unfold Z_of_byte. pose proof (Byte.to_N_bounded b). lia.
Qed.

Lemma Z_of_byte_of_Z z : Z_of_byte (byte_of_Z z) = z mod 256.
Proof.
  unfold byte_of_Z, Z_of_byte.
  assert (Hr : 0 <= z mod 256 < 256) by (apply Z.mod_pos_bound; lia).
  destruct (Byte.of_N (Z.to_N (z mod 256))) as [b|] eqn:E.
  - apply Byte.to_of_N in E. rewrite E. lia.
  - apply Byte.of_N_None_iff in E. lia.
Qed.

Lemma be_value_fold bs acc :
  fold_left (fun a b => a * 256 + Z_of_byte b) bs acc
  = acc * 256 ^ Z.of_nat (length bs) + be_value bs.
Proof.
  unfold be_value. revert acc.
  induction bs as [|b bs IH]; intros acc.
  - simpl. lia.
  - cbn [fold_left length]. rewrite IH, (IH (0 * 256 + _)).
    rewrite Nat2Z.inj_succ, Z.pow_succ_r by lia. ring.
Qed.

Lemma be_value_cons b bs :
  be_value (b :: bs) = Z_of_byte b * 256 ^ Z.of_nat (length bs) + be_value bs.
Proof.
  unfold be_value at 1. cbn [fold_left]. rewrite be_value_fold. ring.
Qed.

Lemma length_be_bytes n z : length (be_bytes n z) = n.
Proof. induction n; simpl; congruence. Qed.

Lemma be_value_be_bytes n z :
  be_value (be_bytes n z) = z mod 256 ^ Z.of_nat n.
Proof.
  induction n as [|n IH].
  - simpl. now rewrite Z.mod_1_r.
  - cbn [be_bytes]. rewrite be_value_cons, length_be_bytes, IH, Z_of_byte_of_Z.
    rewrite Nat2Z.inj_succ, Z.pow_succ_r by lia.
    rewrite (Z.mul_comm 256), Z.rem_mul_r by lia. ring.
Qed.

Lemma be_value_pack n z bs :
  pack_field n z = Returns bs -> be_value bs = z /\ length bs = n.
Proof.
  unfold pack_field. case_decide as Hz; [|discriminate].
  intros [= <-]. rewrite be_value_be_bytes, length_be_bytes.
  split; [apply Z.mod_small; lia | reflexivity].
Qed.

Lemma pack_field_ok n z :
  0 <= z < 256 ^ Z.of_nat n -> pack_field n z = Returns (be_bytes n z).
Proof. intros H. unfold pack_field. now rewrite decide_True. Qed.

Lemma calculate_checksum_range p c :
  calculate_checksum p = Returns c -> 0 <= c < 2 ^ 16.
Proof.
  unfold calculate_checksum. destruct (pack_IIBH _ _ _ _); [|discriminate].
  cbn. intros [= <-]. change 0xFFFF with (Z.ones 16).
  rewrite Z.land_ones by lia. apply Z.mod_pos_bound. lia.
Qed.

Lemma calculate_checksum_ok p :
  wire_ranges p ->
  calculate_checksum p =
    Returns (Z.land (crc32 (be_bytes 4 (seq_no p) ++ be_bytes 4 (ack_no p)
                            ++ be_bytes 1 (flags p) ++ be_bytes 2 (window p)
                            ++ data p)) 0xFFFF).
Proof.
  intros (Hs & Ha & Hf & Hw). unfold calculate_checksum, pack_IIBH.
  rewrite !pack_field_ok by (simpl; lia). cbn [result_bind].
  now rewrite <- !app_assoc.
Qed.

(** The checksum does not read the checksum field. *)
Lemma calculate_checksum_set_checksum c p :
  calculate_checksum (set_checksum c p) = calculate_checksum p.
Proof. reflexivity. Qed.

Lemma unpack_pack s a f w c :
  0 <= s < 2 ^ 32 -> 0 <= a < 2 ^ 32 -> 0 <= f < 2 ^ 8 ->
  0 <= w < 2 ^ 16 -> 0 <= c < 2 ^ 16 ->
  exists hdr, pack_IIBHH s a f w c = Returns hdr /\
              length hdr = HEADER_SIZE /\
              unpack_IIBHH hdr = Returns (s, a, f, w, c).
Proof.
  intros Hs Ha Hf Hw Hc. unfold pack_IIBHH, pack_IIBH.
  rewrite !pack_field_ok by (simpl; lia). cbn [result_bind].
  eexists. split; [reflexivity|].
  assert (Hlen : length ((be_bytes 4 s ++ be_bytes 4 a ++ be_bytes 1 f
                          ++ be_bytes 2 w) ++ be_bytes 2 c) = HEADER_SIZE).
  { rewrite !length_app, !length_be_bytes. reflexivity. }
  split; [exact Hlen|].
  unfold unpack_IIBHH. rewrite decide_True by exact Hlen.
  rewrite <- !app_assoc.
  pose proof (length_be_bytes 4 s) as L1.
  pose proof (length_be_bytes 4 a) as L2.
  pose proof (length_be_bytes 1 f) as L3.
  pose proof (length_be_bytes 2 w) as L4.
  pose proof (length_be_bytes 2 c) as L5.
  repeat f_equal.
  - rewrite take_app_length' by done.
    rewrite be_value_be_bytes. apply Z.mod_small. simpl; lia.
  - rewrite drop_app_length' by done. rewrite take_app_length' by done.
    rewrite be_value_be_bytes. apply Z.mod_small. simpl; lia.
  - rewrite (app_assoc (be_bytes 4 s)).
    rewrite drop_app_length' by (rewrite length_app; lia).
    rewrite take_app_length' by done.
    rewrite be_value_be_bytes. apply Z.mod_small. simpl; lia.
  - rewrite (app_assoc (be_bytes 4 s)), (app_assoc (_ ++ _)).
    rewrite drop_app_length' by (rewrite !length_app; lia).
    rewrite take_app_length' by done.
    rewrite be_value_be_bytes. apply Z.mod_small. simpl; lia.
  - rewrite (app_assoc (be_bytes 4 s)), (app_assoc (_ ++ _)),
      (app_assoc ((_ ++ _) ++ _)).
    rewrite drop_app_length' by (rewrite !length_app; lia).
    rewrite <- (app_nil_r (be_bytes 2 c)) at 1.
    rewrite take_app_length' by done.
    rewrite be_value_be_bytes. apply Z.mod_small. simpl; lia.
Qed.

Lemma codec_roundtrip (p : t) :
  wire_ranges p ->
  (length (data p) <= MAX_DATA_SIZE)%nat ->
  exists bs p' c,
    to_bytes p = Returns (bs, p') /\
    from_bytes bs = Returns (Some p') /\
    verify_checksum p' = Returns true /\
    calculate_checksum p = Returns c /\
    p' = set_checksum c p.
Proof.
  intros Hr Hlen.
  pose proof (calculate_checksum_ok p Hr) as Hc.
  set (c := Z.land _ _) in Hc.
  pose proof (calculate_checksum_range p c Hc) as Hcr.
  destruct Hr as (Hs & Ha & Hf & Hw).
  destruct (unpack_pack (seq_no p) (ack_no p) (flags p) (window p) c)
    as (hdr & Hpack & Hhl & Hunpack); try assumption.
  exists (hdr ++ data p), (set_checksum c p), c.
  assert (Hto : to_bytes p = Returns (hdr ++ data p, set_checksum c p)).
  { unfold to_bytes. rewrite Hc. cbn [result_bind]. cbn [set_checksum seq_no ack_no flags window checksum data].
    rewrite Hpack. reflexivity. }
  split; [exact Hto|]. split; [|split; [|split; [exact Hc|reflexivity]]].
  - unfold from_bytes.
    rewrite decide_False by (rewrite length_app; lia).
    rewrite take_app_length' by done. rewrite Hunpack.
    rewrite drop_app_length' by done.
    unfold new. rewrite decide_False by lia.
    destruct p; reflexivity.
  - unfold verify_checksum. rewrite calculate_checksum_set_checksum, Hc.
    cbn. now rewrite bool_decide_eq_true_2.
Qed.

(** C2. For every packet whose header fields fit their wire widths and
    whose payload has at most 1024 bytes, [to_bytes] succeeds; decoding
    the datagram yields the packet, as [to_bytes] leaves it (its
    [checksum] field holding the checksum just computed, every other
    field as before); and [verify_checksum] is true of the decoded
    packet. *)
Theorem C2_codec_roundtrip (p : t) :
  wire_ranges p ->
  (length (data p) <= MAX_DATA_SIZE)%nat ->
  exists bs p' c,
    to_bytes p = Returns (bs, p') /\
    from_bytes bs = Returns (Some p') /\
    verify_checksum p' = Returns true /\
    calculate_checksum p = Returns c /\
    p' = set_checksum c p.
Proof. exact (codec_roundtrip p). Qed.

Lemma C2_codec_roundtrip_witness :
  exists bs p' c,
    to_bytes sample_packet = Returns (bs, p') /\
    from_bytes bs = Returns (Some p') /\
    verify_checksum p' = Returns true /\
    calculate_checksum sample_packet = Returns c /\
    p' = set_checksum c sample_packet.
Proof.
  apply (C2_codec_roundtrip sample_packet).
  - unfold wire_ranges, sample_packet, FLAG_DATA; simpl; lia.
  - unfold MAX_DATA_SIZE; simpl; lia.
Defined.

Lemma from_bytes_short d :
  (length d < HEADER_SIZE)%nat -> from_bytes d = Returns None.
Proof. intros H. unfold from_bytes. now rewrite decide_True. Qed.

Lemma from_bytes_long d :
  (HEADER_SIZE <= length d)%nat ->
  exists s a f w c,
    from_bytes d
    = result_bind (new s a f w (drop HEADER_SIZE d) c)
        (fun p => Returns (Some p)).
Proof.
  intros H. unfold from_bytes. rewrite decide_False by lia.
  unfold unpack_IIBHH.
  rewrite decide_True by (rewrite length_take; lia).
  do 5 eexists. unfold new. case_decide; reflexivity.
Qed.

(** C3 (amended).  [from_bytes] returns [None] exactly when the datagram
    is shorter than the 13-byte header.  For a datagram of 13 to 13 + 1024
    bytes it returns a packet whose payload is all of the datagram past
    the first 13 bytes.  The payload length is enforced on decode as well,
    by the constructor: a datagram longer than 13 + 1024 bytes yields no
    packet. *)
Theorem C3_from_bytes_outcomes (d : list byte) :
  (from_bytes d = Returns None <-> (length d < HEADER_SIZE)%nat) /\
  ((HEADER_SIZE <= length d <= HEADER_SIZE + MAX_DATA_SIZE)%nat ->
   exists p, from_bytes d = Returns (Some p) /\ data p = drop HEADER_SIZE d) /\
  ((HEADER_SIZE + MAX_DATA_SIZE < length d)%nat ->
   forall p, from_bytes d <> Returns (Some p)).
Proof.
  destruct (decide (length d < HEADER_SIZE)%nat) as [Hs|Hl].
  - rewrite (from_bytes_short d Hs).
    split; [tauto|]. split; [intros; exfalso; lia|]. intros _ p. discriminate.
  - destruct (from_bytes_long d) as (s & a & f & w & c & ->); [lia|].
    unfold new. rewrite length_drop.
    case_decide as Hbig; cbn [result_bind].
    + split; [split; [discriminate|intros; exfalso; lia]|].
      split; [intros; exfalso; lia|]. intros _ p. discriminate.
    + split; [split; [discriminate|intros; exfalso; lia]|].
      split; [|intros; exfalso; lia]. intros _. eexists. split; reflexivity.
Qed.

(** 1038 bytes: as long as the header, no packet, and no [None] either:
    the constructor's [ValueError] escapes [from_bytes]. *)
Lemma C3_counterexample :
  (HEADER_SIZE <= length oversized_datagram)%nat /\
  from_bytes oversized_datagram = Raises ValueError /\
  ~ exists p, from_bytes oversized_datagram = Returns (Some p) /\
              data p = drop HEADER_SIZE oversized_datagram.
Proof.
  assert (E : from_bytes oversized_datagram = Raises ValueError)
    by (vm_compute; reflexivity).
  split; [vm_compute; lia|]. split; [exact E|].
  intros (p & Hp & _). rewrite E in Hp. discriminate.
Qed.

End PacketFacts.

(** ** The congestion controller *)

Section CongestionFacts.
Import CongestionController.
Local Open Scope Q_scope.

Lemma update_rtt_frame sample c :
  cwnd (_update_rtt sample c) = cwnd c /\
  ssthresh (_update_rtt sample c) = ssthresh c /\
  min_cwnd (_update_rtt sample c) = min_cwnd c /\
  max_cwnd (_update_rtt sample c) = max_cwnd c /\
  enabled (_update_rtt sample c) = enabled c.
Proof.
  unfold _update_rtt. destruct (Float.eqb (srtt c) (Float.Fin 0)); auto.
Qed.

Lemma on_ack_received_enabled rtt_sample c :
  enabled c = true -> Float.is_zero (cwnd c) = false ->
  exists c',
    on_ack_received rtt_sample c = (Returns tt, c') /\
    cwnd c' = cwnd_after_ack c /\ ssthresh c' = ssthresh c /\
    min_cwnd c' = min_cwnd c /\ max_cwnd c' = max_cwnd c /\
    enabled c' = true.
Proof.
  intros He Hnz.
  unfold on_ack_received, cwnd_after_ack, bind, get, modify, ret,
    lift_result, Float.truediv.
  rewrite He. cbn [negb].
  destruct rtt_sample as [sample|].
  - destruct (update_rtt_frame sample c) as (E1 & E2 & E3 & E4 & E5).
    unfold state. rewrite E1, E2, E4.
    destruct (Float.ltb (cwnd c) (ssthresh c)).
    + eexists; split; [reflexivity|].
      cbn [cwnd ssthresh min_cwnd max_cwnd enabled set_cwnd
           set_packets_in_flight set_acks_received_in_window].
      rewrite E2, E3, E4, E5. auto.
    + rewrite Hnz. eexists; split; [reflexivity|].
      cbn [cwnd ssthresh min_cwnd max_cwnd enabled set_cwnd
           set_packets_in_flight set_acks_received_in_window].
      rewrite E2, E3, E4, E5. auto.
  - unfold state.
    destruct (Float.ltb (cwnd c) (ssthresh c)).
    + eexists; split; [reflexivity|]. cbn. auto.
    + rewrite Hnz. eexists; split; [reflexivity|]. cbn. auto.
Qed.

Lemma on_ack_received_disabled rtt_sample c :
  enabled c = false -> on_ack_received rtt_sample c = (Returns tt, c).
Proof.
  intros He. unfold on_ack_received, bind, get, ret. now rewrite He.
Qed.

Lemma inv_pos x : 1 <= x -> 0 < 1 / x /\ 1 / x <= 1.
Proof.
  intros Hx. assert (0 < x) by lra.
  split.
  - apply Qlt_shift_div_l; lra.
  - apply Qle_shift_div_r; lra.
Qed.

Lemma inv_ge x : 1 <= x -> x <= 1024 -> 1 # 1024 <= 1 / x.
Proof.
  intros H1 H2. apply Qle_shift_div_l; [lra|].
  setoid_replace ((1 # 1024) * x) with (x / 1024) using relation Qeq by field.
  apply Qle_shift_div_r; lra.
Qed.

Lemma not_zero x : 1 <= x -> Float.is_zero (Float.Fin x) = false.
Proof.
  intros H. cbn. destruct (Qeq_bool x 0) eqn:E; [|reflexivity].
  apply Qeq_bool_eq in E. lra.
Qed.

Lemma tiny : (1 # 2 ^ 43) <= 1 # 2048.
Proof. discriminate. Qed.

(** The new window after an ACK in Slow Start. *)
Lemma slow_start_step x :
  1 <= x -> x <= 1024 ->
  exists x',
    Float.py_min (Float.add (Float.Fin x) (Float.Fin 1)) (Float.Fin 1024)
    = Float.Fin x' /\
    1 <= x' /\ x' <= 1024 /\ (x < 1024 -> x < x').
Proof.
  intros H1 H2.
  destruct (add_error x 1) as (r & -> & Hr).
  { rewrite Qabs_pos by lra. lra. }
  apply Qabs_Qle_condition in Hr. pose proof tiny.
  set (eps := 1 # 2 ^ 43) in *.
  destruct (py_min_fin r 1024) as [[? ->]|[? ->]];
    eexists; (split; [reflexivity|]);
    (split; [lra|split; [lra|intros ?; lra]]).
Qed.

(** The new window after an ACK in Congestion Avoidance. *)
Lemma congestion_avoidance_step x :
  1 <= x -> x <= 1024 ->
  exists x',
    Float.py_min
      (Float.add (Float.Fin x) (Float.div (Float.Fin 1) (Float.Fin x)))
      (Float.Fin 1024)
    = Float.Fin x' /\
    1 <= x' /\ x' <= 1024 /\ x <= x' /\ x' - x <= 1 / x + (1 # 2 ^ 42).
Proof.
  intros H1 H2.
  destruct (inv_pos x H1) as [Hp Hq]. pose proof (inv_ge x H1 H2) as Hg.
  destruct (div_error 1 x) as (i & -> & Hi).
  { lra. }
  { rewrite Qabs_pos by lra. lra. }
  apply Qabs_Qle_condition in Hi. pose proof tiny as Ht.
  assert (Hi0 : 0 < i) by (set (eps := 1 # 2 ^ 43) in *; lra).
  destruct (add_error x i) as (r & -> & Hr).
  { rewrite Qabs_pos by lra. lra. }
  apply Qabs_Qle_condition in Hr.
  assert (E : (1 # 2 ^ 42) == (1 # 2 ^ 43) + (1 # 2 ^ 43)) by reflexivity.
  set (eps := 1 # 2 ^ 43) in *.
  destruct (py_min_fin r 1024) as [[? ->]|[? ->]];
    eexists; (split; [reflexivity|]); rewrite E;
    (split; [lra|split; [lra|split; lra]]).
Qed.

Lemma cwnd_after_ack_bounded c :
  bounded c ->
  exists x', cwnd_after_ack c = Float.Fin x' /\ 1 <= x' /\ x' <= 1024.
Proof.
  intros (Hmin & Hmax & (x & Hx & Hlo & Hhi) & _).
  unfold cwnd_after_ack. rewrite Hmax, Hx.
  destruct (state c).
  - destruct (slow_start_step x Hlo Hhi) as (x' & -> & ? & ? & _). eauto.
  - destruct (congestion_avoidance_step x Hlo Hhi) as (x' & -> & ? & ? & _).
    eauto.
Qed.

(** [max(cwnd / 2, 2)] for a window between 1 and 1024. *)
Lemma halved_threshold x :
  1 <= x -> x <= 1024 ->
  exists y,
    Float.py_max (Float.div (Float.Fin x) (Float.Fin 2)) (Float.Fin 2)
    = Float.Fin y /\ 2 <= y /\ y <= 513.
Proof.
  intros H1 H2.
  assert (Hh : 0 < x / 2 /\ x / 2 <= 512).
  { split; [apply Qlt_shift_div_l; lra|apply Qle_shift_div_r; lra]. }
  destruct (div_error x 2) as (h & -> & Hr).
  { discriminate. }
  { rewrite Qabs_pos by lra. lra. }
  apply Qabs_Qle_condition in Hr. pose proof tiny.
  set (eps := 1 # 2 ^ 43) in *.
  destruct (py_max_fin h 2) as [[? ->]|[? ->]];
    eexists; (split; [reflexivity|]); split; lra.
Qed.

Lemma reachable_bounded c : reachable c -> bounded c.
Proof.
  induction 1 as [b|c rtt c' _ IH Hack|c _ IH|c _ IH|c _ IH|c _ IH|c b _ IH].
  - unfold bounded; cbn. repeat split; try reflexivity.
    + exists 1. split; [reflexivity|split; lra].
    + exists 64. split; [reflexivity|split; lra].
  - destruct (enabled c) eqn:He.
    + pose proof IH as (Hmin & Hmax & (x & Hx & Hlo & Hhi) & Hss).
      destruct (on_ack_received_enabled rtt c He)
        as (c2 & E & H1 & H2 & H3 & H4 & _).
      { rewrite Hx. now apply not_zero. }
      rewrite E in Hack. injection Hack as <-.
      destruct (cwnd_after_ack_bounded c IH) as (x' & Hx' & ? & ?).
      unfold bounded. rewrite H1, H2, H3, H4, Hx'. eauto 10.
    + rewrite on_ack_received_disabled in Hack by exact He.
      injection Hack as <-. exact IH.
  - destruct IH as (Hmin & Hmax & (x & Hx & Hlo & Hhi) & Hss).
    unfold on_timeout.
    destruct (enabled c); cbn; [|unfold bounded; eauto 10].
    destruct (halved_threshold x Hlo Hhi) as (y & Hy & ? & ?).
    unfold bounded; cbn. rewrite Hmin, Hx, Hy.
    split; [reflexivity|]. split; [assumption|]. split.
    + exists 1. split; [reflexivity|split; lra].
    + eauto.
  - destruct IH as (Hmin & Hmax & (x & Hx & Hlo & Hhi) & Hss).
    unfold on_triple_duplicate_ack.
    destruct (enabled c); cbn; [|unfold bounded; eauto 10].
    destruct (halved_threshold x Hlo Hhi) as (y & Hy & ? & ?).
    destruct (add_error y 3) as (r & Hr & Hb).
    { rewrite Qabs_pos by lra. lra. }
    apply Qabs_Qle_condition in Hb. pose proof tiny.
    set (eps := 1 # 2 ^ 43) in *.
    unfold bounded; cbn. rewrite Hx, Hy, Hr.
    split; [assumption|]. split; [assumption|]. split.
    + exists r. split; [reflexivity|split; lra].
    + eauto.
  - exact IH.
  - destruct IH as (Hmin & Hmax & (x & Hx & Hlo & Hhi) & Hss).
    unfold bounded; cbn. rewrite Hmin.
    split; [reflexivity|]. split; [assumption|]. split.
    + exists 1. split; [reflexivity|split; lra].
    + exists 64. split; [reflexivity|split; lra].
  - exact IH.
Qed.

Lemma on_ack_received_returns rtt_sample g :
  reachable g ->
  exists g', on_ack_received rtt_sample g = (Returns tt, g').
Proof.
  intros Hr. destruct (enabled g) eqn:He.
  - pose proof (reachable_bounded g Hr) as (_ & _ & (x & Hx & Hlo & _) & _).
    destruct (on_ack_received_enabled rtt_sample g He) as (g' & E & _).
    + rewrite Hx. now apply not_zero.
    + eauto.
  - exists g. now apply on_ack_received_disabled.
Qed.

(** The window the sender reads is an integer between 1 and 1024. *)
Lemma effective_window_returns g :
  reachable g ->
  exists w, effective_window g = Returns w /\ (1 <= w <= 1024)%Z.
Proof.
  intros Hr.
  pose proof (reachable_bounded g Hr)
    as (_ & Hmax & (x & Hx & Hlo & Hhi) & _).
  unfold effective_window. destruct (enabled g); cbn [negb].
  - rewrite Hx. cbn [Float.to_int result_bind].
    eexists; split; [reflexivity|]. split; [lia|].
    apply Z.max_lub; [lia|].
    destruct x as [n d]. cbn [Qnum Qden].
    unfold Qle in Hhi, Hlo. cbn in Hhi, Hlo.
    apply Z.quot_le_upper_bound; [lia|]. lia.
  - rewrite Hmax. exists 1024%Z. split; [reflexivity|lia].
Qed.

Lemma acks_reachable n c : reachable c -> reachable (Scenario.acks n c).
Proof.
  intros Hc. unfold Scenario.acks.
  induction n as [|n IH]; cbn [Nat.iter]; [exact Hc|].
  destruct (on_ack_received_returns None _ IH) as (g & Hg).
  change (reachable (on_ack_received None
            (Nat.iter n (fun c => (on_ack_received None c).2) c)).2).
  rewrite Hg. exact (reach_ack _ None _ IH Hg).
Qed.

(** C8 (amended).  In every reachable state of the controller with
    control enabled, [on_ack_received] returns and the window before and
    after it is a finite float.  If the state was Slow Start
    ([cwnd < ssthresh]) the new window is strictly larger than the old
    one.  Otherwise (Congestion Avoidance) the new window is the float
    [min(cwnd + 1.0 / cwnd, 1024.0)], each operation rounded to
    binary64: it is at least the old one and exceeds it by at most
    [1 / cwnd + 2^-42], the rounding of the quotient and of the sum
    included. *)
Theorem C8_congestion_monotone (c : t) (rtt_sample : option Float.t) :
  reachable c -> enabled c = true ->
  exists c' x x',
    on_ack_received rtt_sample c = (Returns tt, c') /\
    cwnd c = Float.Fin x /\ cwnd c' = Float.Fin x' /\
    (Float.ltb (cwnd c) (ssthresh c) = true -> x < x') /\
    (Float.ltb (cwnd c) (ssthresh c) = false ->
       cwnd c'
       = Float.py_min
           (Float.add (cwnd c) (Float.div (Float.Fin 1) (cwnd c)))
           (Float.Fin 1024) /\
       x <= x' /\ x' - x <= 1 / x + (1 # 2 ^ 42)).
Proof.
  intros Hr He.
  pose proof (reachable_bounded c Hr)
    as (Hmin & Hmax & (x & Hx & Hlo & Hhi) & (y & Hy & _ & Hyhi)).
  destruct (on_ack_received_enabled rtt_sample c He) as (c' & E & H1 & _).
  { rewrite Hx. now apply not_zero. }
  unfold cwnd_after_ack, state in H1. rewrite Hmax in H1.
  destruct (Float.ltb (cwnd c) (ssthresh c)) eqn:Hlt.
  - rewrite Hx, Hy in Hlt. apply ltb_fin in Hlt.
    rewrite Hx in H1.
    destruct (slow_start_step x Hlo Hhi) as (x' & Hx' & _ & _ & Hinc).
    exists c', x, x'. split; [exact E|]. split; [exact Hx|].
    split; [congruence|]. split; [|discriminate].
    intros _. apply Hinc. lra.
  - destruct (congestion_avoidance_step x Hlo Hhi)
      as (x' & Hx' & _ & _ & Hle & Hinc).
    exists c', x, x'. split; [exact E|]. split; [exact Hx|].
    rewrite <- Hx in Hx'.
    split; [congruence|]. split; [discriminate|].
    intros _. split; [exact H1|]. split; assumption.
Qed.

Lemma C8_congestion_monotone_witness :
  exists c' x x',
    on_ack_received (Some (Float.of_Q 0.05)) (new true) = (Returns tt, c') /\
    cwnd (new true) = Float.Fin x /\ cwnd c' = Float.Fin x' /\
    (Float.ltb (cwnd (new true)) (ssthresh (new true)) = true -> x < x') /\
    (Float.ltb (cwnd (new true)) (ssthresh (new true)) = false ->
       cwnd c'
       = Float.py_min
           (Float.add (cwnd (new true))
              (Float.div (Float.Fin 1) (cwnd (new true))))
           (Float.Fin 1024) /\
       x <= x' /\ x' - x <= 1 / x + (1 # 2 ^ 42)).
Proof.
  apply (C8_congestion_monotone (new true) (Some (Float.of_Q 0.05))).
  - apply reach_new.
  - reflexivity.
Defined.

(** Five acknowledgements, a timeout and two acknowledgements bring the
    controller to Congestion Avoidance with [cwnd = ssthresh = 3.0].
    The next ACK sets the window to [3.0 + 1.0 / 3.0], which in binary64
    is 7505999378950827 / 2^51 = 3.3333333333333335: the increase is
    more than [1 / cwnd]. *)
Lemma C8_counterexample :
  reachable Scenario.window_three /\
  enabled Scenario.window_three = true /\
  cwnd Scenario.window_three = Float.Fin 3 /\
  ssthresh Scenario.window_three = Float.Fin 3 /\
  exists c',
    on_ack_received None Scenario.window_three = (Returns tt, c') /\
    cwnd c' = Float.Fin (7505999378950827 # 2251799813685248) /\
    ~ (7505999378950827 # 2251799813685248) - 3 <= 1 / 3.
Proof.
  split.
  { apply acks_reachable, reach_timeout, acks_reachable, reach_new. }
  split; [vm_compute; reflexivity|]. split; [vm_compute; reflexivity|].
  split; [vm_compute; reflexivity|].
  exists (on_ack_received None Scenario.window_three).2.
  split; [vm_compute; reflexivity|]. split; [vm_compute; reflexivity|].
  intros H. vm_compute in H. apply H. reflexivity.
Qed.

End CongestionFacts.

(** ** The receive buffer and the server *)

Section ServerFacts.
Import UDPServer.

Lemma wire_ranges_to_bytes p :
  Packet.wire_ranges p -> (length (Packet.data p) <= Packet.MAX_DATA_SIZE)%nat ->
  exists d c,
    Packet.to_bytes p = Returns (d, Packet.set_checksum c p) /\
    Packet.from_bytes d = Returns (Some (Packet.set_checksum c p)) /\
    Packet.verify_checksum (Packet.set_checksum c p) = Returns true.
Proof.
  intros Hr Hl.
  destruct (codec_roundtrip p Hr Hl) as (d & p' & c & H1 & H2 & H3 & _ & ->).
  eauto.
Qed.

Lemma create_ack_packet_eq s a w :
  Packet.create_ack_packet s a w =
    Returns (Packet.mk s a Packet.FLAG_ACK w [] 0).
Proof. reflexivity. Qed.

Lemma create_fin_ack_packet_eq s a :
  Packet.create_fin_ack_packet s a =
    Returns (Packet.mk s a (Z.lor Packet.FLAG_FIN Packet.FLAG_ACK) 0 [] 0).
Proof. reflexivity. Qed.

Lemma send_packet_some packet a d p' s :
  socket_open s = true ->
  Packet.to_bytes packet = Returns (d, p') ->
  _send_packet packet (Some a) s
  = (Returns tt, set_outbox (outbox s ++ [(d, a)]) s).
Proof.
  intros Hs Ht. unfold _send_packet. unfold_m. now rewrite Hs, Ht.
Qed.

Lemma send_packet_closed packet a s :
  socket_open s = false -> _send_packet packet a s = (Returns tt, s).
Proof. intros Hs. unfold _send_packet. unfold_m. now rewrite Hs. Qed.

Lemma send_packet_none packet s : _send_packet packet None s = (Returns tt, s).
Proof. unfold _send_packet. unfold_m. now destruct (socket_open s). Qed.

Lemma be_value_nonneg bs : 0 <= Packet.be_value bs.
Proof.
  induction bs as [|b bs IH] using rev_ind.
  - reflexivity.
  - unfold Packet.be_value in *. rewrite fold_left_app. cbn.
    pose proof (Z_of_byte_range b). lia.
Qed.

(** *** [get_ordered_data] *)

Lemma fold_left_app_concat {A B} (f : A -> list B) (l : list A) acc :
  fold_left (fun result i => result ++ f i) l acc = acc ++ concat (map f l).
Proof.
  revert acc. induction l as [|x l IH]; intros acc; cbn.
  - now rewrite app_nil_r.
  - now rewrite IH, app_assoc.
Qed.

Lemma get_ordered_data_concat b :
  ReceiverBuffer.get_ordered_data b
  = concat (map (fun i => default [] (ReceiverBuffer.received_data b !! i))
              (ReceiverBuffer.sorted_keys b)).
Proof. unfold ReceiverBuffer.get_ordered_data. now rewrite fold_left_app_concat. Qed.

Lemma sorted_keys_spec b :
  StronglySorted Z.le (ReceiverBuffer.sorted_keys b) /\
  NoDup (ReceiverBuffer.sorted_keys b) /\
  forall k, k ∈ ReceiverBuffer.sorted_keys b <->
            is_Some (ReceiverBuffer.received_data b !! k).
Proof.
  unfold ReceiverBuffer.sorted_keys.
  pose proof (merge_sort_Permutation Z.le
                (elements (dom (ReceiverBuffer.received_data b)))) as HP.
  split; [|split].
  - apply StronglySorted_merge_sort; apply _.
  - rewrite HP. apply NoDup_elements.
  - intros k. rewrite HP, elem_of_elements. apply elem_of_dom.
Qed.

Lemma fin_ack_to_bytes seq :
  0 <= seq + 1 < 2 ^ 32 ->
  exists d p',
    Packet.to_bytes
      (Packet.mk 0 (seq + 1) (Z.lor Packet.FLAG_FIN Packet.FLAG_ACK) 0 [] 0)
    = Returns (d, p').
Proof.
  intros H.
  destruct (wire_ranges_to_bytes
              (Packet.mk 0 (seq + 1)
                 (Z.lor Packet.FLAG_FIN Packet.FLAG_ACK) 0 [] 0))
    as (d & c & Hd & _).
  - unfold Packet.wire_ranges, Packet.FLAG_FIN, Packet.FLAG_ACK; cbn.
    change (Z.lor 4 2) with 6. lia.
  - cbn. unfold Packet.MAX_DATA_SIZE. lia.
  - eauto.
Qed.

(** What [_handle_fin] does when the FIN-ACK can be encoded. *)
Lemma handle_fin_commits now packet addr s :
  0 <= Packet.seq_no packet + 1 < 2 ^ 32 ->
  exists s',
    _handle_fin now packet addr s = (Returns tt, s') /\
    files s' = <[CongestionController.py_int now :=
                   ReceiverBuffer.get_ordered_data (buffer s)]> (files s) /\
    buffer s' = buffer s /\ transfer_complete s' = true.
Proof.
  intros Hseq. destruct (fin_ack_to_bytes _ Hseq) as (d & p' & Hd).
  unfold _handle_fin. unfold_m. rewrite create_fin_ack_packet_eq.
  destruct (socket_open s) eqn:Hs.
  - erewrite send_packet_some; [|exact Hs|exact Hd].
    eexists; split; [reflexivity|]. cbn. auto.
  - rewrite send_packet_closed by exact Hs.
    eexists; split; [reflexivity|]. cbn. auto.
Qed.

(** XFIN. When the server receives a checksum-valid packet that carries
    the FIN flag, is no DATA packet and no SYN without ACK, and whose
    sequence number is below [2^32 - 1] (so that the FIN-ACK's
    [ack_no = seq_no + 1] fits its 32-bit field), it writes an output
    file, whatever the buffer holds: the file is the concatenation, in
    ascending order of sequence number, of the chunk of every key of
    the receive buffer and of nothing else.  The keys are exactly the
    sequence numbers stored so far (chunks delivered in order stay in
    the buffer; a missing sequence number contributes nothing), and the
    buffer is left as it was. *)
Theorem fin_commits_the_buffer
    (s : t) (now : Q) (d : list byte) (addr : address) (packet : Packet.t) :
  Packet.from_bytes (take Packet.MAX_PACKET_SIZE d) = Returns (Some packet) ->
  Packet.verify_checksum packet = Returns true ->
  Packet.is_fin packet = true ->
  Packet.is_data packet = false ->
  Packet.is_syn packet && negb (Packet.is_ack packet) = false ->
  Packet.seq_no packet < 2 ^ 32 - 1 ->
  exists s' keys,
    _receive_loop_turn false now d addr s = (Returns tt, s') /\
    files s' !! CongestionController.py_int now
    = Some (concat (map (fun k =>
                           default [] (ReceiverBuffer.received_data (buffer s) !! k))
                      keys)) /\
    StronglySorted Z.le keys /\ NoDup keys /\
    (forall k, k ∈ keys <->
               is_Some (ReceiverBuffer.received_data (buffer s) !! k)) /\
    buffer s' = buffer s.
Proof.
  intros Hfrom Hck Hfin Hdata Hsyn Hseq.
  assert (Hlo : 0 <= Packet.seq_no packet).
  { unfold Packet.from_bytes in Hfrom.
    case_decide; [discriminate|].
    unfold Packet.unpack_IIBHH in Hfrom. case_decide; [|discriminate].
    unfold Packet.new in Hfrom. case_decide; [discriminate|].
    injection Hfrom as <-. cbn. apply be_value_nonneg. }
  destruct (handle_fin_commits now packet addr
              (upd_stats TransferStats.incr_packets_received s))
    as (s' & Hrun & Hfiles & Hbuf & _); [lia|].
  exists s', (ReceiverBuffer.sorted_keys (buffer s)).
  destruct (sorted_keys_spec (buffer s)) as (Hsorted & Hnodup & Hkeys).
  split; [|split; [|split; [|split; [|split]]]]; try assumption.
  - unfold _receive_loop_turn, _handle_packet. unfold_m.
    rewrite Hfrom, Hck. cbn [negb]. rewrite Hsyn, Hdata, Hfin.
    unfold_m. now rewrite Hrun.
  - rewrite Hfiles, lookup_insert_eq. f_equal.
    apply get_ordered_data_concat.
Qed.


Lemma fin_commits_the_buffer_witness :
  exists s' keys,
    _receive_loop_turn false 0%Q
      (Scenario.wire (Packet.create_fin_packet 3)) Scenario.client_addr
      Scenario.gapped_server = (Returns tt, s') /\
    files s' !! CongestionController.py_int 0%Q
    = Some (concat (map (fun k =>
                           default [] (ReceiverBuffer.received_data
                                         (buffer Scenario.gapped_server) !! k))
                      keys)) /\
    StronglySorted Z.le keys /\ NoDup keys /\
    (forall k, k ∈ keys <->
               is_Some (ReceiverBuffer.received_data
                          (buffer Scenario.gapped_server) !! k)) /\
    buffer s' = buffer Scenario.gapped_server.
Proof.
  apply (fin_commits_the_buffer Scenario.gapped_server 0%Q
           (Scenario.wire (Packet.create_fin_packet 3)) Scenario.client_addr
           (Packet.mk 3 0 Packet.FLAG_FIN 0 [] 7891)).
  - vm_compute. reflexivity.
  - reflexivity.
  - reflexivity.
  - reflexivity.
  - reflexivity.
  - reflexivity.
Defined.

(** The file of the gapped server: chunk 0 then chunk 2, chunk 1
    skipped. *)
Example fin_on_gapped_server :
  files (_receive_loop_turn false 0%Q
           (Scenario.wire (Packet.create_fin_packet 3)) Scenario.client_addr
           Scenario.gapped_server).2 !! 0
  = Some ["a"; "c"]%byte.
Proof. vm_compute. reflexivity. Qed.

Lemma fin_ack_overflows :
  Packet.to_bytes
    (Packet.mk 0 (2 ^ 32) (Z.lor Packet.FLAG_FIN Packet.FLAG_ACK) 0 [] 0)
  = Raises StructError.
Proof. reflexivity. Qed.

(** C10.  A FIN whose sequence number is [2^32 - 1], the largest the
    header field holds: [_handle_fin] records the end of the transfer
    and sets [transfer_complete], then fails to pack the FIN-ACK, whose
    [ack_no] would be [2^32]; the [struct.error] leaves the handler
    before the file is written and is absorbed by the receive loop.  No
    file is written, nothing is sent, and the buffer is as it was. *)
Theorem C10_fin_without_a_file
    (s : t) (now : Q) (d : list byte) (addr : address) (packet : Packet.t) :
  Packet.from_bytes (take Packet.MAX_PACKET_SIZE d) = Returns (Some packet) ->
  Packet.verify_checksum packet = Returns true ->
  Packet.is_fin packet = true ->
  Packet.is_data packet = false ->
  Packet.is_syn packet && negb (Packet.is_ack packet) = false ->
  Packet.seq_no packet = 2 ^ 32 - 1 ->
  socket_open s = true ->
  exists s',
    _handle_packet false now (take Packet.MAX_PACKET_SIZE d) addr s
    = (Raises StructError, s') /\
    _receive_loop_turn false now d addr s = (Returns tt, s') /\
    transfer_complete s' = true /\
    files s' = files s /\ outbox s' = outbox s /\ buffer s' = buffer s.
Proof.
  intros Hfrom Hck Hfin Hdata Hsyn Hseq Hsock.
  assert (Hrun : exists s',
    _handle_packet false now (take Packet.MAX_PACKET_SIZE d) addr s
    = (Raises StructError, s') /\
    transfer_complete s' = true /\
    files s' = files s /\ outbox s' = outbox s /\ buffer s' = buffer s).
  { unfold _handle_packet. unfold_m.
    rewrite Hfrom, Hck. cbn [negb]. rewrite Hsyn, Hdata, Hfin.
    unfold _handle_fin, _send_packet. unfold_m.
    rewrite Hseq, create_fin_ack_packet_eq.
    cbn [socket_open upd_stats set_stats set_transfer_complete].
    rewrite Hsock.
    change (2 ^ 32 - 1 + 1) with (2 ^ 32). rewrite fin_ack_overflows.
    eexists; split; [reflexivity|]. cbn. auto. }
  destruct Hrun as (s' & Hrun & Hrest).
  exists s'. split; [exact Hrun|]. split; [|exact Hrest].
  unfold _receive_loop_turn, try_except. rewrite Hrun. reflexivity.
Qed.

(** The theorem at the FIN datagram with sequence number [2^32 - 1],
    received by the server that holds chunks 0 and 2. *)
Lemma C10_fin_without_a_file_witness :
  exists s',
    _handle_packet false 0%Q
      (take Packet.MAX_PACKET_SIZE
         (Scenario.wire (Packet.create_fin_packet (2 ^ 32 - 1))))
      Scenario.client_addr Scenario.gapped_server
    = (Raises StructError, s') /\
    _receive_loop_turn false 0%Q
      (Scenario.wire (Packet.create_fin_packet (2 ^ 32 - 1)))
      Scenario.client_addr Scenario.gapped_server = (Returns tt, s') /\
    transfer_complete s' = true /\
    files s' = files Scenario.gapped_server /\
    outbox s' = outbox Scenario.gapped_server /\
    buffer s' = buffer Scenario.gapped_server.
Proof.
  apply (C10_fin_without_a_file Scenario.gapped_server 0%Q
           (Scenario.wire (Packet.create_fin_packet (2 ^ 32 - 1)))
           Scenario.client_addr
           (Packet.mk (2 ^ 32 - 1) 0 Packet.FLAG_FIN 0 [] 22307)).
  - vm_compute. reflexivity.
  - reflexivity.
  - reflexivity.
  - reflexivity.
  - reflexivity.
  - reflexivity.
  - reflexivity.
Defined.

(** The same FIN one sequence number lower is acknowledged and the file
    written. *)
Example fin_below_the_last_sequence_number :
  let r := _receive_loop_turn false 0%Q
             (Scenario.wire (Packet.create_fin_packet (2 ^ 32 - 2)))
             Scenario.client_addr Scenario.gapped_server in
  files r.2 !! 0 = Some ["a"; "c"]%byte /\
  outbox r.2
  = [(Scenario.wire (Packet.create_fin_ack_packet 0 (2 ^ 32 - 1)),
      Scenario.client_addr)].
Proof. split; vm_compute; reflexivity. Qed.

(** *** Stop-and-wait reception *)

Lemma ack_to_bytes ack w :
  0 <= ack < 2 ^ 32 -> 0 <= w < 2 ^ 16 ->
  exists d p',
    Packet.to_bytes (Packet.mk 0 ack Packet.FLAG_ACK w [] 0)
    = Returns (d, p') /\
    Packet.from_bytes d = Returns (Some p') /\
    Packet.verify_checksum p' = Returns true /\
    Packet.is_ack p' = true /\ Packet.ack_no p' = ack.
Proof.
  intros Ha Hw.
  destruct (wire_ranges_to_bytes (Packet.mk 0 ack Packet.FLAG_ACK w [] 0))
    as (d & c & Hd & Hf & Hv).
  - unfold Packet.wire_ranges, Packet.FLAG_ACK; cbn. lia.
  - cbn. unfold Packet.MAX_DATA_SIZE. lia.
  - exists d, (Packet.set_checksum c (Packet.mk 0 ack Packet.FLAG_ACK w [] 0)).
    repeat split; assumption || reflexivity.
Qed.

Lemma handle_stop_wait_spec (s : t) (packet : Packet.t) (a : address) :
  socket_open s = true ->
  current_client s = Some a ->
  0 <= ReceiverBuffer.expected_seq (buffer s) < 2 ^ 32 - 1 ->
  exists d ack s',
    _handle_stop_wait packet s
    = (Returns (bool_decide (Packet.seq_no packet
                             = ReceiverBuffer.expected_seq (buffer s)),
                ReceiverBuffer.expected_seq (buffer s')), s') /\
    outbox s' = outbox s ++ [(d, a)] /\
    Packet.from_bytes d = Returns (Some ack) /\
    Packet.verify_checksum ack = Returns true /\
    Packet.is_ack ack = true /\
    Packet.ack_no ack = ReceiverBuffer.expected_seq (buffer s') /\
    (Packet.seq_no packet = ReceiverBuffer.expected_seq (buffer s) ->
     ReceiverBuffer.expected_seq (buffer s')
     = ReceiverBuffer.expected_seq (buffer s) + 1 /\
     ReceiverBuffer.received_data (buffer s')
     = <[Packet.seq_no packet := Packet.data packet]>
         (ReceiverBuffer.received_data (buffer s))) /\
    (Packet.seq_no packet <> ReceiverBuffer.expected_seq (buffer s) ->
     buffer s' = buffer s).
Proof.
  intros Hs Hc He. unfold _handle_stop_wait. unfold_m.
  case_decide as Hseq.
  - destruct (ack_to_bytes (ReceiverBuffer.expected_seq (buffer s) + 1) 1)
      as (d & p' & Hd & Hf & Hv & Hi & Hn); [lia|lia|].
    rewrite create_ack_packet_eq. cbn [ReceiverBuffer.expected_seq].
    rewrite Hc.
    erewrite send_packet_some; [|exact Hs|exact Hd].
    exists d, p'. rewrite bool_decide_eq_true_2 by exact Hseq.
    pick_final_state. split; [reflexivity|]. cbn.
    repeat split; try assumption; try reflexivity; try contradiction.
  - destruct (ack_to_bytes (ReceiverBuffer.expected_seq (buffer s)) 1)
      as (d & p' & Hd & Hf & Hv & Hi & Hn); [lia|lia|].
    rewrite create_ack_packet_eq, Hc.
    erewrite send_packet_some; [|exact Hs|exact Hd].
    exists d, p'. rewrite bool_decide_eq_false_2 by exact Hseq.
    pick_final_state. split; [reflexivity|]. cbn.
    repeat split; try assumption; try reflexivity; try contradiction.
Qed.

Lemma receive_packet_spec (r : StopWaitReceiver.t) (packet : Packet.t)
    (addr : address) :
  0 <= StopWaitReceiver.expected_seq r < 2 ^ 32 - 1 ->
  exists d ack r' out,
    StopWaitReceiver.receive_packet false packet addr r = (Returns out, r') /\
    StopWaitReceiver.outbox r' = StopWaitReceiver.outbox r ++ [(d, addr)] /\
    Packet.from_bytes d = Returns (Some ack) /\
    Packet.verify_checksum ack = Returns true /\
    Packet.is_ack ack = true /\
    Packet.ack_no ack = StopWaitReceiver.expected_seq r' /\
    (Packet.seq_no packet = StopWaitReceiver.expected_seq r ->
     StopWaitReceiver.expected_seq r' = StopWaitReceiver.expected_seq r + 1 /\
     StopWaitReceiver.received_data r'
     = StopWaitReceiver.received_data r ++ [Packet.data packet] /\
     out = Some (Packet.data packet)) /\
    (Packet.seq_no packet <> StopWaitReceiver.expected_seq r ->
     StopWaitReceiver.expected_seq r' = StopWaitReceiver.expected_seq r /\
     StopWaitReceiver.received_data r' = StopWaitReceiver.received_data r /\
     out = None).
Proof.
  intros He. unfold StopWaitReceiver.receive_packet. unfold_m.
  case_decide as Hseq.
  - destruct (ack_to_bytes (StopWaitReceiver.expected_seq r + 1) 1)
      as (d & p' & Hd & Hf & Hv & Hi & Hn); [lia|lia|].
    rewrite create_ack_packet_eq. cbn [StopWaitReceiver.expected_seq].
    unfold StopWaitReceiver.sendto. unfold_m. rewrite Hd.
    exists d, p'. do 2 eexists. split; [reflexivity|]. cbn.
    repeat split; try assumption; try reflexivity; try contradiction.
  - destruct (ack_to_bytes (StopWaitReceiver.expected_seq r) 1)
      as (d & p' & Hd & Hf & Hv & Hi & Hn); [lia|lia|].
    rewrite create_ack_packet_eq.
    unfold StopWaitReceiver.sendto. unfold_m. rewrite Hd.
    exists d, p'. do 2 eexists. split; [reflexivity|]. cbn.
    repeat split; try assumption; try reflexivity; try contradiction.
Qed.
(** C6 (amended).  In stop-and-wait mode every received DATA packet is
    answered with one ACK whose [ack_no] is the receiver's [expected_seq]
    after the packet (as long as that number fits its 32-bit field).  If
    [seq = expected_seq] the payload is stored and [expected_seq] is
    incremented first.  Otherwise -- a duplicate, [seq < expected_seq], or
    a higher sequence number, [seq > expected_seq], alike -- the payload is
    discarded and the buffer left as it was, and the packet is still
    re-ACKed with [ack_no = expected_seq]: a higher sequence number is not
    met with silence.  This holds of the server's [_handle_stop_wait] (the
    first part) and of [StopWaitReceiver.receive_packet] when its loss
    injector lets the packet through (the second). *)
Theorem C6_stop_wait_acknowledges_every_packet :
  (forall (s : t) (packet : Packet.t) (a : address),
     socket_open s = true ->
     current_client s = Some a ->
     0 <= ReceiverBuffer.expected_seq (buffer s) < 2 ^ 32 - 1 ->
     exists d ack s',
       _handle_stop_wait packet s
       = (Returns (bool_decide (Packet.seq_no packet
                                = ReceiverBuffer.expected_seq (buffer s)),
                   ReceiverBuffer.expected_seq (buffer s')), s') /\
       outbox s' = outbox s ++ [(d, a)] /\
       Packet.from_bytes d = Returns (Some ack) /\
       Packet.verify_checksum ack = Returns true /\
       Packet.is_ack ack = true /\
       Packet.ack_no ack = ReceiverBuffer.expected_seq (buffer s') /\
       (Packet.seq_no packet = ReceiverBuffer.expected_seq (buffer s) ->
        ReceiverBuffer.expected_seq (buffer s')
        = ReceiverBuffer.expected_seq (buffer s) + 1 /\
        ReceiverBuffer.received_data (buffer s')
        = <[Packet.seq_no packet := Packet.data packet]>
            (ReceiverBuffer.received_data (buffer s))) /\
       (Packet.seq_no packet <> ReceiverBuffer.expected_seq (buffer s) ->
        buffer s' = buffer s)) /\
  (forall (r : StopWaitReceiver.t) (packet : Packet.t) (addr : address),
     0 <= StopWaitReceiver.expected_seq r < 2 ^ 32 - 1 ->
     exists d ack r' out,
       StopWaitReceiver.receive_packet false packet addr r = (Returns out, r') /\
       StopWaitReceiver.outbox r' = StopWaitReceiver.outbox r ++ [(d, addr)] /\
       Packet.from_bytes d = Returns (Some ack) /\
       Packet.verify_checksum ack = Returns true /\
       Packet.is_ack ack = true /\
       Packet.ack_no ack = StopWaitReceiver.expected_seq r' /\
       (Packet.seq_no packet = StopWaitReceiver.expected_seq r ->
        StopWaitReceiver.expected_seq r' = StopWaitReceiver.expected_seq r + 1 /\
        StopWaitReceiver.received_data r'
        = StopWaitReceiver.received_data r ++ [Packet.data packet] /\
        out = Some (Packet.data packet)) /\
       (Packet.seq_no packet <> StopWaitReceiver.expected_seq r ->
        StopWaitReceiver.expected_seq r' = StopWaitReceiver.expected_seq r /\
        StopWaitReceiver.received_data r' = StopWaitReceiver.received_data r /\
        out = None)).
Proof. split; [exact handle_stop_wait_spec|exact receive_packet_spec]. Qed.

(** The theorem at the server that expects sequence 0 and is handed
    sequence 1. *)
Lemma C6_stop_wait_acknowledges_every_packet_witness :
  exists d ack s',
    _handle_stop_wait Scenario.early_packet Scenario.stop_wait_server
    = (Returns (false, ReceiverBuffer.expected_seq (buffer s')), s') /\
    outbox s' = [(d, Scenario.client_addr)] /\
    Packet.is_ack ack = true /\
    Packet.from_bytes d = Returns (Some ack) /\
    Packet.ack_no ack = 0 /\
    buffer s' = buffer Scenario.stop_wait_server.
Proof.
  destruct (proj1 C6_stop_wait_acknowledges_every_packet
              Scenario.stop_wait_server Scenario.early_packet
              Scenario.client_addr)
    as (d & ack & s' & Hrun & Hout & Hfrom & _ & Hack & Hno & _ & Hkeep).
  - reflexivity.
  - reflexivity.
  - simpl. lia.
  - assert (Hb : buffer s' = buffer Scenario.stop_wait_server)
      by (apply Hkeep; simpl; lia).
    exists d, ack, s'. split; [exact Hrun|]. split; [exact Hout|].
    split; [exact Hack|]. split; [exact Hfrom|].
    split; [rewrite Hno, Hb; reflexivity|exact Hb].
Defined.

(** The server expects sequence 0 and is handed sequence 1: the payload is
    not stored, and an ACK with [ack_no = 0] goes out. *)
Lemma C6_counterexample :
  let r := _handle_stop_wait Scenario.early_packet Scenario.stop_wait_server in
  Packet.seq_no Scenario.early_packet
  > ReceiverBuffer.expected_seq (buffer Scenario.stop_wait_server) /\
  r.1 = Returns (false, 0) /\
  buffer r.2 = buffer Scenario.stop_wait_server /\
  outbox r.2
  = [(Scenario.wire (Packet.create_ack_packet 0 0 1), Scenario.client_addr)] /\
  TransferStats.acks_sent (stats r.2) = 1.
Proof. repeat split; vm_compute; reflexivity. Qed.

End ServerFacts.

(** ** The Selective Repeat send window *)

Section WindowFacts.

Lemma skip_present_spec (s : gset Z) (present : Z -> bool) :
  (forall k, present k = true <-> k ∈ s) ->
  forall (fuel : nat) (x : Z),
    (size (filter (fun k => (x <= k)%Z) s) <= fuel)%nat ->
    let r := skip_present present fuel x in
    (r ∉ s) /\ x <= r /\ forall k, x <= k < r -> k ∈ s.
Proof.
  intros Hp. induction fuel as [|fuel IH]; intros x Hsize; cbn.
  - assert (Hempty : filter (fun k => x <= k) s = ∅).
    { apply leibniz_equiv, size_empty_inv. lia. }
    repeat split; [|lia|intros k Hk; lia].
    intros Hx. assert (x ∈ filter (fun k => x <= k) s) as Hin
      by (apply elem_of_filter; split; [lia|exact Hx]).
    rewrite Hempty in Hin. set_solver.
  - destruct (present x) eqn:Hx.
    + apply Hp in Hx.
      destruct (IH (x + 1)) as (H1 & H2 & H3).
      { assert (filter (fun k => x + 1 <= k) s ⊂ filter (fun k => x <= k) s) as Hsub.
        { split.
          - intros k. rewrite !elem_of_filter. intros [? ?]. split; [lia|done].
          - intros Hsup. specialize (Hsup x).
            rewrite !elem_of_filter in Hsup.
            destruct Hsup as [? _]; [split; [lia|done]|lia]. }
        apply subset_size in Hsub. lia. }
      repeat split; [exact H1|lia|].
      intros k Hk. destruct (decide (k = x)) as [->|Hne]; [exact Hx|].
      apply H3. lia.
    + repeat split; [|lia|intros k Hk; lia].
      intros Hin. apply Hp in Hin. congruence.
Qed.

Lemma skip_present_gset (s : gset Z) x :
  let r := skip_present (fun k => bool_decide (k ∈ s)) (size s) x in
  (r ∉ s) /\ x <= r /\ forall k, x <= k < r -> k ∈ s.
Proof.
  apply skip_present_spec.
  - intros k. apply bool_decide_eq_true.
  - apply subseteq_size. intros k. rewrite elem_of_filter. tauto.
Qed.

Lemma mark_acked_spec seq_no w :
  let w' := SRWindow.mark_acked seq_no w in
  SRWindow.acked w' = {[seq_no]} ∪ SRWindow.acked w /\
  SRWindow.next_seq w' = SRWindow.next_seq w /\
  SRWindow.window_size w' = SRWindow.window_size w /\
  (SRWindow.base w' ∉ SRWindow.acked w') /\
  SRWindow.base w <= SRWindow.base w' /\
  forall k, SRWindow.base w <= k < SRWindow.base w' -> k ∈ SRWindow.acked w'.
Proof.
  cbn. repeat split; try apply skip_present_gset.
Qed.

Lemma mark_acked_history seq_no w :
  acked_is_history w -> 0 <= seq_no < SRWindow.next_seq w ->
  acked_is_history (SRWindow.mark_acked seq_no w).
Proof.
  intros (Hb & Hlow & Hsent & Hrange) Hseq.
  destruct (mark_acked_spec seq_no w) as (Ha & Hn & _ & Hb' & Hle & Hmid).
  assert (Hsent' : forall s, s ∈ SRWindow.acked (SRWindow.mark_acked seq_no w) ->
                             0 <= s < SRWindow.next_seq w).
  { intros s. rewrite Ha, elem_of_union, elem_of_singleton.
    intros [->|Hs]; [lia|auto]. }
  unfold acked_is_history. rewrite Hn.
  split; [exact Hb'|]. split; [|split; [exact Hsent'|]].
  - intros s Hs.
    destruct (decide (s < SRWindow.base w)) as [Hlt|Hge].
    + rewrite Ha. apply elem_of_union_r. apply Hlow. lia.
    + apply Hmid. lia.
  - split; [lia|].
    destruct (decide (SRWindow.base (SRWindow.mark_acked seq_no w)
                      <= SRWindow.next_seq w)) as [?|Hgt]; [assumption|].
    exfalso.
    assert (SRWindow.next_seq w ∈ SRWindow.acked (SRWindow.mark_acked seq_no w))
      as Hin by (apply Hmid; lia).
    apply Hsent' in Hin. lia.
Qed.

Lemma advance_next_seq_history w :
  acked_is_history w -> acked_is_history (SRWindow.advance_next_seq w).
Proof.
  intros (Hb & Hlow & Hsent & Hrange). unfold acked_is_history; cbn.
  split; [exact Hb|]. split; [exact Hlow|]. split; [|lia].
  intros s Hs. apply Hsent in Hs. lia.
Qed.

End WindowFacts.

(** ** What the sender's handlers leave alone *)

Section Frame.
Import UDPClient.

(** A view of the client and a preorder on it: a handler [keeps] the view
    when it can only move it upwards, whether it returns or raises. *)
Context {V : Type} (view : t -> V) (le : relation V) `{!PreOrder le}.

Definition keeps {A} (m : M t A) : Prop := forall c, le (view c) (view (m c).2).

Lemma keeps_ret {A} (a : A) : keeps (ret a).
Proof. intros c. reflexivity. Qed.

Lemma keeps_raise {A} e : keeps (@raise t A e).
Proof. intros c. reflexivity. Qed.

Lemma keeps_get : keeps get.
Proof. intros c. reflexivity. Qed.

Lemma keeps_lift_result {A} (r : result A) : keeps (lift_result r).
Proof. intros c. reflexivity. Qed.

Lemma keeps_bind {A B} (m : M t A) (k : A -> M t B) :
  keeps m -> (forall a, keeps (k a)) -> keeps (bind m k).
Proof.
  intros Hm Hk c. unfold bind. specialize (Hm c).
  destruct (m c) as [[a|e] c1]; cbn in *.
  - etransitivity; [exact Hm|apply Hk].
  - exact Hm.
Qed.

Lemma keeps_try_except {A} (m : M t A) (h : exn -> M t A) :
  keeps m -> (forall e, keeps (h e)) -> keeps (try_except m h).
Proof.
  intros Hm Hh c. unfold try_except. specialize (Hm c).
  destruct (m c) as [[a|e] c1]; cbn in *.
  - exact Hm.
  - etransitivity; [exact Hm|apply Hh].
Qed.

Lemma keeps_modify (f : t -> t) :
  (forall c, le (view c) (view (f c))) -> keeps (modify f).
Proof. intros Hf c. apply Hf. Qed.

(** The fields every handler of the sending side may write. *)
Hypothesis view_stats : forall x c, view (set_stats x c) = view c.
Hypothesis view_congestion : forall x c, view (set_congestion x c) = view c.
Hypothesis view_sent_packets : forall x c, view (set_sent_packets x c) = view c.
Hypothesis view_outbox : forall x c, view (set_outbox x c) = view c.
Hypothesis view_next_seq :
  forall c, le (view c) (view (set_next_seq (next_seq c + 1) c)).

Lemma keeps_same (f : t -> t) :
  (forall c, view (f c) = view c) -> keeps (modify f).
Proof. intros Hf. apply keeps_modify. intros c. now rewrite Hf. Qed.

Lemma keeps_incr get set n : keeps (incr get set n).
Proof. apply keeps_same. intros c. apply view_stats. Qed.

Lemma keeps_on_congestion {A} (m : M CongestionController.t A) :
  keeps (on_congestion m).
Proof.
  intros c. unfold on_congestion. destruct (m (congestion c)) as [r g]; cbn.
  now rewrite view_congestion.
Qed.

Lemma keeps_send_raw_packet p : keeps (_send_raw_packet p).
Proof.
  unfold _send_raw_packet. apply keeps_bind; [apply keeps_get|]. intros c.
  destruct (socket c); [|apply keeps_ret].
  apply keeps_bind; [apply keeps_lift_result|]. intros r.
  apply keeps_bind; [|intros _; apply keeps_ret].
  apply keeps_same. intros c'. apply view_outbox.
Qed.

Lemma keeps_retransmit_packet now lost seq_no :
  keeps (_retransmit_packet now lost seq_no).
Proof.
  unfold _retransmit_packet. apply keeps_bind; [apply keeps_get|]. intros c.
  destruct (sent_packets c !! seq_no) as [info|]; [|apply keeps_ret].
  apply keeps_bind; [apply keeps_same; intros; apply view_sent_packets|].
  intros _. apply keeps_bind; [apply keeps_incr|]. intros _.
  destruct lost; cbn [negb]; [apply keeps_incr|].
  apply keeps_bind; [apply keeps_send_raw_packet|]. intros p.
  apply keeps_same; intros; apply view_sent_packets.
Qed.

Lemma keeps_retransmit_range now lost n lo :
  keeps (retransmit_range now lost n lo).
Proof.
  revert lo. induction n as [|n IH]; intros lo; cbn.
  - apply keeps_ret.
  - apply keeps_bind; [apply keeps_retransmit_packet|]. intros _. apply IH.
Qed.

Lemma keeps_handle_timeout_gbn now lost : keeps (_handle_timeout_gbn now lost).
Proof.
  unfold _handle_timeout_gbn.
  apply keeps_bind; [apply keeps_incr|]. intros _.
  apply keeps_bind; [apply keeps_same; intros; apply view_congestion|].
  intros _. apply keeps_bind; [apply keeps_get|]. intros c.
  apply keeps_retransmit_range.
Qed.

Lemma keeps_timer_loop_turn now expired lost :
  keeps (_timer_loop_turn now expired lost).
Proof.
  unfold _timer_loop_turn. apply keeps_bind; [apply keeps_get|]. intros c.
  assert (Hsel : keeps (selective_timer_turn now expired lost)).
  { unfold selective_timer_turn.
    induction expired as [|s l IH]; cbn; [apply keeps_ret|].
    apply keeps_bind; [apply keeps_get|]. intros c'.
    apply keeps_bind; [|intros _; exact IH].
    destruct (sent_packets c' !! s) as [info|]; [|apply keeps_ret].
    destruct (PacketInfo.acked info); cbn [negb];
      [apply keeps_ret|apply keeps_retransmit_packet]. }
  destruct (mode c); try exact Hsel.
  unfold go_back_n_timer_turn. apply keeps_bind; [apply keeps_get|]. intros c'.
  destruct (_ && _); [apply keeps_handle_timeout_gbn|apply keeps_ret].
Qed.

Lemma keeps_window_fill now lost w fuel : keeps (window_fill now lost w fuel).
Proof.
  induction fuel as [|fuel IH]; cbn [window_fill]; [apply keeps_ret|].
  apply keeps_bind; [apply keeps_get|]. intros c.
  destruct (_ && _); [|apply keeps_ret].
  destruct (_ && _).
  - apply keeps_bind; [|intros _; exact IH].
    apply keeps_modify. intros c'. apply view_next_seq.
  - apply keeps_bind.
    { destruct (data_chunks c !! _); [apply keeps_ret|apply keeps_raise]. }
    intros chunk. apply keeps_bind; [apply keeps_lift_result|]. intros p.
    apply keeps_bind.
    { destruct (lost (next_seq c)); cbn [negb].
      - apply keeps_bind; [apply keeps_incr|]. intros _. apply keeps_ret.
      - apply keeps_bind; [apply keeps_send_raw_packet|]. intros p'.
        apply keeps_bind; [|intros _; apply keeps_ret].
        apply keeps_same; intros; apply view_congestion. }
    intros p'.
    apply keeps_bind; [apply keeps_same; intros; apply view_sent_packets|].
    intros _. apply keeps_bind; [apply keeps_incr|]. intros _.
    apply keeps_bind; [apply keeps_incr|]. intros _.
    apply keeps_bind; [|intros _; exact IH].
    apply keeps_modify. intros c'. apply view_next_seq.
Qed.

Lemma keeps_window_turn now lost : keeps (window_turn now lost).
Proof.
  unfold window_turn. apply keeps_bind; [apply keeps_get|]. intros c.
  apply keeps_bind; [|intros w; apply keeps_window_fill].
  destruct (CongestionController.enabled (congestion c));
    [apply keeps_lift_result|apply keeps_ret].
Qed.

(** The fields the acknowledgement handler writes besides. *)
Hypothesis view_base : forall x c, view (set_base x c) = view c.
Hypothesis view_acked_packets :
  forall x c, view (set_acked_packets x c) = view c.

Lemma keeps_ack_range now n lo : keeps (ack_range now n lo).
Proof.
  revert lo. induction n as [|n IH]; intros lo; cbn; [apply keeps_ret|].
  apply keeps_bind; [apply keeps_get|]. intros c.
  apply keeps_bind; [|intros _; apply IH].
  destruct (sent_packets c !! lo) as [info|]; [|apply keeps_ret].
  apply keeps_bind; [apply keeps_same; intros; apply view_stats|]. intros _.
  apply keeps_bind; [apply keeps_on_congestion|]. intros _.
  apply keeps_same; intros; apply view_sent_packets.
Qed.

Lemma keeps_handle_ack now packet : keeps (_handle_ack now packet).
Proof.
  unfold _handle_ack.
  apply keeps_bind; [apply keeps_incr|]. intros _.
  apply keeps_bind; [apply keeps_get|]. intros c.
  assert (Hsel :
    keeps (if decide (Packet.ack_no packet - 1 ∈ acked_packets c) then ret tt
           else
             run modify (set_acked_packets
                           ({[Packet.ack_no packet - 1]} ∪ acked_packets c));
             run match sent_packets c !! (Packet.ack_no packet - 1) with
                 | Some info =>
                     let rtt :=
                       Float.sub (Float.of_Q now)
                         (Float.of_Q (PacketInfo.send_time info)) in
                     run modify (upd_stats (fun s =>
                           ClientStats.set_rtt_samples
                             (ClientStats.rtt_samples s ++ [rtt]) s));
                     run on_congestion
                           (CongestionController.on_ack_received (Some rtt));
                     modify (fun c =>
                       set_sent_packets
                         (delete (Packet.ack_no packet - 1) (sent_packets c)) c)
                 | None => ret tt
                 end;
             modify (fun c =>
               set_base
                 (skip_present (fun k => bool_decide (k ∈ acked_packets c))
                    (size (acked_packets c)) (base c)) c))).
  { case_decide; [apply keeps_ret|].
    apply keeps_bind; [apply keeps_same; intros; apply view_acked_packets|].
    intros _. apply keeps_bind.
    { destruct (sent_packets c !! _) as [info|]; [|apply keeps_ret].
      apply keeps_bind; [apply keeps_same; intros; apply view_stats|].
      intros _. apply keeps_bind; [apply keeps_on_congestion|]. intros _.
      apply keeps_same; intros; apply view_sent_packets. }
    intros _. apply keeps_same; intros; apply view_base. }
  destruct (mode c); try exact Hsel. clear Hsel.
  case_decide; [|apply keeps_ret].
  apply keeps_bind; [apply keeps_ack_range|]. intros _.
  apply keeps_same; intros; apply view_base.
Qed.

Lemma keeps_receive_loop_turn now d : keeps (_receive_loop_turn now d).
Proof.
  unfold _receive_loop_turn.
  apply keeps_try_except; [|intros _; apply keeps_ret].
  apply keeps_bind; [apply keeps_lift_result|]. intros [packet|];
    [|apply keeps_ret].
  destruct (Packet.is_ack packet); [apply keeps_handle_ack|apply keeps_ret].
Qed.

Lemma keeps_background_turn e : keeps (background_turn e).
Proof.
  destruct e; cbn;
    [apply keeps_receive_loop_turn|apply keeps_timer_loop_turn].
Qed.

Lemma keeps_window_loop sched : keeps (window_loop sched).
Proof.
  induction sched as [|t sched IH]; cbn [window_loop].
  - apply keeps_bind; [apply keeps_get|]. intros c.
    case_decide; apply keeps_ret.
  - apply keeps_bind; [apply keeps_get|]. intros c.
    case_decide; [|apply keeps_ret].
    apply keeps_bind; [apply keeps_window_turn|]. intros _.
    apply keeps_bind; [|intros _; exact IH].
    induction (turn_background t) as [|e l IHl]; cbn; [apply keeps_ret|].
    apply keeps_bind; [apply keeps_background_turn|]. intros _. exact IHl.
Qed.

End Frame.

Section SenderWindow.
Import UDPClient.

#[local] Instance window_grows_preorder : PreOrder window_grows.
Proof.
  split.
  - intros v. unfold window_grows. repeat split; lia.
  - intros a b c (H1 & H2 & H3) (H4 & H5 & H6). unfold window_grows.
    repeat split; try congruence; lia.
Qed.

(** In Selective Repeat mode [_handle_ack] is [mark_acked] on the window
    variables, unless the sequence number is acknowledged already. *)
Lemma handle_ack_selective now packet c :
  mode c <> go_back_n ->
  CongestionController.reachable (congestion c) ->
  window_of (_handle_ack now packet c).2
  = if decide (Packet.ack_no packet - 1 ∈ acked_packets c) then window_of c
    else SRWindow.mark_acked (Packet.ack_no packet - 1) (window_of c).
Proof.
  intros Hmode Hreach. unfold _handle_ack, incr. unfold_m.
  cbn [upd_stats set_stats mode acked_packets].
  assert (Hbranch : forall X Y : M t unit,
            match mode c with go_back_n => X | _ => Y end = Y)
    by (intros; destruct (mode c); congruence).
  rewrite Hbranch. clear Hbranch.
  case_decide as Hin; [reflexivity|].
  change (sent_packets (upd_stats _ c)) with (sent_packets c).
  destruct (sent_packets c !! (Packet.ack_no packet - 1)) as [info|];
    [|reflexivity].
  unfold on_congestion.
  change (congestion (upd_stats _ (set_acked_packets _ (upd_stats _ c))))
    with (congestion c).
  destruct (on_ack_received_returns
              (Some (Float.sub (Float.of_Q now)
                       (Float.of_Q (PacketInfo.send_time info)))) (congestion c) Hreach)
    as (g' & ->).
  reflexivity.
Qed.

Lemma window_turn_grows now lost c :
  window_grows (window_view c) (window_view (window_turn now lost c).2).
Proof.
  apply (keeps_window_turn window_view window_grows); try reflexivity.
  intros c'. unfold window_grows, window_view; cbn. repeat split; lia.
Qed.

Lemma sr_window_new_history window_size :
  acked_is_history (SRWindow.new window_size).
Proof.
  unfold acked_is_history; cbn.
  split; [set_solver|]. split; [intros; lia|]. split; [set_solver|lia].
Qed.

(** C7 (amended). The acknowledged set of the Selective Repeat send window
    is never trimmed.  Every operation -- marking a sent sequence number
    acknowledged (which also advances [base]), and moving [next_seq] on a
    send -- preserves that [base] is not in the set, that every sequence
    number from 0 up to [base] is in it, that every element is a sequence
    number already sent ([0 <= s < next_seq]), and that
    [0 <= base <= next_seq]; and marking only adds to the set.  This holds
    of [SRWindow] and of the window variables of [UDPClient] alike. *)
Theorem C7_acked_set_is_history :
  (forall window_size, acked_is_history (SRWindow.new window_size)) /\
  (forall w seq_no,
     acked_is_history w -> 0 <= seq_no < SRWindow.next_seq w ->
     acked_is_history (SRWindow.mark_acked seq_no w) /\
     SRWindow.acked w ⊆ SRWindow.acked (SRWindow.mark_acked seq_no w)) /\
  (forall w, acked_is_history w ->
             acked_is_history (SRWindow.advance_next_seq w)) /\
  (forall c now packet,
     mode c <> go_back_n ->
     CongestionController.reachable (congestion c) ->
     acked_is_history (window_of c) ->
     0 <= Packet.ack_no packet - 1 < next_seq c ->
     acked_is_history (window_of (_handle_ack now packet c).2) /\
     acked_packets c ⊆ acked_packets (_handle_ack now packet c).2) /\
  (forall c now lost,
     acked_is_history (window_of c) ->
     acked_is_history (window_of (window_turn now lost c).2)).
Proof.
  split; [exact sr_window_new_history|].
  split; [|split; [exact advance_next_seq_history|split]].
  - intros w seq_no Hw Hseq. split; [apply mark_acked_history; assumption|].
    destruct (mark_acked_spec seq_no w) as (-> & _). apply union_subseteq_r.
  - intros c now packet Hmode Hreach Hw Hseq.
    pose proof (handle_ack_selective now packet c Hmode Hreach) as E.
    case_decide as Hin.
    + rewrite E. split; [exact Hw|].
      change (acked_packets (_handle_ack now packet c).2)
        with (SRWindow.acked (window_of (_handle_ack now packet c).2)).
      now rewrite E.
    + rewrite E. split; [apply mark_acked_history; assumption|].
      change (acked_packets (_handle_ack now packet c).2)
        with (SRWindow.acked (window_of (_handle_ack now packet c).2)).
      rewrite E.
      destruct (mark_acked_spec (Packet.ack_no packet - 1) (window_of c))
        as (-> & _).
      cbn. apply union_subseteq_r.
  - intros c now lost (Hb & Hlow & Hsent & Hrange).
    destruct (window_turn_grows now lost c) as (Eb & Ea & Hn).
    unfold window_view in *; cbn in Eb, Ea, Hn.
    unfold acked_is_history, window_of; cbn in *. rewrite Eb, Ea.
    split; [exact Hb|]. split; [exact Hlow|]. split; [|lia].
    intros s Hs. apply Hsent in Hs. lia.
Qed.

(** The theorem at the window in which sequence 0 has been sent: marking
    it acknowledged. *)
Lemma C7_acked_set_is_history_witness :
  acked_is_history (SRWindow.mark_acked 0 one_sent) /\
  SRWindow.acked one_sent ⊆ SRWindow.acked (SRWindow.mark_acked 0 one_sent).
Proof.
  apply (proj1 (proj2 C7_acked_set_is_history) one_sent 0).
  - unfold acked_is_history, one_sent. simpl.
    split; [apply not_elem_of_empty|].
    split; [intros s Hs; lia|]. split; [|lia].
    intros s Hs. now apply not_elem_of_empty in Hs.
  - simpl. lia.
Defined.

(** Sequence 0 is sent, then acknowledged: [base] moves to 1 and 0 stays
    in the set, below [base]. *)
Lemma C7_counterexample :
  acked_within_window one_sent /\
  ~ acked_within_window (SRWindow.mark_acked 0 one_sent).
Proof.
  split.
  - unfold acked_within_window, one_sent; cbn. split; set_solver.
  - intros [Hin _]. specialize (Hin 0).
    assert (0 ∈ SRWindow.acked (SRWindow.mark_acked 0 one_sent)) as H0
      by (cbn; set_solver).
    apply Hin in H0.
    assert (SRWindow.base (SRWindow.mark_acked 0 one_sent) = 1) as Hb
      by (vm_compute; reflexivity).
    rewrite Hb in H0. lia.
Qed.

End SenderWindow.

(** ** The sender *)

Section ClientFacts.
Import UDPClient.

#[local] Arguments Packet.to_bytes : simpl never.
#[local] Arguments Packet.from_bytes : simpl never.
#[local] Arguments Packet.verify_checksum : simpl never.
#[local] Arguments Packet.new : simpl never.
#[local] Arguments Packet.create_syn_packet : simpl never.
#[local] Arguments Packet.create_ack_packet : simpl never.
#[local] Arguments Packet.create_data_packet : simpl never.
#[local] Arguments Packet.create_fin_packet : simpl never.

Lemma create_syn_packet_eq s w :
  Packet.create_syn_packet s w = Returns (Packet.mk s 0 Packet.FLAG_SYN w [] 0).
Proof. reflexivity. Qed.

Lemma create_fin_packet_eq s :
  Packet.create_fin_packet s = Returns (Packet.mk s 0 Packet.FLAG_FIN 0 [] 0).
Proof. reflexivity. Qed.

Lemma create_data_packet_eq s data w :
  (length data <= Packet.MAX_DATA_SIZE)%nat ->
  Packet.create_data_packet s data w
  = Returns (Packet.mk s 0 Packet.FLAG_DATA w data 0).
Proof.
  intros H. unfold Packet.create_data_packet, Packet.new.
  rewrite decide_False by lia. reflexivity.
Qed.

Lemma syn_to_bytes w :
  0 <= w < 2 ^ 16 ->
  exists d p', Packet.to_bytes (Packet.mk 0 0 Packet.FLAG_SYN w [] 0)
               = Returns (d, p').
Proof.
  intros Hw.
  destruct (wire_ranges_to_bytes (Packet.mk 0 0 Packet.FLAG_SYN w [] 0))
    as (d & c & Hd & _).
  - unfold Packet.wire_ranges, Packet.FLAG_SYN; cbn. lia.
  - cbn. unfold Packet.MAX_DATA_SIZE. lia.
  - eauto.
Qed.

Lemma connect_send_spec c syn p' :
  Packet.to_bytes (Packet.mk 0 0 Packet.FLAG_SYN (window_size c) [] 0)
  = Returns (syn, p') ->
  connect_send c
  = (Returns tt,
     set_outbox (outbox c ++ [syn]) (set_state CONNECTING (set_socket true c))).
Proof.
  intros Hsyn. unfold connect_send, _set_state, _send_raw_packet. unfold_m.
  cbn. rewrite create_syn_packet_eq, Hsyn. reflexivity.
Qed.

Lemma connect_timeout c syn p' :
  Packet.to_bytes (Packet.mk 0 0 Packet.FLAG_SYN (window_size c) [] 0)
  = Returns (syn, p') ->
  connect RecvTimeout c
  = (Returns false,
     set_state ERROR
       (set_outbox (outbox c ++ [syn])
          (set_state CONNECTING (set_socket true c)))).
Proof.
  intros Hsyn. unfold connect. unfold_m.
  rewrite (connect_send_spec c syn p' Hsyn). reflexivity.
Qed.

Lemma connect_outbox c syn p' reply r c' :
  Packet.to_bytes (Packet.mk 0 0 Packet.FLAG_SYN (window_size c) [] 0)
  = Returns (syn, p') ->
  connect reply c = (r, c') ->
  (r = Returns false /\ outbox c' = outbox c ++ [syn]) \/
  (exists packet ack q,
     Packet.to_bytes
       (Packet.mk 0 (Packet.seq_no packet + 1) Packet.FLAG_ACK
          (window_size c) [] 0)
     = Returns (ack, q) /\
     r = Returns true /\ state c' = CONNECTED /\
     outbox c' = outbox c ++ [syn; ack]).
Proof.
  intros Hsyn. unfold connect. unfold_m.
  rewrite (connect_send_spec c syn p' Hsyn).
  destruct reply as [|d]; cbn; [pair_inv; left; auto|].
  destruct (Packet.from_bytes _) as [[packet|]|e]; cbn;
    try (pair_inv; left; auto).
  destruct (Packet.is_syn packet && Packet.is_ack packet); cbn;
    [|pair_inv; left; auto].
  unfold _send_raw_packet. unfold_m. cbn. rewrite create_ack_packet_eq.
  destruct (Packet.to_bytes (Packet.mk 0 (Packet.seq_no packet + 1)
              Packet.FLAG_ACK (window_size c) [] 0))
    as [[ack q]|e] eqn:Hack; cbn; pair_inv; [|left; auto].
  right. exists packet, ack, q. cbn. rewrite <- app_assoc. auto.
Qed.

(** C5 (amended).  [connect] sends the SYN exactly once and waits for one
    datagram.  If that wait times out -- as it does when the SYN is lost --
    [connect] reports failure at once and the sender enters Error: the SYN
    is not retransmitted and nothing is retried.  Whatever the wait yields,
    [connect] either fails having sent the SYN alone, or succeeds, the
    sender Connected, having sent the SYN and one ACK. *)
Theorem C5_connect_sends_one_syn (c : t) :
  0 <= window_size c < 2 ^ 16 ->
  exists syn p',
    Packet.to_bytes (Packet.mk 0 0 Packet.FLAG_SYN (window_size c) [] 0)
    = Returns (syn, p') /\
    (exists c',
       connect RecvTimeout c = (Returns false, c') /\
       state c' = ERROR /\ outbox c' = outbox c ++ [syn]) /\
    (forall reply r c',
       connect reply c = (r, c') ->
       (r = Returns false /\ outbox c' = outbox c ++ [syn]) \/
       (exists packet ack q,
          Packet.to_bytes
            (Packet.mk 0 (Packet.seq_no packet + 1) Packet.FLAG_ACK
               (window_size c) [] 0)
          = Returns (ack, q) /\
          r = Returns true /\ state c' = CONNECTED /\
          outbox c' = outbox c ++ [syn; ack])).
Proof.
  intros Hw. destruct (syn_to_bytes _ Hw) as (syn & p' & Hsyn).
  exists syn, p'. split; [exact Hsyn|]. split.
  - eexists. split; [apply (connect_timeout c syn p' Hsyn)|]. cbn. auto.
  - intros reply r c'. apply (connect_outbox c syn p' reply r c' Hsyn).
Qed.

Lemma C5_connect_sends_one_syn_witness :
  exists syn p',
    Packet.to_bytes
      (Packet.mk 0 0 Packet.FLAG_SYN (window_size UDPClient.new) [] 0)
    = Returns (syn, p') /\
    (exists c',
       connect RecvTimeout UDPClient.new = (Returns false, c') /\
       state c' = ERROR /\ outbox c' = outbox UDPClient.new ++ [syn]) /\
    (forall reply r c',
       connect reply UDPClient.new = (r, c') ->
       (r = Returns false /\ outbox c' = outbox UDPClient.new ++ [syn]) \/
       (exists packet ack q,
          Packet.to_bytes
            (Packet.mk 0 (Packet.seq_no packet + 1) Packet.FLAG_ACK
               (window_size UDPClient.new) [] 0)
          = Returns (ack, q) /\
          r = Returns true /\ state c' = CONNECTED /\
          outbox c' = outbox UDPClient.new ++ [syn; ack])).
Proof.
  apply (C5_connect_sends_one_syn UDPClient.new). simpl. lia.
Defined.

(** The SYN is lost, so the wait times out: one datagram was sent, the
    SYN, and [connect] has failed. *)
Lemma C5_counterexample :
  (connect RecvTimeout UDPClient.new).1 = Returns false /\
  state (connect RecvTimeout UDPClient.new).2 = ERROR /\
  outbox (connect RecvTimeout UDPClient.new).2
  = [Scenario.wire (Packet.create_syn_packet 0 10)].
Proof. repeat split; vm_compute; reflexivity. Qed.
Lemma to_bytes_shape p d p' :
  Packet.to_bytes p = Returns (d, p') ->
  exists c, Packet.calculate_checksum p = Returns c /\ p' = Packet.set_checksum c p.
Proof.
  unfold Packet.to_bytes.
  destruct (Packet.calculate_checksum p) as [c|e]; [|discriminate]. cbn.
  destruct (Packet.pack_IIBHH _ _ _ _ _); [|discriminate]. cbn.
  intros [= <- <-]. eauto.
Qed.

Lemma to_bytes_idempotent p d p' :
  Packet.to_bytes p = Returns (d, p') -> Packet.to_bytes p' = Returns (d, p').
Proof.
  intros H. destruct (to_bytes_shape p d p' H) as (c & Hc & ->).
  revert H. unfold Packet.to_bytes.
  rewrite calculate_checksum_set_checksum, Hc. cbn. destruct p; cbn. auto.
Qed.

(** [to_bytes] writes the checksum field and nothing else. *)
Lemma to_bytes_frame p d p' :
  Packet.to_bytes p = Returns (d, p') ->
  Packet.seq_no p' = Packet.seq_no p /\ Packet.ack_no p' = Packet.ack_no p /\
  Packet.flags p' = Packet.flags p /\ Packet.window p' = Packet.window p /\
  Packet.data p' = Packet.data p.
Proof.
  intros H. destruct (to_bytes_shape p d p' H) as (c & _ & ->). cbn. auto.
Qed.

Lemma send_raw_packet_spec q d p' c :
  Packet.to_bytes q = Returns (d, p') ->
  _send_raw_packet q c
  = (Returns (if socket c then p' else q),
     if socket c then set_outbox (outbox c ++ [d]) c else c).
Proof.
  intros H. unfold _send_raw_packet. unfold_m.
  destruct (socket c); [|reflexivity]. now rewrite H.
Qed.

Lemma stop_wait_chunk_done i q chunk retries env :
  ~ retries < max_retries ->
  stop_wait_chunk i q chunk retries env = ret (Some (retries, env)).
Proof. intros H. destruct env; cbn; now rewrite decide_False. Qed.

Lemma stop_wait_chunk_timeouts i chunk d p' tail env :
  Packet.to_bytes p' = Returns (d, p') ->
  Forall (fun a => att_reply a = RecvTimeout) env ->
  forall q retries c,
    Packet.to_bytes q = Returns (d, p') ->
    0 <= retries -> retries + Z.of_nat (length env) = max_retries ->
    exists c' n,
      stop_wait_chunk i q chunk retries (env ++ tail) c
      = (Returns (Some (max_retries, tail)), c') /\
      state c' = state c /\ outbox c' = outbox c ++ replicate n d.
Proof.
  intros Hp'. induction 1 as [|a env Ha _ IH]; intros q retries c Hq Hr Hlen.
  - cbn in Hlen. assert (retries = max_retries) as -> by lia.
    exists c, 0%nat. cbn [app replicate].
    rewrite stop_wait_chunk_done by lia. rewrite app_nil_r. auto.
  - cbn [length] in Hlen. cbn [app stop_wait_chunk].
    rewrite decide_True by (unfold max_retries in *; lia).
    rewrite Ha. unfold bind at 1.
    destruct (att_lost a); cbn [negb].
    + unfold incr. unfold_m.
      edestruct (IH q (retries + 1)) as (c' & n & -> & Hs & Ho);
        [exact Hq|lia|lia|].
      exists c', n. split; [reflexivity|]. rewrite Hs, Ho. cbn. auto.
    + unfold incr. unfold_m. rewrite (send_raw_packet_spec q d p' c Hq).
      edestruct (IH (if socket c then p' else q) (retries + 1))
        as (c' & n & -> & Hs & Ho);
        [destruct (socket c); assumption|lia|lia|].
      destruct (socket c).
      * exists c', (S n). split; [reflexivity|]. rewrite Hs, Ho. cbn.
        rewrite <- app_assoc. auto.
      * exists c', n. split; [reflexivity|]. rewrite Hs, Ho. cbn. auto.
Qed.

Lemma data_to_bytes i w chunk :
  0 <= i < 2 ^ 32 -> 0 <= w < 2 ^ 16 ->
  (length chunk <= Packet.MAX_DATA_SIZE)%nat ->
  exists d p',
    Packet.to_bytes (Packet.mk i 0 Packet.FLAG_DATA w chunk 0)
    = Returns (d, p').
Proof.
  intros Hi Hw Hl.
  destruct (wire_ranges_to_bytes (Packet.mk i 0 Packet.FLAG_DATA w chunk 0))
    as (d & c & Hd & _).
  - unfold Packet.wire_ranges, Packet.FLAG_DATA; cbn. lia.
  - exact Hl.
  - eauto.
Qed.

Lemma stop_wait_gives_up i chunk rest env tail c :
  0 <= i < 2 ^ 32 ->
  (length chunk <= Packet.MAX_DATA_SIZE)%nat ->
  Z.of_nat (length env) = max_retries ->
  Forall (fun a => att_reply a = RecvTimeout) env ->
  exists c' d p' n,
    Packet.to_bytes (Packet.mk i 0 Packet.FLAG_DATA 1 chunk 0)
    = Returns (d, p') /\
    stop_wait_chunks i (chunk :: rest) (env ++ tail) c
    = (Returns (Some false), c') /\
    state c' = ERROR /\ outbox c' = outbox c ++ replicate n d.
Proof.
  intros Hi Hl Hlen Henv.
  destruct (data_to_bytes i 1 chunk Hi ltac:(lia) Hl) as (d & p' & Hd).
  destruct (stop_wait_chunk_timeouts i chunk d p' tail env
              (to_bytes_idempotent _ _ _ Hd) Henv
              (Packet.mk i 0 Packet.FLAG_DATA 1 chunk 0) 0 c Hd)
    as (c' & n & Hrun & Hs & Ho); [lia|lia|].
  exists (set_state ERROR c'), d, p', n. split; [exact Hd|].
  cbn [stop_wait_chunks]. rewrite create_data_packet_eq by exact Hl.
  unfold_m. rewrite Hrun. cbn.
  rewrite decide_True by lia. unfold _set_state. unfold_m. cbn. auto.
Qed.

Lemma send_stop_wait_gives_up chunk rest env tail now fin_reply c :
  data_chunks c = chunk :: rest ->
  (length chunk <= Packet.MAX_DATA_SIZE)%nat ->
  Z.of_nat (length env) = max_retries ->
  Forall (fun a => att_reply a = RecvTimeout) env ->
  exists c' d p' n,
    Packet.to_bytes (Packet.mk 0 0 Packet.FLAG_DATA 1 chunk 0)
    = Returns (d, p') /\
    _send_stop_wait (env ++ tail) now fin_reply c = (Returns (Some false), c') /\
    state c' = ERROR /\ outbox c' = outbox c ++ replicate n d.
Proof.
  intros Hc Hl Hlen Henv.
  destruct (stop_wait_gives_up 0 chunk rest env tail c ltac:(lia) Hl Hlen Henv)
    as (c' & d & p' & n & Hd & Hrun & Hs & Ho).
  exists c', d, p', n. split; [exact Hd|].
  unfold _send_stop_wait. unfold_m. rewrite Hc, Hrun. auto.
Qed.

(** *** The sliding window has no cap *)

Lemma retransmit_packet_counts now lost seq_no c info :
  sent_packets c !! seq_no = Some info ->
  exists info',
    sent_packets (_retransmit_packet now lost seq_no c).2 !! seq_no = Some info' /\
    PacketInfo.retransmissions info' = PacketInfo.retransmissions info + 1.
Proof.
  intros Hin. unfold _retransmit_packet, incr. unfold_m. rewrite Hin.
  destruct lost; cbn.
  - eexists. rewrite lookup_insert_eq. split; reflexivity.
  - unfold _send_raw_packet. unfold_m. cbn.
    destruct (socket c); cbn.
    + destruct (Packet.to_bytes (PacketInfo.packet info)) as [[d p']|e]; cbn.
      * eexists. rewrite lookup_insert_eq. split; reflexivity.
      * eexists. rewrite lookup_insert_eq. split; reflexivity.
    + eexists. rewrite lookup_insert_eq. split; reflexivity.
Qed.

Lemma window_loop_state sched c : state (window_loop sched c).2 = state c.
Proof. symmetry. apply (keeps_window_loop state eq); intros; reflexivity. Qed.

Lemma retransmit_packet_state now lost seq_no c :
  state (_retransmit_packet now lost seq_no c).2 = state c.
Proof.
  symmetry. apply (keeps_retransmit_packet state eq); intros; reflexivity.
Qed.

Lemma window_loop_exit sched c rest c' :
  window_loop sched c = (Returns (Some rest), c') ->
  ~ base c' < total_chunks c'.
Proof.
  revert c. induction sched as [|tn sched IH]; intros c; cbn [window_loop];
    unfold bind at 1, get; case_decide as Hb.
  - unfold ret. discriminate.
  - unfold ret. intros E. apply pair_equal_spec in E as [_ <-]. exact Hb.
  - unfold bind at 1.
    destruct (window_turn (turn_now tn) (turn_lost tn) c) as [[[]|e] c1];
      [|discriminate].
    unfold bind at 1.
    match goal with
    | |- context [fold_right ?f ?z ?l c1] =>
        destruct (fold_right f z l c1) as [[[]|e] c2]; [|discriminate]
    end.
    apply IH.
  - unfold ret. intros E. apply pair_equal_spec in E as [_ <-]. exact Hb.
Qed.

Lemma finish_transfer_completes now reply c c' :
  _finish_transfer now reply c = (Returns tt, c') -> state c' = COMPLETED.
Proof.
  unfold _finish_transfer, finish_send, finish_recv, _set_state. unfold_m.
  rewrite create_fin_packet_eq.
  destruct (_send_raw_packet _ _) as [[p|e] c1]; [|discriminate].
  destruct reply as [|d].
  - intros E. apply pair_equal_spec in E as [_ <-]. reflexivity.
  - destruct (Packet.from_bytes _) as [o|e]; [|discriminate].
    intros E. apply pair_equal_spec in E as [_ <-]. reflexivity.
Qed.

Lemma send_sliding_window_returns sched now reply c b c' :
  _send_sliding_window sched now reply c = (Returns (Some b), c') ->
  b = true /\ state c' = COMPLETED.
Proof.
  unfold _send_sliding_window. unfold bind at 1.
  destruct (window_loop sched c) as [[[rest|]|e] c1] eqn:Hloop;
    [|unfold ret; discriminate|discriminate].
  apply window_loop_exit in Hloop.
  unfold_m. cbn [base total_chunks set_running].
  rewrite decide_True by lia.
  destruct (_finish_transfer now reply (set_running false c1))
    as [[[]|e] c2] eqn:Hfin; [|discriminate].
  intros E. apply pair_equal_spec in E as [E <-].
  injection E as <-. split; [reflexivity|].
  now apply finish_transfer_completes in Hfin.
Qed.

Lemma retransmit_sends_same_bytes now seq_no c info d p' :
  sent_packets c !! seq_no = Some info ->
  Packet.to_bytes (PacketInfo.packet info) = Returns (d, p') ->
  socket c = true ->
  outbox (_retransmit_packet now false seq_no c).2 = outbox c ++ [d] /\
  exists info',
    sent_packets (_retransmit_packet now false seq_no c).2 !! seq_no
    = Some info' /\
    PacketInfo.packet info' = p'.
Proof.
  intros Hin Hd Hs. unfold _retransmit_packet, incr. unfold_m. rewrite Hin.
  cbn [negb PacketInfo.packet].
  rewrite (send_raw_packet_spec _ d p' _ Hd). cbn. rewrite Hs. cbn.
  split; [reflexivity|]. eexists. rewrite lookup_insert_eq.
  split; reflexivity.
Qed.

(** XSW. The retransmission cap of stop-and-wait mode.  When the packet
    being sent (chunk [i]) times out 10 times without an acknowledgement,
    the sending loop reports failure and the sender enters Error; only
    copies of that packet's datagram were sent meanwhile, and no FIN. *)
Theorem stop_wait_retransmission_cap :
  (forall i chunk rest env tail c,
     0 <= i < 2 ^ 32 ->
     (length chunk <= Packet.MAX_DATA_SIZE)%nat ->
     Z.of_nat (length env) = 10 ->
     Forall (fun a => att_reply a = RecvTimeout) env ->
     exists c' d p' n,
       Packet.to_bytes (Packet.mk i 0 Packet.FLAG_DATA 1 chunk 0)
       = Returns (d, p') /\
       stop_wait_chunks i (chunk :: rest) (env ++ tail) c
       = (Returns (Some false), c') /\
       state c' = ERROR /\ outbox c' = outbox c ++ replicate n d) /\
  (forall chunk rest env tail now fin_reply c,
     data_chunks c = chunk :: rest ->
     (length chunk <= Packet.MAX_DATA_SIZE)%nat ->
     Z.of_nat (length env) = 10 ->
     Forall (fun a => att_reply a = RecvTimeout) env ->
     exists c' d p' n,
       Packet.to_bytes (Packet.mk 0 0 Packet.FLAG_DATA 1 chunk 0)
       = Returns (d, p') /\
       _send_stop_wait (env ++ tail) now fin_reply c
       = (Returns (Some false), c') /\
       state c' = ERROR /\ outbox c' = outbox c ++ replicate n d).
Proof.
  split; [exact stop_wait_gives_up|exact send_stop_wait_gives_up].
Qed.

(** The theorem at the stuck stop-and-wait sender: ten timeouts, and the
    send fails. *)
Lemma stop_wait_retransmission_cap_witness :
  exists c' d p' n,
    Packet.to_bytes (Packet.mk 0 0 Packet.FLAG_DATA 1 ["a"%byte] 0)
    = Returns (d, p') /\
    _send_stop_wait (replicate 10 (mk_attempt false RecvTimeout) ++ [])
      0%Q RecvTimeout (Scenario.stuck_client stop_wait)
    = (Returns (Some false), c') /\
    state c' = ERROR /\
    outbox c' = outbox (Scenario.stuck_client stop_wait) ++ replicate n d.
Proof.
  apply (proj2 stop_wait_retransmission_cap ["a"%byte] []).
  - vm_compute. reflexivity.
  - simpl. unfold Packet.MAX_DATA_SIZE. lia.
  - reflexivity.
  - repeat constructor.
Defined.

(** C4.  The sliding-window modes have no retransmission cap.  A
    retransmission never changes the sender's state, whatever the
    packet's counter is; the sending loop of [_send_sliding_window]
    never changes it either, and the call never reports failure: its
    first loop only ends on [base >= total_chunks], so the branch that
    sets Error and returns False cannot be taken.  At the sender whose
    only chunk is never acknowledged, after eleven timeouts of that
    chunk the call is still in its loop and the sender still
    Transferring, in Go-Back-N and in Selective Repeat; the stop-and-wait
    loop, from the same state, has given up after ten: failure, and
    Error. *)
Theorem C4_sliding_window_never_gives_up :
  (forall now lost seq_no c,
     state (_retransmit_packet now lost seq_no c).2 = state c) /\
  (forall sched c, state (window_loop sched c).2 = state c) /\
  (forall sched now fin_reply c,
     (_send_sliding_window sched now fin_reply c).1
     <> Returns (Some false)) /\
  forall_modes (fun m =>
    let r := _send_sliding_window Scenario.eleven_timeouts 0%Q RecvTimeout
               (Scenario.stuck_client m) in
    r.1 = Returns None /\ state r.2 = TRANSFERRING /\
    PacketInfo.retransmissions <$> sent_packets r.2 !! 0 = Some 11) /\
  (let r := _send_stop_wait
              (replicate 10 (mk_attempt false RecvTimeout)) 0%Q RecvTimeout
              (Scenario.stuck_client stop_wait) in
   r.1 = Returns (Some false) /\ state r.2 = ERROR /\
   outbox r.2
   = replicate 10
       (Scenario.wire (Packet.create_data_packet 0 ["a"%byte] 1))).
Proof.
  split; [exact retransmit_packet_state|].
  split; [exact window_loop_state|].
  split.
  { intros sched now fin_reply c E.
    destruct (_send_sliding_window sched now fin_reply c) as [r c'] eqn:H.
    cbn in E. subst r.
    now destruct (send_sliding_window_returns _ _ _ _ _ _ H). }
  split; [split; repeat split; vm_compute; reflexivity|].
  repeat split; vm_compute; reflexivity.
Qed.

(** C9 (amended).  A packet is not immutable: [to_bytes] stores the
    checksum it computes in the packet, so the first transmission of a
    freshly built packet changes its [checksum] field.  That field is the
    only one [to_bytes] ever writes; once a packet has been encoded,
    encoding it again changes nothing and yields the same bytes;
    [_send_raw_packet] sends those bytes and hands back the encoded packet;
    and [_retransmit_packet] sends exactly the bytes of the packet's
    encoding and keeps the encoded packet in the record, so that every
    retransmission of a sequence number sends the same datagram. *)
Theorem C9_retransmissions_resend_the_bytes :
  (forall p d p',
     Packet.to_bytes p = Returns (d, p') ->
     (Packet.seq_no p' = Packet.seq_no p /\
      Packet.ack_no p' = Packet.ack_no p /\
      Packet.flags p' = Packet.flags p /\
      Packet.window p' = Packet.window p /\
      Packet.data p' = Packet.data p) /\
     Packet.to_bytes p' = Returns (d, p')) /\
  (forall q d p' c,
     Packet.to_bytes q = Returns (d, p') -> socket c = true ->
     _send_raw_packet q c = (Returns p', set_outbox (outbox c ++ [d]) c)) /\
  (forall now seq_no c info d p',
     sent_packets c !! seq_no = Some info ->
     Packet.to_bytes (PacketInfo.packet info) = Returns (d, p') ->
     socket c = true ->
     outbox (_retransmit_packet now false seq_no c).2 = outbox c ++ [d] /\
     exists info',
       sent_packets (_retransmit_packet now false seq_no c).2 !! seq_no
       = Some info' /\
       PacketInfo.packet info' = p').
Proof.
  split; [|split].
  - intros p d p' H. split; [now apply (to_bytes_frame p d)|].
    now apply (to_bytes_idempotent p).
  - intros q d p' c H Hs. rewrite (send_raw_packet_spec q d p' c H).
    now rewrite Hs.
  - exact retransmit_sends_same_bytes.
Qed.

(** The theorem at the sample packet, whose checksum is 38557. *)
Lemma C9_retransmissions_resend_the_bytes_witness :
  let d := Scenario.wire (Returns Packet.sample_packet) in
  let p' := Packet.set_checksum 38557 Packet.sample_packet in
  (Packet.seq_no p' = Packet.seq_no Packet.sample_packet /\
   Packet.ack_no p' = Packet.ack_no Packet.sample_packet /\
   Packet.flags p' = Packet.flags Packet.sample_packet /\
   Packet.window p' = Packet.window Packet.sample_packet /\
   Packet.data p' = Packet.data Packet.sample_packet) /\
  Packet.to_bytes p' = Returns (d, p').
Proof.
  apply (proj1 C9_retransmissions_resend_the_bytes Packet.sample_packet).
  vm_compute. reflexivity.
Defined.

(** Encoding the sample packet changes its checksum field, from 0. *)
Lemma C9_counterexample :
  Packet.checksum Packet.sample_packet = 0 /\
  exists d p',
    Packet.to_bytes Packet.sample_packet = Returns (d, p') /\
    Packet.checksum p' <> 0 /\ p' <> Packet.sample_packet.
Proof.
  split; [reflexivity|].
  destruct (Packet.to_bytes Packet.sample_packet) as [[d p']|e] eqn:E;
    [|vm_compute in E; discriminate].
  exists d, p'. split; [reflexivity|].
  assert (Hc : Packet.checksum p' <> 0).
  { vm_compute in E. injection E as _ <-. cbn. discriminate. }
  split; [exact Hc|]. intros ->. now apply Hc.
Qed.


End ClientFacts.

(** ** A transfer that completes without a chunk *)

Section Transfer.

#[local] Arguments Packet.to_bytes : simpl never.
#[local] Arguments Packet.from_bytes : simpl never.
#[local] Arguments Packet.verify_checksum : simpl never.
#[local] Arguments Packet.new : simpl never.
#[local] Arguments Packet.create_syn_packet : simpl never.
#[local] Arguments Packet.create_ack_packet : simpl never.
#[local] Arguments Packet.create_data_packet : simpl never.
#[local] Arguments Packet.create_fin_packet : simpl never.
#[local] Arguments Packet.create_fin_ack_packet : simpl never.

Lemma to_bytes_length p d p' :
  Packet.to_bytes p = Returns (d, p') ->
  length d = (Packet.HEADER_SIZE + length (Packet.data p))%nat.
Proof.
  unfold Packet.to_bytes.
  destruct (Packet.calculate_checksum p) as [c|e]; [|discriminate]. cbn.
  unfold Packet.pack_IIBHH, Packet.pack_IIBH.
  destruct (Packet.pack_field 4 (Packet.seq_no p)) as [b1|] eqn:E1; [|discriminate].
  destruct (Packet.pack_field 4 (Packet.ack_no p)) as [b2|] eqn:E2; [|discriminate].
  destruct (Packet.pack_field 1 (Packet.flags p)) as [b3|] eqn:E3; [|discriminate].
  destruct (Packet.pack_field 2 (Packet.window p)) as [b4|] eqn:E4; [|discriminate].
  cbn. destruct (Packet.pack_field 2 c) as [b5|] eqn:E5; [|discriminate].
  cbn. intros [= <- _].
  apply be_value_pack in E1 as [_ L1]. apply be_value_pack in E2 as [_ L2].
  apply be_value_pack in E3 as [_ L3]. apply be_value_pack in E4 as [_ L4].
  apply be_value_pack in E5 as [_ L5].
  rewrite !length_app, L1, L2, L3, L4, L5. reflexivity.
Qed.

Lemma encodes_intro p0 :
  Packet.wire_ranges p0 ->
  (length (Packet.data p0) <= Packet.MAX_DATA_SIZE)%nat ->
  exists p, encodes p0 (Scenario.wire (Returns p0)) p.
Proof.
  intros Hr Hl.
  destruct (wire_ranges_to_bytes p0 Hr Hl) as (d & c & Hd & Hf & Hv).
  exists (Packet.set_checksum c p0).
  assert (Hw : Scenario.wire (Returns p0) = d).
  { unfold Scenario.wire. cbn [result_bind]. now rewrite Hd. }
  rewrite Hw. unfold encodes.
  rewrite take_ge.
  - repeat split; assumption || reflexivity.
  - rewrite (to_bytes_length _ _ _ Hd).
    unfold Packet.MAX_PACKET_SIZE. lia.
Qed.

Lemma ack_encodes a w :
  0 <= a < 2 ^ 32 -> 0 <= w < 2 ^ 16 ->
  exists p,
    encodes (Packet.mk 0 a Packet.FLAG_ACK w [] 0)
      (Scenario.wire (Packet.create_ack_packet 0 a w)) p.
Proof.
  intros Ha Hw. rewrite create_ack_packet_eq. apply encodes_intro.
  - unfold Packet.wire_ranges, Packet.FLAG_ACK; cbn. lia.
  - cbn. lia.
Qed.

Lemma data_encodes i w chunk :
  0 <= i < 2 ^ 32 -> 0 <= w < 2 ^ 16 ->
  (length chunk <= Packet.MAX_DATA_SIZE)%nat ->
  exists p,
    encodes (Packet.mk i 0 Packet.FLAG_DATA w chunk 0)
      (Scenario.wire (Packet.create_data_packet i chunk w)) p.
Proof.
  intros Hi Hw Hl. rewrite create_data_packet_eq by exact Hl.
  apply encodes_intro.
  - unfold Packet.wire_ranges, Packet.FLAG_DATA; cbn. lia.
  - exact Hl.
Qed.

(** A Selective Repeat server that receives a DATA packet hands it to
    [add_packet] and acknowledges it, whatever [add_packet] did. *)
Lemma server_data_turn now d p0 p a addr s :
  encodes p0 d p -> Packet.flags p0 = Packet.FLAG_DATA ->
  UDPServer.socket_open s = true ->
  UDPServer.current_client s = Some a ->
  UDPServer.mode s = selective_repeat ->
  0 <= UDPServer.window_size s < 2 ^ 16 ->
  0 <= Packet.seq_no p0 + 1 < 2 ^ 32 ->
  exists s',
    UDPServer._receive_loop_turn false now d addr s = (Returns tt, s') /\
    UDPServer.buffer s'
    = (ReceiverBuffer.add_packet (Packet.seq_no p0) (Packet.data p0)
         (UDPServer.buffer s)).2 /\
    UDPServer.outbox s'
    = UDPServer.outbox s
      ++ [(Scenario.wire
             (Packet.create_ack_packet 0 (Packet.seq_no p0 + 1)
                (UDPServer.window_size s)), a)] /\
    server_same s s'.
Proof.
  intros (_ & Hf & Hv & Hseq & _ & Hfl & _ & Hdata) Hflag Hsock Hcl Hmode Hw Hr.
  destruct (ack_encodes (Packet.seq_no p0 + 1) (UDPServer.window_size s) Hr Hw)
    as (q & Hq & _).
  unfold UDPServer._receive_loop_turn, UDPServer._handle_packet. unfold_m.
  rewrite Hf, Hv. cbn [negb].
  unfold Packet.is_syn, Packet.is_data. rewrite Hfl, Hflag.
  change (negb (Z.land Packet.FLAG_DATA Packet.FLAG_SYN =? 0)) with false.
  change (negb (Z.land Packet.FLAG_DATA Packet.FLAG_DATA =? 0)) with true.
  cbn [andb].
  unfold UDPServer._handle_data, UDPServer._handle_selective_repeat. unfold_m.
  cbn [UDPServer.mode UDPServer.upd_stats UDPServer.set_stats].
  rewrite Hmode, Hseq, Hdata. cbv beta.
  cbn [UDPServer.buffer UDPServer.window_size UDPServer.current_client
       UDPServer.upd_stats UDPServer.set_stats].
  rewrite Hcl.
  destruct (ReceiverBuffer.add_packet (Packet.seq_no p0) (Packet.data p0)
              (UDPServer.buffer s)) as [[in_order e] b'] eqn:Hadd.
  rewrite create_ack_packet_eq.
  erewrite send_packet_some; [|exact Hsock|exact Hq].
  destruct in_order; [|case_decide];
    (eexists; split; [reflexivity|]; cbn; unfold server_same; cbn;
     repeat split; reflexivity).
Qed.

Lemma prefix_map_lookup cs k z :
  prefix_map cs k !! z
  = if decide (0 <= z < Z.of_nat k)
    then Some (default [] (cs !! Z.to_nat z)) else None.
Proof.
  induction k as [|k IH]; cbn [prefix_map].
  - rewrite lookup_empty. case_decide; [lia|reflexivity].
  - destruct (decide (z = Z.of_nat k)) as [->|Hne].
    + rewrite lookup_insert_eq, Nat2Z.id. rewrite decide_True by lia. reflexivity.
    + rewrite lookup_insert_ne by congruence. rewrite IH.
      repeat case_decide; reflexivity || lia.
Qed.

Lemma prefix_map_size cs k : size (prefix_map cs k) = k.
Proof.
  induction k as [|k IH]; cbn [prefix_map].
  - apply map_size_empty.
  - rewrite map_size_insert_None, IH; [reflexivity|].
    rewrite prefix_map_lookup. apply decide_False. lia.
Qed.

Lemma add_packet_in_order cs k mx :
  ReceiverBuffer.add_packet (Z.of_nat k) (default [] (cs !! k))
    (ReceiverBuffer.mk (Z.of_nat k) (prefix_map cs k) mx)
  = ((true, Z.of_nat (S k)),
     ReceiverBuffer.mk (Z.of_nat (S k)) (prefix_map cs (S k)) mx).
Proof.
  unfold ReceiverBuffer.add_packet. cbn [ReceiverBuffer.expected_seq].
  rewrite decide_False by lia. rewrite decide_True by reflexivity.
  cbn [ReceiverBuffer.received_data ReceiverBuffer.expected_seq
       ReceiverBuffer.max_buffer_size].
  change (<[Z.of_nat k := default [] (cs !! k)]> (prefix_map cs k))
    with (prefix_map cs (S k)).
  assert (Hskip :
    skip_present
      (ReceiverBuffer.has
         (ReceiverBuffer.mk (Z.of_nat k) (prefix_map cs (S k)) mx))
      (size (prefix_map cs (S k))) (Z.of_nat k) = Z.of_nat (S k)).
  { destruct (skip_present_spec (dom (prefix_map cs (S k)))
                (ReceiverBuffer.has
                   (ReceiverBuffer.mk (Z.of_nat k) (prefix_map cs (S k)) mx))
                ltac:(intros z; unfold ReceiverBuffer.has;
                      rewrite bool_decide_eq_true; symmetry; apply elem_of_dom)
                (size (prefix_map cs (S k))) (Z.of_nat k)) as (Hout & Hle & Hin).
    - rewrite <- size_dom. apply subseteq_size. intros z.
      rewrite elem_of_filter. tauto.
    - set (r := skip_present _ _ _) in *.
      assert (Hdom : forall z, z ∈ dom (prefix_map cs (S k))
                               <-> 0 <= z < Z.of_nat (S k)).
      { intros z. rewrite elem_of_dom, prefix_map_lookup.
        case_decide; split; intros H'; try lia; eauto.
        destruct H' as [? [=]]. }
      rewrite Hdom in Hout.
      destruct (decide (Z.of_nat (S k) < r)) as [Hlt|Hge].
      + specialize (Hin (Z.of_nat (S k)) ltac:(lia)). apply Hdom in Hin. lia.
      + lia. }
  rewrite Hskip. reflexivity.
Qed.

Lemma add_packet_full seq_no data b :
  ReceiverBuffer.expected_seq b < seq_no ->
  ReceiverBuffer.max_buffer_size b
  <= Z.of_nat (size (ReceiverBuffer.received_data b)) ->
  ReceiverBuffer.add_packet seq_no data b
  = ((false, ReceiverBuffer.expected_seq b), b).
Proof.
  intros Hlt Hfull. unfold ReceiverBuffer.add_packet.
  rewrite !decide_False by lia. reflexivity.
Qed.

Lemma window_fill_spec cs now lost :
  sendable cs -> (forall z, lost z = false) ->
  forall fuel c,
    sender_ready cs c -> 0 <= UDPClient.next_seq c ->
    (forall z, z ∈ UDPClient.acked_packets c -> z < UDPClient.next_seq c) ->
    (Z.to_nat (UDPClient.total_chunks c - UDPClient.next_seq c) <= fuel)%nat ->
    exists c',
      UDPClient.window_fill now lost 10 fuel c = (Returns tt, c') /\
      sender_ready cs c' /\
      UDPClient.base c' = UDPClient.base c /\
      UDPClient.acked_packets c' = UDPClient.acked_packets c /\
      UDPClient.next_seq c'
      = Z.max (UDPClient.next_seq c)
          (Z.min (UDPClient.base c + 10) (Z.of_nat (length cs))) /\
      (forall d, d ∈ UDPClient.outbox c -> d ∈ UDPClient.outbox c') /\
      (forall j : nat,
          UDPClient.next_seq c <= Z.of_nat j < UDPClient.next_seq c' ->
          Scenario.data_datagram cs j ∈ UDPClient.outbox c').
Proof.
  intros [Hcs Hlen] Hlost.
  induction fuel as [|fuel IH]; intros c Hready Hnext Hacked Hfuel;
    pose proof Hready as (Hsock & Hst & Hrun & Hmode & Hw & Hen & Hdc & Htot);
    cbn [UDPClient.window_fill].
  - exists c. unfold ret. repeat split; try assumption; try tauto; lia.
  - unfold bind at 1, get.
    destruct (bool_decide (UDPClient.next_seq c < UDPClient.total_chunks c)
              && bool_decide (UDPClient.next_seq c < UDPClient.base c + 10))
      eqn:Hguard.
    + apply andb_true_iff in Hguard as [Hg1 Hg2].
      apply bool_decide_eq_true in Hg1, Hg2.
      rewrite Hmode. cbn [andb].
      rewrite bool_decide_eq_false_2
        by (intros Hin; apply Hacked in Hin; lia).
      set (j := Z.to_nat (UDPClient.next_seq c)).
      assert (Hj : (j < length cs)%nat) by lia.
      destruct (lookup_lt_is_Some_2 cs j Hj) as [chunk Hchunk].
      assert (Hl : (length chunk <= Packet.MAX_DATA_SIZE)%nat).
      { eapply Forall_lookup_1 in Hcs; [exact Hcs|exact Hchunk]. }
      rewrite Hdc, Hchunk, Hw. unfold_m.
      destruct (data_encodes (UDPClient.next_seq c) 10 chunk
                  ltac:(lia) ltac:(lia) Hl) as (p & Hto & _).
      rewrite create_data_packet_eq by exact Hl.
      rewrite Hlost. cbn [negb].
      unfold UDPClient._send_raw_packet, UDPClient.incr. unfold_m.
      rewrite Hsock, Hto. cbn [fst snd].
      match goal with
      | |- exists c', UDPClient.window_fill _ _ _ _ ?c1 = _ /\ _ =>
          destruct (IH c1) as (c' & Hrun' & Hready' & Hb & Ha & Hn & Ho & Hd)
      end.
      * unfold sender_ready; cbn. repeat split; assumption.
      * cbn. lia.
      * cbn. intros z Hz. apply Hacked in Hz. lia.
      * cbn. lia.
      * exists c'. cbn in Hb, Ha, Hn, Ho, Hd.
        split; [exact Hrun'|]. split; [exact Hready'|].
        split; [exact Hb|]. split; [exact Ha|].
        split; [lia|]. split.
        -- intros d Hin. apply Ho. apply elem_of_app. now left.
        -- intros i Hi.
           destruct (decide (Z.of_nat i = UDPClient.next_seq c)) as [Heq|Hne].
           ++ apply Ho. apply elem_of_app. right. apply list_elem_of_singleton.
              unfold Scenario.data_datagram.
              assert (i = j) as -> by lia.
              rewrite Hchunk. cbn [default]. now rewrite Heq.
           ++ apply Hd. lia.
    + exists c. unfold ret.
      apply andb_false_iff in Hguard.
      rewrite !bool_decide_eq_false in Hguard.
      repeat split; try assumption; try tauto; lia.
Qed.

(** The sender's receiver thread on an ACK for a sequence not yet
    acknowledged: the sequence joins the acknowledged set and [base] moves
    past everything acknowledged. *)
Lemma client_ack_turn now d p0 p c :
  encodes p0 d p -> Packet.flags p0 = Packet.FLAG_ACK ->
  UDPClient.mode c = selective_repeat ->
  CongestionController.enabled (UDPClient.congestion c) = false ->
  Packet.ack_no p0 - 1 ∉ UDPClient.acked_packets c ->
  exists c',
    UDPClient._receive_loop_turn now d c = (Returns tt, c') /\
    UDPClient.acked_packets c'
    = {[Packet.ack_no p0 - 1]} ∪ UDPClient.acked_packets c /\
    UDPClient.base c'
    = skip_present (fun k => bool_decide (k ∈ UDPClient.acked_packets c'))
        (size (UDPClient.acked_packets c')) (UDPClient.base c) /\
    sender_same c c'.
Proof.
  intros (_ & Hf & _ & _ & Hack & Hfl & _) Hflag Hmode Hen Hnew.
  unfold UDPClient._receive_loop_turn. unfold_m. rewrite Hf.
  unfold Packet.is_ack. rewrite Hfl, Hflag.
  change (negb (Z.land Packet.FLAG_ACK Packet.FLAG_ACK =? 0)) with true.
  cbv iota.
  unfold UDPClient._handle_ack, UDPClient.incr. unfold_m.
  cbn [UDPClient.mode UDPClient.upd_stats UDPClient.set_stats
       UDPClient.acked_packets UDPClient.sent_packets].
  rewrite Hmode, Hack. rewrite decide_False by exact Hnew.
  destruct (UDPClient.sent_packets c !! (Packet.ack_no p0 - 1)) as [info|].
  - unfold UDPClient.on_congestion.
    cbn [UDPClient.congestion UDPClient.upd_stats UDPClient.set_stats
         UDPClient.set_acked_packets].
    rewrite on_ack_received_disabled by exact Hen.
    eexists; split; [reflexivity|]. cbn. unfold sender_same. cbn.
    repeat split; reflexivity.
  - eexists; split; [reflexivity|]. cbn. unfold sender_same. cbn.
    repeat split; reflexivity.
Qed.

(** [base] after an acknowledgement, when the acknowledged set is an
    initial segment with at most one more sequence. *)
Lemma skip_to_gap (s : gset Z) (x r : Z) :
  x <= r -> r ∉ s -> (forall k, x <= k < r -> k ∈ s) ->
  skip_present (fun k => bool_decide (k ∈ s)) (size s) x = r.
Proof.
  intros Hle Hout Hin.
  destruct (skip_present_gset s x) as (H1 & H2 & H3).
  set (r' := skip_present _ _ _) in *.
  destruct (Z.lt_trichotomy r r') as [Hlt|[Heq|Hgt]].
  - exfalso. apply Hout, H3. lia.
  - now symmetry.
  - exfalso. apply H1, Hin. lia.
Qed.

(** A Selective Repeat server whose buffer holds [max_buffer_size] chunks
    or more (those delivered in order stay in it and count) does not store
    a DATA packet beyond the one it expects -- and acknowledges it. *)
Lemma server_acks_what_it_drops now d p0 p a addr s :
  encodes p0 d p -> Packet.flags p0 = Packet.FLAG_DATA ->
  UDPServer.socket_open s = true ->
  UDPServer.current_client s = Some a ->
  UDPServer.mode s = selective_repeat ->
  0 <= UDPServer.window_size s < 2 ^ 16 ->
  0 <= Packet.seq_no p0 + 1 < 2 ^ 32 ->
  ReceiverBuffer.expected_seq (UDPServer.buffer s) < Packet.seq_no p0 ->
  ReceiverBuffer.max_buffer_size (UDPServer.buffer s)
  <= Z.of_nat (size (ReceiverBuffer.received_data (UDPServer.buffer s))) ->
  exists s',
    UDPServer._receive_loop_turn false now d addr s = (Returns tt, s') /\
    UDPServer.buffer s' = UDPServer.buffer s /\
    UDPServer.outbox s'
    = UDPServer.outbox s
      ++ [(Scenario.wire
             (Packet.create_ack_packet 0 (Packet.seq_no p0 + 1)
                (UDPServer.window_size s)), a)].
Proof.
  intros Henc Hflag Hsock Hcl Hmode Hw Hseq Hlt Hfull.
  destruct (server_data_turn now d p0 p a addr s Henc Hflag Hsock Hcl Hmode
              Hw Hseq) as (s' & Hturn & Hbuf & Hout & _).
  exists s'. split; [exact Hturn|]. split; [|exact Hout].
  rewrite Hbuf, add_packet_full by assumption. reflexivity.
Qed.

(** *** The events of the system *)

Lemma steps_app es1 es2 s :
  System.steps (es1 ++ es2) s
  = match System.steps es1 s with
    | Some s' => System.steps es2 s'
    | None => None
    end.
Proof.
  revert s. induction es1 as [|e es1 IH]; intros s; cbn; [reflexivity|].
  destruct (System.step e s); [apply IH|reflexivity].
Qed.

Lemma step_window cs now lost s :
  sendable cs -> (forall z, lost z = false) ->
  let c := System.client s in
  sender_ready cs c ->
  0 <= UDPClient.next_seq c ->
  UDPClient.base c < Z.of_nat (length cs) ->
  (forall z, z ∈ UDPClient.acked_packets c -> z < UDPClient.next_seq c) ->
  exists c',
    System.step (System.WindowTurn now lost) s
    = Some (System.mk c' (System.server s)) /\
    sender_ready cs c' /\
    UDPClient.base c' = UDPClient.base c /\
    UDPClient.acked_packets c' = UDPClient.acked_packets c /\
    UDPClient.next_seq c'
    = Z.max (UDPClient.next_seq c)
        (Z.min (UDPClient.base c + 10) (Z.of_nat (length cs))) /\
    (forall d, d ∈ UDPClient.outbox c -> d ∈ UDPClient.outbox c') /\
    (forall j : nat,
        UDPClient.next_seq c <= Z.of_nat j < UDPClient.next_seq c' ->
        Scenario.data_datagram cs j ∈ UDPClient.outbox c').
Proof.
  intros Hcs Hlost c Hready Hnext Hbase Hacked.
  pose proof Hready as (Hsock & Hst & Hrun & Hmode & Hw & Hen & Hdc & Htot).
  destruct (window_fill_spec cs now lost Hcs Hlost
              (Z.to_nat (UDPClient.total_chunks c - UDPClient.next_seq c)) c
              Hready Hnext Hacked ltac:(lia)) as (c' & Hfill & Hpost).
  exists c'. split; [|exact Hpost].
  unfold System.step. fold c. rewrite Hst, Hrun.
  rewrite bool_decide_eq_true_2 by lia. cbn [andb].
  unfold System.on_client, UDPClient.window_turn. fold c. unfold_m.
  rewrite Hw, Hen. change (Z.min 10 10) with 10. now rewrite Hfill.
Qed.

Lemma step_data now d p0 p s :
  encodes p0 d p -> Packet.flags p0 = Packet.FLAG_DATA ->
  d ∈ UDPClient.outbox (System.client s) ->
  let v := System.server s in
  receiver_ready v ->
  0 <= Packet.seq_no p0 + 1 < 2 ^ 32 ->
  exists v',
    System.step (System.ServerTurn now false d) s
    = Some (System.mk (System.client s) v') /\
    UDPServer.buffer v'
    = (ReceiverBuffer.add_packet (Packet.seq_no p0) (Packet.data p0)
         (UDPServer.buffer v)).2 /\
    UDPServer.outbox v'
    = UDPServer.outbox v
      ++ [(Scenario.wire (Packet.create_ack_packet 0 (Packet.seq_no p0 + 1) 10),
           System.client_addr)] /\
    receiver_ready v'.
Proof.
  intros Henc Hflag Hsent v (Hsock & Hcl & Hmode & Hw & Hfiles) Hseq.
  destruct (server_data_turn now d p0 p System.client_addr System.client_addr
              v Henc Hflag Hsock Hcl Hmode ltac:(lia) Hseq)
    as (v' & Hturn & Hbuf & Hout & H1 & H2 & H3 & H4 & H5).
  exists v'. split; [|split; [exact Hbuf|split]].
  - unfold System.step, System.sent_by_client.
    rewrite bool_decide_eq_true_2 by exact Hsent.
    unfold System.on_server. fold v. now rewrite Hturn.
  - rewrite Hout, Hw. reflexivity.
  - unfold receiver_ready. rewrite H1, H2, H3, H4, H5. repeat split; assumption.
Qed.

Lemma step_ack cs now d p0 p s :
  encodes p0 d p -> Packet.flags p0 = Packet.FLAG_ACK ->
  (d, System.client_addr) ∈ UDPServer.outbox (System.server s) ->
  let c := System.client s in
  sender_ready cs c ->
  Packet.ack_no p0 - 1 ∉ UDPClient.acked_packets c ->
  exists c',
    System.step (System.AckTurn now d) s
    = Some (System.mk c' (System.server s)) /\
    UDPClient.acked_packets c'
    = {[Packet.ack_no p0 - 1]} ∪ UDPClient.acked_packets c /\
    UDPClient.base c'
    = skip_present (fun k => bool_decide (k ∈ UDPClient.acked_packets c'))
        (size (UDPClient.acked_packets c')) (UDPClient.base c) /\
    sender_ready cs c' /\
    UDPClient.next_seq c' = UDPClient.next_seq c /\
    UDPClient.outbox c' = UDPClient.outbox c.
Proof.
  intros Henc Hflag Hsent c Hready Hnew.
  pose proof Hready as (Hsock & Hst & Hrun & Hmode & Hw & Hen & Hdc & Htot).
  destruct (client_ack_turn now d p0 p c Henc Hflag Hmode Hen Hnew)
    as (c' & Hturn & Hacked & Hbase &
        H1 & H2 & H3 & H4 & H5 & H6 & H7 & H8 & H9 & H10).
  exists c'. split; [|split; [exact Hacked|split; [exact Hbase|split; [|split]]]].
  - unfold System.step, System.sent_by_server. fold c. rewrite Hrun.
    rewrite bool_decide_eq_true_2 by exact Hsent. cbn [andb].
    unfold System.on_client. fold c. now rewrite Hturn.
  - unfold sender_ready. rewrite H1, H2, H3, H4, H5, H6, H7, H8.
    repeat split; assumption.
  - exact H9.
  - exact H10.
Qed.

Lemma chunk_encodes cs (k : nat) :
  sendable cs -> (k < length cs)%nat ->
  exists p,
    encodes (Packet.mk (Z.of_nat k) 0 Packet.FLAG_DATA 10
               (default [] (cs !! k)) 0)
      (Scenario.data_datagram cs k) p.
Proof.
  intros [Hcs Hlen] Hk. apply data_encodes; [lia|lia|].
  destruct (lookup_lt_is_Some_2 cs k Hk) as [chunk Hchunk].
  rewrite Hchunk. cbn [default].
  eapply Forall_lookup_1 in Hcs; [exact Hcs|exact Hchunk].
Qed.

Lemma ack_datagram_encodes cs (k : nat) :
  sendable cs -> (k <= length cs)%nat ->
  exists p,
    encodes (Packet.mk 0 (Z.of_nat k) Packet.FLAG_ACK 10 [] 0)
      (Scenario.ack_datagram k) p.
Proof. intros [_ Hlen] Hk. apply ack_encodes; lia. Qed.

(** After the sender has filled its window, every datagram below
    [next_seq] has been sent. *)
Lemma window_sent cs (c c' : UDPClient.t) :
  (forall j : nat, Z.of_nat j < UDPClient.next_seq c ->
                   Scenario.data_datagram cs j ∈ UDPClient.outbox c) ->
  (forall d, d ∈ UDPClient.outbox c -> d ∈ UDPClient.outbox c') ->
  (forall j : nat,
      UDPClient.next_seq c <= Z.of_nat j < UDPClient.next_seq c' ->
      Scenario.data_datagram cs j ∈ UDPClient.outbox c') ->
  forall j : nat, Z.of_nat j < UDPClient.next_seq c' ->
                  Scenario.data_datagram cs j ∈ UDPClient.outbox c'.
Proof.
  intros Hold Hkeep Hnew j Hj.
  destruct (decide (Z.of_nat j < UDPClient.next_seq c)) as [Hlt|Hge].
  - apply Hkeep, Hold, Hlt.
  - apply Hnew. lia.
Qed.

Lemma round_step cs (k : nat) s :
  sendable cs -> (k < length cs)%nat ->
  in_order_upto cs k s ->
  exists s',
    System.steps (Scenario.round cs k) s = Some s' /\
    in_order_upto cs (S k) s'.
Proof.
  intros Hcs Hk (Hready & Hbase & Hnext & Hacked & Hsent & Hrecv & Hbuf).
  (* the sender fills its window *)
  destruct (step_window cs 0%Q Scenario.no_loss s Hcs ltac:(reflexivity)
              Hready ltac:(lia) ltac:(lia)
              ltac:(intros z Hz; apply Hacked in Hz; lia))
    as (c1 & Hstep1 & Hready1 & Hbase1 & Hacked1 & Hnext1 & Hkeep1 & Hnew1).
  pose proof (window_sent cs _ c1 Hsent Hkeep1 Hnew1) as Hsent1.
  set (s1 := System.mk c1 (System.server s)) in *.
  (* the server receives chunk [k] *)
  destruct (chunk_encodes cs k Hcs Hk) as (p & Hp).
  destruct (step_data 0%Q _ _ p s1 Hp ltac:(reflexivity)
              ltac:(apply Hsent1; lia) Hrecv
              ltac:(destruct Hcs; cbn [Packet.seq_no]; lia))
    as (v2 & Hstep2 & Hbuf2 & Hout2 & Hrecv2).
  cbn [Packet.seq_no Packet.data System.server System.client s1] in *.
  rewrite Hbuf, add_packet_in_order in Hbuf2. cbn [snd] in Hbuf2.
  set (s2 := System.mk c1 v2) in *.
  (* the sender receives the acknowledgement *)
  destruct (ack_datagram_encodes cs (S k) Hcs Hk) as (q & Hq).
  destruct (step_ack cs 0%Q _ _ q s2 Hq ltac:(reflexivity)) as
    (c3 & Hstep3 & Hacked3 & Hbase3 & Hready3 & Hnext3 & Hout3).
  { cbn [System.server s2]. rewrite Hout2. apply elem_of_app. right.
    apply list_elem_of_singleton. unfold Scenario.ack_datagram.
    now replace (Z.of_nat k + 1) with (Z.of_nat (S k)) by lia. }
  { exact Hready1. }
  { cbn [Packet.ack_no System.client s2]. rewrite Hacked1, Hacked. lia. }
  cbn [Packet.ack_no System.client s2] in *.
  exists (System.mk c3 v2). split.
  - unfold Scenario.round. cbn [System.steps].
    rewrite Hstep1. fold s1. rewrite Hstep2. fold s2. now rewrite Hstep3.
  - assert (Hacked3' : forall z, z ∈ UDPClient.acked_packets c3
                                 <-> 0 <= z < Z.of_nat (S k)).
    { intros z. rewrite Hacked3, elem_of_union, elem_of_singleton,
        Hacked1, Hacked. lia. }
    unfold in_order_upto. cbn [System.client System.server].
    split; [exact Hready3|]. split.
    { rewrite Hbase3, Hbase1, Hbase. apply skip_to_gap.
      - lia.
      - rewrite Hacked3'. lia.
      - intros z Hz. apply Hacked3'. lia. }
    split; [lia|]. split; [exact Hacked3'|]. split.
    { intros j Hj. rewrite Hout3. apply Hsent1. lia. }
    split; [exact Hrecv2|exact Hbuf2].
Qed.

Lemma rounds_steps cs (m : nat) :
  sendable cs -> (m <= length cs)%nat ->
  forall (k : nat) s,
    (k <= m)%nat -> in_order_upto cs k s ->
    exists s',
      System.steps (flat_map (Scenario.round cs) (seq k (m - k))) s = Some s' /\
      in_order_upto cs m s'.
Proof.
  intros Hcs Hm k s Hk. remember (m - k)%nat as n eqn:Hn.
  revert k s Hk Hn. induction n as [|n IH]; intros k s Hk Hn Hinv.
  - assert (k = m) as -> by lia. exists s. split; [reflexivity|exact Hinv].
  - cbn [seq flat_map]. rewrite steps_app.
    destruct (round_step cs k s Hcs ltac:(lia) Hinv) as (s1 & Hs1 & Hinv1).
    rewrite Hs1. apply IH; [lia|lia|exact Hinv1].
Qed.

(** *** The end of the transfer *)

Lemma fin_encodes i :
  0 <= i < 2 ^ 32 ->
  exists p,
    encodes (Packet.mk i 0 Packet.FLAG_FIN 0 [] 0)
      (Scenario.wire (Packet.create_fin_packet i)) p.
Proof.
  intros Hi. rewrite create_fin_packet_eq. apply encodes_intro.
  - unfold Packet.wire_ranges, Packet.FLAG_FIN; cbn. lia.
  - cbn. lia.
Qed.

Lemma fin_ack_encodes a :
  0 <= a < 2 ^ 32 ->
  exists p,
    encodes (Packet.mk 0 a (Z.lor Packet.FLAG_FIN Packet.FLAG_ACK) 0 [] 0)
      (Scenario.wire (Packet.create_fin_ack_packet 0 a)) p.
Proof.
  intros Ha. rewrite create_fin_ack_packet_eq. apply encodes_intro.
  - unfold Packet.wire_ranges, Packet.FLAG_FIN, Packet.FLAG_ACK; cbn.
    change (Z.lor 4 2) with 6. lia.
  - cbn. lia.
Qed.

Lemma step_finish_send cs s :
  sendable cs ->
  let c := System.client s in
  sender_ready cs c ->
  UDPClient.base c >= UDPClient.total_chunks c ->
  UDPClient.next_seq c = Z.of_nat (length cs) ->
  exists c',
    System.step System.FinishSend s = Some (System.mk c' (System.server s)) /\
    UDPClient.state c' = CLOSING /\
    UDPClient.outbox c'
    = UDPClient.outbox c
      ++ [Scenario.wire (Packet.create_fin_packet (Z.of_nat (length cs)))].
Proof.
  intros [_ Hlen] c (Hsock & Hst & Hrun & _) Hbase Hnext.
  destruct (fin_encodes (Z.of_nat (length cs)) ltac:(lia)) as (p & Hto & _).
  unfold System.step. fold c. rewrite Hst, Hrun.
  rewrite bool_decide_eq_true_2 by exact Hbase. cbn [andb].
  unfold System.on_client, UDPClient.finish_send, UDPClient._set_state,
    UDPClient._send_raw_packet.
  fold c. unfold_m. cbn [UDPClient.next_seq UDPClient.set_state
    UDPClient.set_running UDPClient.socket].
  rewrite Hnext, Hsock, create_fin_packet_eq, Hto.
  eexists; split; [reflexivity|]. cbn. split; reflexivity.
Qed.

(** The server on a FIN: the file is what the buffer holds, and the
    FIN-ACK goes out. *)
Lemma step_fin now d p0 p s :
  encodes p0 d p -> Packet.flags p0 = Packet.FLAG_FIN ->
  d ∈ UDPClient.outbox (System.client s) ->
  let v := System.server s in
  receiver_ready v ->
  0 <= Packet.seq_no p0 + 1 < 2 ^ 32 ->
  exists v',
    System.step (System.ServerTurn now false d) s
    = Some (System.mk (System.client s) v') /\
    UDPServer.files v'
    = {[CongestionController.py_int now
        := ReceiverBuffer.get_ordered_data (UDPServer.buffer v)]} /\
    UDPServer.outbox v'
    = UDPServer.outbox v
      ++ [(Scenario.wire
             (Packet.create_fin_ack_packet 0 (Packet.seq_no p0 + 1)),
           System.client_addr)].
Proof.
  intros (_ & Hf & Hv & Hseq & _ & Hfl & _) Hflag Hsent v
    (Hsock & Hcl & Hmode & Hw & Hfiles) Hr.
  destruct (fin_ack_encodes (Packet.seq_no p0 + 1) Hr) as (q & Hq & _).
  unfold System.step, System.sent_by_client.
  rewrite bool_decide_eq_true_2 by exact Hsent.
  unfold System.on_server, UDPServer._receive_loop_turn,
    UDPServer._handle_packet.
  fold v. unfold_m. rewrite Hf, Hv. cbn [negb].
  unfold Packet.is_syn, Packet.is_data, Packet.is_fin. rewrite Hfl, Hflag.
  change (negb (Z.land Packet.FLAG_FIN Packet.FLAG_SYN =? 0)) with false.
  change (negb (Z.land Packet.FLAG_FIN Packet.FLAG_DATA =? 0)) with false.
  change (negb (Z.land Packet.FLAG_FIN Packet.FLAG_FIN =? 0)) with true.
  cbn [andb].
  unfold UDPServer._handle_fin. unfold_m.
  rewrite Hseq, create_fin_ack_packet_eq.
  erewrite send_packet_some; [|exact Hsock|exact Hq].
  eexists; split; [reflexivity|]. cbn. rewrite Hfiles.
  split; reflexivity.
Qed.

Lemma step_finish_recv now d p0 p s :
  encodes p0 d p ->
  (d, System.client_addr) ∈ UDPServer.outbox (System.server s) ->
  UDPClient.state (System.client s) = CLOSING ->
  exists c',
    System.step (System.FinishRecv now (RecvDatagram d)) s
    = Some (System.mk c' (System.server s)) /\
    UDPClient.state c' = COMPLETED.
Proof.
  intros (_ & Hf & _) Hsent Hst.
  unfold System.step. rewrite Hst.
  unfold System.receivable, System.sent_by_server.
  rewrite bool_decide_eq_true_2 by exact Hsent.
  unfold System.on_client, UDPClient.finish_recv, UDPClient._set_state.
  unfold_m. rewrite Hf.
  eexists; split; reflexivity.
Qed.

(** *** What the FIN commits *)

Lemma seq_sorted (a k : nat) : StronglySorted Z.le (Z.of_nat <$> seq a k).
Proof.
  revert a. induction k as [|k IH]; intros a; cbn; constructor.
  - apply IH.
  - apply Forall_fmap, Forall_forall. intros j Hj.
    apply elem_of_seq in Hj. cbn. lia.
Qed.

Lemma sorted_keys_prefix cs (k : nat) e mx :
  ReceiverBuffer.sorted_keys (ReceiverBuffer.mk e (prefix_map cs k) mx)
  = Z.of_nat <$> seq 0 k.
Proof.
  destruct (sorted_keys_spec (ReceiverBuffer.mk e (prefix_map cs k) mx))
    as (Hsorted & Hnodup & Hkeys).
  apply (StronglySorted_unique Z.le); [exact Hsorted|apply seq_sorted|].
  apply NoDup_Permutation; [exact Hnodup| |].
  - apply NoDup_fmap_2; [apply _|apply NoDup_seq].
  - intros z. rewrite Hkeys. cbn [ReceiverBuffer.received_data].
    rewrite prefix_map_lookup, list_elem_of_fmap.
    case_decide as Hz; split.
    + intros _. exists (Z.to_nat z). split; [lia|]. apply elem_of_seq. lia.
    + eauto.
    + intros [? [=]].
    + intros (j & -> & Hj). apply elem_of_seq in Hj. lia.
Qed.

Lemma get_ordered_data_prefix cs (k : nat) e mx :
  (k <= length cs)%nat ->
  ReceiverBuffer.get_ordered_data (ReceiverBuffer.mk e (prefix_map cs k) mx)
  = concat (take k cs).
Proof.
  intros Hk. rewrite get_ordered_data_concat, sorted_keys_prefix.
  cbn [ReceiverBuffer.received_data]. f_equal.
  rewrite <- list_fmap_compose.
  apply list_eq. intros i. rewrite list_lookup_fmap.
  destruct (decide (i < k)%nat) as [Hi|Hi].
  - rewrite lookup_seq_lt by exact Hi. cbn.
    rewrite prefix_map_lookup, decide_True by lia. cbn [default].
    rewrite Nat2Z.id, lookup_take_lt by exact Hi.
    destruct (lookup_lt_is_Some_2 cs i ltac:(lia)) as [chunk ->]. reflexivity.
  - rewrite lookup_seq_ge by lia. cbn.
    symmetry. apply lookup_ge_None_2. rewrite length_take. lia.
Qed.

(** *** [send_data] cuts the stream back into the chunks *)

Lemma chunks_of_nil fuel : UDPClient.chunks_of fuel [] = [].
Proof. now destruct fuel. Qed.

Lemma chunks_of_cons fuel data :
  data <> [] ->
  UDPClient.chunks_of (S fuel) data
  = take Packet.MAX_DATA_SIZE data
    :: UDPClient.chunks_of fuel (drop Packet.MAX_DATA_SIZE data).
Proof. intros H. destruct data; [congruence|reflexivity]. Qed.

Lemma chunks_of_concat full last :
  Forall (fun chunk => length chunk = Packet.MAX_DATA_SIZE) full ->
  (0 < length last <= Packet.MAX_DATA_SIZE)%nat ->
  forall fuel,
    (length (concat full ++ last) <= fuel)%nat ->
    UDPClient.chunks_of fuel (concat full ++ last) = full ++ [last].
Proof.
  intros Hfull Hlast. induction Hfull as [|chunk full Hchunk _ IH];
    intros fuel Hfuel; cbn [concat app] in *.
  - destruct fuel as [|fuel]; [lia|].
    rewrite chunks_of_cons by (intros ->; cbn in *; lia).
    rewrite take_ge, drop_ge by lia. now rewrite chunks_of_nil.
  - rewrite <- app_assoc in *. rewrite length_app in Hfuel.
    assert (0 < Packet.MAX_DATA_SIZE)%nat by (unfold Packet.MAX_DATA_SIZE; lia).
    destruct fuel as [|fuel]; [lia|].
    rewrite chunks_of_cons
      by (intros E; apply (f_equal length) in E;
          rewrite length_app in E; cbn in E; lia).
    rewrite take_app_length', drop_app_length' by (symmetry; exact Hchunk).
    f_equal. apply IH. lia.
Qed.

(** *** The whole session *)

Lemma handshake_steps :
  exists s,
    System.steps Scenario.handshake Scenario.sr_system = Some s /\ connected s.
Proof.
  assert (H : match System.steps Scenario.handshake Scenario.sr_system with
              | Some s => connected s
              | None => False
              end).
  { vm_compute. repeat split; reflexivity. }
  destruct (System.steps Scenario.handshake Scenario.sr_system) as [s|];
    [eauto|contradiction].
Qed.

Lemma step_send_data cs stream s :
  connected s ->
  UDPClient.chunks_of (length stream) stream = cs ->
  exists s',
    System.step (System.SendDataReset 0%Q stream) s = Some s' /\
    in_order_upto cs 0 s'.
Proof.
  intros (Hsock & Hst & Hmode & Hw & Hen & Hrecv & Hbuf) Hchunks.
  unfold System.step. rewrite Hst.
  unfold System.on_client, UDPClient.send_data_reset, UDPClient._set_state.
  unfold_m. rewrite Hchunks.
  eexists; split; [reflexivity|].
  unfold in_order_upto, sender_ready.
  cbn [System.client System.server UDPClient.socket UDPClient.state
       UDPClient.running UDPClient.mode UDPClient.window_size
       UDPClient.congestion UDPClient.data_chunks UDPClient.total_chunks
       UDPClient.base UDPClient.next_seq UDPClient.acked_packets
       UDPClient.outbox UDPClient.set_running UDPClient.set_state
       UDPClient.upd_congestion UDPClient.set_congestion UDPClient.set_stats
       UDPClient.set_acked_packets UDPClient.set_sent_packets
       UDPClient.set_next_seq UDPClient.set_base UDPClient.set_total_chunks
       UDPClient.set_data_chunks CongestionController.reset
       CongestionController.enabled].
  split; [repeat split; assumption || reflexivity|].
  split; [reflexivity|]. split; [lia|]. split.
  { intros z. split; [intros Hz; set_solver|lia]. }
  split; [intros j Hj; lia|]. split; [exact Hrecv|].
  rewrite Hbuf. reflexivity.
Qed.

(** Chunk [m + 1] arrives at a server that already holds [m >= 1024]
    chunks and still waits for chunk [m]: it is acknowledged and not
    stored. *)
Lemma overtake_steps cs (m : nat) s :
  sendable cs -> length cs = (m + 2)%nat -> 1024 <= Z.of_nat m ->
  in_order_upto cs m s ->
  exists s',
    System.steps (Scenario.overtake cs m) s = Some s' /\
    all_acked cs (S m) s'.
Proof.
  intros Hcs Hlen Hm (Hready & Hbase & Hnext & Hacked & Hsent & Hrecv & Hbuf).
  (* the sender fills its window *)
  destruct (step_window cs 0%Q Scenario.no_loss s Hcs ltac:(reflexivity)
              Hready ltac:(lia) ltac:(lia)
              ltac:(intros z Hz; apply Hacked in Hz; lia))
    as (c1 & Hstep1 & Hready1 & Hbase1 & Hacked1 & Hnext1 & Hkeep1 & Hnew1).
  pose proof (window_sent cs _ c1 Hsent Hkeep1 Hnew1) as Hsent1.
  set (s1 := System.mk c1 (System.server s)) in *.
  (* the server receives chunk [m + 1] *)
  destruct (chunk_encodes cs (S m) Hcs ltac:(lia)) as (p & Hp).
  destruct (step_data 0%Q _ _ p s1 Hp ltac:(reflexivity)
              ltac:(apply Hsent1; lia) Hrecv
              ltac:(destruct Hcs; cbn [Packet.seq_no]; lia))
    as (v2 & Hstep2 & Hbuf2 & Hout2 & Hrecv2).
  cbn [Packet.seq_no Packet.data System.server System.client s1] in *.
  rewrite Hbuf, add_packet_full in Hbuf2;
    [|cbn; lia|cbn; rewrite prefix_map_size; lia].
  cbn [snd] in Hbuf2.
  set (s2 := System.mk c1 v2) in *.
  (* the sender receives its acknowledgement *)
  destruct (ack_datagram_encodes cs (S (S m)) Hcs ltac:(lia)) as (q & Hq).
  destruct (step_ack cs 0%Q _ _ q s2 Hq ltac:(reflexivity)) as
    (c3 & Hstep3 & Hacked3 & Hbase3 & Hready3 & Hnext3 & Hout3).
  { cbn [System.server s2]. rewrite Hout2. apply elem_of_app. right.
    apply list_elem_of_singleton. unfold Scenario.ack_datagram.
    now replace (Z.of_nat (S m) + 1) with (Z.of_nat (S (S m))) by lia. }
  { exact Hready1. }
  { cbn [Packet.ack_no System.client s2]. rewrite Hacked1, Hacked. lia. }
  cbn [Packet.ack_no System.client System.server s2] in *.
  assert (Hacked3' : forall z, z ∈ UDPClient.acked_packets c3
                               <-> 0 <= z < Z.of_nat m \/ z = Z.of_nat m + 1).
  { intros z. rewrite Hacked3, elem_of_union, elem_of_singleton,
      Hacked1, Hacked. lia. }
  assert (Hbase3' : UDPClient.base c3 = Z.of_nat m).
  { rewrite Hbase3, Hbase1, Hbase. apply skip_to_gap.
    - lia.
    - rewrite Hacked3'. lia.
    - intros z Hz. lia. }
  set (s3 := System.mk c3 v2) in *.
  (* the server receives chunk [m] *)
  destruct (chunk_encodes cs m Hcs ltac:(lia)) as (p' & Hp').
  destruct (step_data 0%Q _ _ p' s3 Hp' ltac:(reflexivity)
              ltac:(cbn [System.client s3]; rewrite Hout3; apply Hsent1; lia)
              Hrecv2
              ltac:(destruct Hcs; cbn [Packet.seq_no]; lia))
    as (v4 & Hstep4 & Hbuf4 & Hout4 & Hrecv4).
  cbn [Packet.seq_no Packet.data System.server System.client s3] in *.
  rewrite Hbuf2, add_packet_in_order in Hbuf4. cbn [snd] in Hbuf4.
  set (s4 := System.mk c3 v4) in *.
  (* the sender receives its acknowledgement *)
  destruct (ack_datagram_encodes cs (S m) Hcs ltac:(lia)) as (q' & Hq').
  destruct (step_ack cs 0%Q _ _ q' s4 Hq' ltac:(reflexivity)) as
    (c5 & Hstep5 & Hacked5 & Hbase5 & Hready5 & Hnext5 & Hout5).
  { cbn [System.server s4]. rewrite Hout4. apply elem_of_app. right.
    apply list_elem_of_singleton. unfold Scenario.ack_datagram.
    now replace (Z.of_nat m + 1) with (Z.of_nat (S m)) by lia. }
  { exact Hready3. }
  { cbn [Packet.ack_no System.client s4]. rewrite Hacked3'. lia. }
  cbn [Packet.ack_no System.client System.server s4] in *.
  exists (System.mk c5 v4). split.
  - unfold Scenario.overtake. cbn [System.steps].
    rewrite Hstep1. fold s1. rewrite Hstep2. fold s2. rewrite Hstep3.
    fold s3. rewrite Hstep4. fold s4. now rewrite Hstep5.
  - assert (Hacked5' : forall z, z ∈ UDPClient.acked_packets c5
                                 <-> 0 <= z < Z.of_nat m + 2).
    { intros z. rewrite Hacked5, elem_of_union, elem_of_singleton, Hacked3'.
      lia. }
    unfold all_acked. cbn [System.client System.server].
    split; [exact Hready5|]. split.
    { rewrite Hbase5, Hbase3'. apply skip_to_gap.
      - lia.
      - rewrite Hacked5'. lia.
      - intros z Hz. apply Hacked5'. lia. }
    split; [lia|]. split; [exact Hrecv4|]. eauto.
Qed.

(** The sender, with everything acknowledged, reaches Completed; the
    file is what the server stored. *)
Lemma closing_steps cs (k : nat) s :
  sendable cs -> (k <= length cs)%nat ->
  all_acked cs k s ->
  exists s',
    System.steps (Scenario.closing cs) s = Some s' /\
    UDPClient.state (System.client s') = COMPLETED /\
    System.delivered s' = [concat (take k cs)].
Proof.
  intros Hcs Hk (Hready & Hbase & Hnext & Hrecv & e & Hbuf).
  pose proof Hcs as [_ Hlen].
  pose proof Hready as (_ & _ & _ & _ & _ & _ & _ & Htot).
  destruct (step_finish_send cs s Hcs Hready ltac:(lia) Hnext)
    as (c1 & Hstep1 & Hst1 & Hout1).
  set (s1 := System.mk c1 (System.server s)) in *.
  destruct (fin_encodes (Z.of_nat (length cs)) ltac:(lia)) as (p & Hp).
  destruct (step_fin 0%Q _ _ p s1 Hp ltac:(reflexivity)) as
    (v2 & Hstep2 & Hfiles2 & Hout2).
  { cbn [System.client s1]. rewrite Hout1. apply elem_of_app. right.
    now apply list_elem_of_singleton. }
  { exact Hrecv. }
  { cbn [Packet.seq_no]. lia. }
  cbn [Packet.seq_no System.client System.server s1] in *.
  set (s2 := System.mk c1 v2) in *.
  destruct (fin_ack_encodes (Z.of_nat (length cs) + 1) ltac:(lia))
    as (q & Hq).
  destruct (step_finish_recv 0%Q _ _ q s2 Hq) as (c3 & Hstep3 & Hst3).
  { cbn [System.server s2]. rewrite Hout2. apply elem_of_app. right.
    now apply list_elem_of_singleton. }
  { exact Hst1. }
  exists (System.mk c3 v2). split; [|split; [exact Hst3|]].
  - unfold Scenario.closing. cbn [System.steps].
    rewrite Hstep1. fold s1. rewrite Hstep2. fold s2. now rewrite Hstep3.
  - unfold System.delivered. cbn [System.server].
    rewrite Hfiles2, Hbuf, map_to_list_singleton. cbn [fmap list_fmap snd].
    now rewrite get_ordered_data_prefix.
Qed.

(** A Selective Repeat session over a network that only reorders: the
    stream has [m + 2] chunks, [m >= 1024], and chunk [m + 1] overtakes
    chunk [m].  The sender completes; the file lacks chunk [m + 1]. *)
Lemma session_steps cs (m : nat) stream :
  sendable cs -> length cs = (m + 2)%nat -> 1024 <= Z.of_nat m ->
  UDPClient.chunks_of (length stream) stream = cs ->
  exists s,
    System.steps (Scenario.session stream cs m) Scenario.sr_system = Some s /\
    UDPClient.state (System.client s) = COMPLETED /\
    System.delivered s = [concat (take (S m) cs)].
Proof.
  intros Hcs Hlen Hm Hchunks.
  destruct handshake_steps as (s0 & Hs0 & Hconn).
  destruct (step_send_data cs stream s0 Hconn Hchunks) as (s1 & Hs1 & Hinv1).
  destruct (rounds_steps cs m Hcs ltac:(lia) 0%nat s1 ltac:(lia) Hinv1)
    as (s2 & Hs2 & Hinv2).
  rewrite Nat.sub_0_r in Hs2.
  destruct (overtake_steps cs m s2 Hcs Hlen Hm Hinv2) as (s3 & Hs3 & Hall).
  destruct (closing_steps cs (S m) s3 Hcs ltac:(lia) Hall)
    as (s4 & Hs4 & Hst & Hfile).
  exists s4. split; [|split; assumption].
  unfold Scenario.session, Scenario.overtaking.
  rewrite steps_app, Hs0. cbn [app System.steps]. rewrite Hs1.
  rewrite steps_app, Hs2. rewrite steps_app, Hs3. exact Hs4.
Qed.

Lemma big_chunks_sendable : sendable Scenario.big_chunks.
Proof.
  unfold sendable, Scenario.big_chunks. split.
  - apply Forall_app. split.
    + apply Forall_replicate. rewrite length_replicate. lia.
    + apply Forall_singleton. cbn. unfold Packet.MAX_DATA_SIZE. lia.
  - rewrite length_app, length_replicate. cbn [length]. lia.
Qed.

Lemma big_stream_eq :
  Scenario.big_stream
  = concat (replicate 1025 (replicate Packet.MAX_DATA_SIZE "a"%byte))
    ++ ["z"%byte].
Proof.
  unfold Scenario.big_stream, Scenario.big_chunks.
  rewrite concat_app. reflexivity.
Qed.

Lemma big_stream_chunks :
  UDPClient.chunks_of (length Scenario.big_stream) Scenario.big_stream
  = Scenario.big_chunks.
Proof.
  rewrite big_stream_eq. apply chunks_of_concat.
  - apply Forall_replicate, length_replicate.
  - cbn. unfold Packet.MAX_DATA_SIZE. lia.
  - reflexivity.
Qed.

(** C1 (what the code does instead).  A Selective Repeat session, window
    10, over a network that loses nothing and duplicates nothing: the
    handshake, then [send_data] of a stream of 1026 chunks (1025 chunks of
    1024 bytes and one last byte); chunks 0 to 1023 arrive in order and
    are acknowledged; then chunk 1025 arrives before chunk 1024.  The
    server, whose buffer holds 1024 chunks by then, acknowledges chunk
    1025 without storing it; the sender counts it acknowledged, and once
    chunk 1024 is acknowledged too it sends its FIN and reaches Completed.
    The file the server writes is the first 1025 chunks only: it is not
    the stream that was sent. *)
Theorem C1_completed_without_a_chunk :
  exists s,
    System.steps
      (Scenario.session Scenario.big_stream Scenario.big_chunks 1024)
      Scenario.sr_system = Some s /\
    UDPClient.state (System.client s) = COMPLETED /\
    System.delivered s = [concat (take 1025 Scenario.big_chunks)] /\
    System.delivered s <> [Scenario.big_stream].
Proof.
  destruct (session_steps Scenario.big_chunks 1024 Scenario.big_stream
              big_chunks_sendable) as (s & Hs & Hst & Hfile).
  - unfold Scenario.big_chunks. rewrite length_app, length_replicate.
    reflexivity.
  - lia.
  - exact big_stream_chunks.
  - exists s. split; [exact Hs|]. split; [exact Hst|].
    split; [exact Hfile|]. rewrite Hfile. intros E.
    apply (f_equal (fun l => length (concat l))) in E.
    cbn [concat] in E. rewrite !app_nil_r, big_stream_eq in E.
    unfold Scenario.big_chunks in E.
    rewrite take_app_length' in E by (now rewrite length_replicate).
    rewrite length_app in E. cbn [length] in E. lia.
Qed.

End Transfer.
